(** * Reserve planner: allocation building, template scaling, truck packing

    A shallow embedding of [planner.py] (functions [_round_div],
    [_scale_pallets], [build_allocations], [pack_trucks], and after them
    [write_output], the conversions [_to_int], [_to_float], [_to_date], the
    loaders [load_demand], [load_reserve], [load_template] and [run_plan])
    and the properties of the planning core and of the loaders.

    Conventions of the embedding.
    - A Python [int] is a [Z].
    - A Python [float] is the rational number it denotes (a [Q]); every
      floating operation computes the exact rational result and rounds it to
      the nearest binary64 value, ties to even ([rnd64]).  Only finite values
      are represented and the exponent has no upper limit, so [inf], [nan]
      and overflow are outside the model: a value of the model is the value
      of the interpreter as long as it stays below 2^1024 in magnitude.
      [finite64], [build_in_range] and [item_in_range] delimit that range,
      and the theorems that say that the code returns a result carry them
      as hypotheses; the loaders answer [Unmodelled] where a cell converts
      to [inf] or [nan].
    - A Python [dict] is an association list in insertion order.
    - A [datetime] is a [Z] (any totally ordered time stamp).
    - The [while] loop of [pack_trucks] takes a fuel argument; [None] means
      the loop is still running when the fuel is spent. *)

From Stdlib Require Import ZArith QArith Qround Qabs Qpower Qreduction.
From Stdlib Require Import String List Bool Lia Permutation Sorted.
Import ListNotations.

Set Implicit Arguments.

(* ================================================================= *)
(** * Part I: definitions *)
(* ================================================================= *)

(** ** Binary64 arithmetic on exact values *)

Definition float := Q.
Bind Scope Q_scope with float.

(** Nearest integer, ties to the even one: Python's [round(x)] on a float,
    and the tie rule of binary64 rounding. *)
Definition round_half_even (x : Q) : Z :=
  let f := Qfloor x in
  match Qcompare (x - inject_Z f) (1 # 2) with
  | Lt => f
  | Gt => (f + 1)%Z
  | Eq => if Z.even f then f else (f + 1)%Z
  end.

(** [ilog2 x] is the exponent of the binade of [x <> 0]:
    [2 ^ ilog2 x <= |x| < 2 ^ (ilog2 x + 1)]. *)
Definition ilog2 (x : Q) : Z :=
  let l := (Z.log2 (Z.abs (Qnum x)) - Z.log2 (Zpos (Qden x)))%Z in
  if Qle_bool (2 ^ l) (Qabs x) then l else (l - 1)%Z.

(** Rounding to binary64: 53 significant bits, smallest exponent -1074, no
    upper limit on the exponent (a result of magnitude 2^1024 or more
    stands for an overflow of the interpreter, see [finite64]). *)
Definition rnd64 (x : Q) : float :=
  let y := Qred x in
  if Qeq_bool y 0 then 0
  else
    let e := Z.max (ilog2 y - 52) (-1074) in
    Qred (inject_Z (round_half_even (y / 2 ^ e)) * 2 ^ e).

Definition Qtrunc (x : Q) : Z :=
  if Qle_bool 0 x then Qfloor x else Qceiling x.

Definition Qlt_bool (x y : Q) : bool := negb (Qle_bool y x).

(** [float(n)] *)
Definition float_of_int (n : Z) : float := rnd64 (inject_Z n).
(** [a / b] on two ints: the correctly rounded quotient *)
Definition int_truediv (a b : Z) : float := rnd64 (inject_Z a / inject_Z b).
Definition float_add (x y : float) : float := rnd64 (x + y).
Definition float_sub (x y : float) : float := rnd64 (x - y).
Definition float_mul (x y : float) : float := rnd64 (x * y).
Definition float_div (x y : float) : float := rnd64 (x / y).
(** [int(x)]: truncation toward zero *)
Definition int_of_float (x : float) : Z := Qtrunc x.
(** [math.ceil(x)] *)
Definition math_ceil (x : float) : Z := Qceiling x.

(** C's [fmod]: exact, with the sign of the dividend. *)
Definition fmod (x y : float) : float :=
  Qred (x - inject_Z (Qtrunc (x / y)) * y).

(** [vx // wx] on floats, as the interpreter computes it: the remainder by
    [fmod], the quotient of [vx - mod] by [wx], then a snap to the nearest
    integral value. *)
Definition float_floordiv (vx wx : float) : float :=
  let md := fmod vx wx in
  let dv := float_div (float_sub vx md) wx in
  let dv :=
    if negb (Qeq_bool md 0) && negb (Bool.eqb (Qlt_bool wx 0) (Qlt_bool md 0))
    then float_sub dv 1 else dv in
  if Qeq_bool dv 0 then 0
  else
    let fl := inject_Z (Qfloor dv) in
    if Qlt_bool (1 # 2) (float_sub dv fl) then float_add fl 1 else fl.

(** ** [_round_div] *)

(** The body in the finite range of binary64; [round_div_checked] adds the
    exceptions the interpreter raises when an operand or the sum
    [numer + denom / 2] leaves that range. *)
Definition _round_div (numer denom : Z) : Z :=
  if (denom <=? 0)%Z then 0%Z
  else
    int_of_float
      (float_floordiv (float_add (float_of_int numer) (int_truediv denom 2))
                      (float_of_int denom)).

(** Round-half-up of the exact quotient, in integer arithmetic. *)
Definition round_half_up (n d : Z) : Z := ((2 * n + d) / (2 * d))%Z.

(** ** Dictionaries and sorting *)

Section Dict.
Variables K V : Type.
Variable eqb : K -> K -> bool.

Definition dict := list (K * V).

(** [d.get(k)] *)
Fixpoint dict_get (d : dict) (k : K) : option V :=
  match d with
  | [] => None
  | (k', v) :: r => if eqb k' k then Some v else dict_get r k
  end.

(** [d.get(k, dflt)] *)
Definition dict_get_default (d : dict) (k : K) (dflt : V) : V :=
  match dict_get d k with Some v => v | None => dflt end.

(** [k in d] *)
Definition dict_mem (d : dict) (k : K) : bool :=
  match dict_get d k with Some _ => true | None => false end.

(** [d[k] = f(d[k])] for a key that is present; the key keeps its place. *)
Fixpoint dict_update (d : dict) (k : K) (f : V -> V) : dict :=
  match d with
  | [] => []
  | (k', v) :: r =>
      if eqb k' k then (k', f v) :: r else (k', v) :: dict_update r k f
  end.

(** [d[k] = v]: in place for a present key, at the end for a new one. *)
Definition dict_set (d : dict) (k : K) (v : V) : dict :=
  if dict_mem d k then dict_update d k (fun _ => v) else d ++ [(k, v)].

(** [d.setdefault(k, v)] *)
Definition dict_setdefault (d : dict) (k : K) (v : V) : dict :=
  if dict_mem d k then d else d ++ [(k, v)].
End Dict.

Section StableSort.
Variable A : Type.
Variable le : A -> A -> bool.

Fixpoint insert_sorted (x : A) (l : list A) : list A :=
  match l with
  | [] => [x]
  | y :: r => if le x y then x :: l else y :: insert_sorted x r
  end.

(** A stable sort: among elements that compare equal the earlier one of
    the input stays first, as [list.sort] and [sorted] guarantee. *)
Fixpoint stable_sort (l : list A) : list A :=
  match l with
  | [] => []
  | x :: r => insert_sorted x (stable_sort r)
  end.
End StableSort.

Definition sum_Z (l : list Z) : Z := fold_right Z.add 0%Z l.

(** The first loop of [_scale_pallets]: for every supplier the floor part
    and the remainder of [pallets * demand_int / base_demand]. *)
Definition floor_parts (demand_int base_demand : Z)
    (pallets_by_supplier : dict Z Z) : dict Z Z :=
  map (fun sp => (fst sp, (snd sp * demand_int / base_demand)%Z))
      pallets_by_supplier.

Definition remainder_parts (demand_int base_demand : Z)
    (pallets_by_supplier : dict Z Z) : dict Z Z :=
  map (fun sp => (fst sp, (snd sp * demand_int mod base_demand)%Z))
      pallets_by_supplier.

(** ** [_scale_pallets] *)

Definition _scale_pallets (pallets_by_supplier : dict Z Z) (base_demand : Z)
    (demand_value : float) : dict Z Z :=
  let demand_int := Z.max 0 (round_half_even demand_value) in
  if ((base_demand <=? 0) || (demand_int <=? 0))%Z then []
  else
    let total_pallets := sum_Z (map snd pallets_by_supplier) in
    let desired_total := _round_div (total_pallets * demand_int) base_demand in
    let scaled := floor_parts demand_int base_demand pallets_by_supplier in
    let remainders :=
      remainder_parts demand_int base_demand pallets_by_supplier in
    let total_scaled := sum_Z (map snd scaled) in
    let delta := (desired_total - total_scaled)%Z in
    let scaled :=
      if (0 <? delta)%Z then
        fold_left (fun sc sr => dict_update Z.eqb sc (fst sr) (fun v => (v + 1)%Z))
          (firstn (Z.to_nat delta)
             (stable_sort (fun x y => (snd y <=? snd x)%Z) remainders))
          scaled
      else if (delta <? 0)%Z then
        fold_left
          (fun sc sr => dict_update Z.eqb sc (fst sr) (fun v => Z.max 0 (v - 1)))
          (firstn (Z.to_nat (Z.abs delta))
             (stable_sort (fun x y => (snd x <=? snd y)%Z) remainders))
          scaled
      else scaled in
    filter (fun kv => (0 <? snd kv)%Z) scaled.

(** ** Record model *)

Definition key := (Z * Z * Z)%type.

Definition key_eqb (a b : key) : bool :=
  let '(r1, p1, d1) := a in
  let '(r2, p2, d2) := b in
  ((r1 =? r2) && (p1 =? p2) && (d1 =? d2))%Z.

Definition pair_eqb (a b : Z * Z) : bool :=
  ((fst a =? fst b) && (snd a =? snd b))%Z.

Module DemandRow.
Record t := mk {
  rc : Z; rc_name : string; plu : Z; plu_name : string;
  date : Z; qty : float }.
End DemandRow.

Module ReserveInfo.
Record t := mk {
  supplier_name : dict Z string;
  plu_name : dict Z string;
  rc_name : dict Z string;
  pallet_weight : dict Z float;
  max_pallets : dict Z Z;
  reserve : dict (Z * Z) float;
  suppliers_by_plu : dict Z (list Z) }.
End ReserveInfo.

Module TemplateEntry.
Record t := mk {
  pallets_by_supplier : dict Z Z;
  total_pallets : Z;
  base_demand : Z }.
End TemplateEntry.

Module TemplateData.
Record t := mk {
  entries : dict key TemplateEntry.t;
  shoulder_map : dict (Z * Z) Z;
  supplier_name : dict Z string;
  plu_name : dict Z string;
  rc_name : dict Z string;
  pallet_weight : dict Z float }.
End TemplateData.

Module AllocationItem.
(** [supplier_name] is [None] where the source leaves Python's [None]. *)
Record t := mk {
  rc : Z; rc_name : string; plu : Z; plu_name : string; date : Z;
  supplier : Z; supplier_name : option string;
  pallet_weight : float; pallets : Z }.
End AllocationItem.

Module OutputRow.
Record t := mk {
  date : Z; supplier : Z; supplier_name : option string;
  plu : Z; plu_name : string; rc : Z; rc_name : string;
  volume : float; truck_id : Z; shoulder : Z;
  pallet_weight : float; pallets : Z }.
End OutputRow.

Module RunOptions.
Record t := mk {
  use_template : bool;
  scale_template : bool;
  include_template_without_demand : bool;
  use_template_when_no_demand : bool;
  ignore_reserve_limits : bool;
  default_truck_pallets : Z }.

Definition default : t := mk true true true true true 32.
End RunOptions.

(** ** [build_allocations] *)

Definition nonempty (s : string) : bool :=
  match s with EmptyString => false | _ => true end.

(** Truth value of an optional float: [None] and [0.0] are false. *)
Definition truthy_float (x : option float) : bool :=
  match x with Some v => negb (Qeq_bool v 0) | None => false end.

Definition truthy_string (x : option string) : bool :=
  match x with Some s => nonempty s | None => false end.

Definition row_key (row : DemandRow.t) : key :=
  (DemandRow.rc row, DemandRow.plu row, DemandRow.date row).

(** One round of the first loop: sum the quantity under the record's key and
    back-fill the display names of the catalog. *)
Definition aggregate_step (acc : dict key float * ReserveInfo.t)
    (row : DemandRow.t) : dict key float * ReserveInfo.t :=
  let '(demand_by_key, reserve) := acc in
  let k := row_key row in
  let demand_by_key :=
    dict_set key_eqb demand_by_key k
      (float_add (dict_get_default key_eqb demand_by_key k 0) (DemandRow.qty row)) in
  let rc_name :=
    if nonempty (DemandRow.rc_name row)
    then dict_setdefault Z.eqb (ReserveInfo.rc_name reserve)
           (DemandRow.rc row) (DemandRow.rc_name row)
    else ReserveInfo.rc_name reserve in
  let plu_name :=
    if nonempty (DemandRow.plu_name row)
    then dict_setdefault Z.eqb (ReserveInfo.plu_name reserve)
           (DemandRow.plu row) (DemandRow.plu_name row)
    else ReserveInfo.plu_name reserve in
  (demand_by_key,
   ReserveInfo.mk (ReserveInfo.supplier_name reserve) plu_name rc_name
     (ReserveInfo.pallet_weight reserve) (ReserveInfo.max_pallets reserve)
     (ReserveInfo.reserve reserve) (ReserveInfo.suppliers_by_plu reserve)).

Definition aggregate (demand_rows : list DemandRow.t) (reserve : ReserveInfo.t)
  : dict key float * ReserveInfo.t :=
  fold_left aggregate_step demand_rows ([], reserve).

(** The back-fill of [base_demand] in every template entry, for finite
    aggregated quantities ([running_sums]; [int(round(inf))] raises). *)
Definition set_base_demand (demand_by_key : dict key float)
    (template : TemplateData.t) : TemplateData.t :=
  TemplateData.mk
    (map (fun ke =>
            (fst ke,
             TemplateEntry.mk
               (TemplateEntry.pallets_by_supplier (snd ke))
               (TemplateEntry.total_pallets (snd ke))
               (round_half_even
                  (dict_get_default key_eqb demand_by_key (fst ke) 0))))
         (TemplateData.entries template))
    (TemplateData.shoulder_map template) (TemplateData.supplier_name template)
    (TemplateData.plu_name template) (TemplateData.rc_name template)
    (TemplateData.pallet_weight template).

(** Pallet weight of a product in the per-record loop. *)
Definition row_pallet_weight (reserve : ReserveInfo.t)
    (template : option TemplateData.t) (plu : Z) : float :=
  let pw := dict_get Z.eqb (ReserveInfo.pallet_weight reserve) plu in
  let pw :=
    if truthy_float pw then pw
    else match template with
         | Some t => dict_get Z.eqb (TemplateData.pallet_weight t) plu
         | None => None
         end in
  match pw with
  | Some v => if Qeq_bool v 0 then 1 else v
  | None => 1
  end.

(** The split of one demand record: the body of the second loop up to the
    choice of [pallets_by_supplier].  The quotient of the fallback is taken
    in the finite range ([row_in_range]); [math.ceil] raises on [inf]. *)
Definition row_split (reserve : ReserveInfo.t) (template : option TemplateData.t)
    (options : RunOptions.t) (row : DemandRow.t) : dict Z Z :=
  let pallet_weight := row_pallet_weight reserve template (DemandRow.plu row) in
  let fallback :=
    let pallets_total := math_ceil (float_div (DemandRow.qty row) pallet_weight) in
    let suppliers :=
      dict_get_default Z.eqb (ReserveInfo.suppliers_by_plu reserve)
        (DemandRow.plu row) [] in
    let supplier := match suppliers with s :: _ => s | [] => 0%Z end in
    if (supplier =? 0)%Z then [] else [(supplier, pallets_total)] in
  match template with
  | Some t =>
      if RunOptions.use_template options then
        match dict_get key_eqb (TemplateData.entries t) (row_key row) with
        | Some entry =>
            if RunOptions.scale_template options
               && (0 <? TemplateEntry.base_demand entry)%Z
            then _scale_pallets (TemplateEntry.pallets_by_supplier entry)
                   (TemplateEntry.base_demand entry) (DemandRow.qty row)
            else if RunOptions.use_template_when_no_demand options
                    || negb (RunOptions.scale_template options)
            then TemplateEntry.pallets_by_supplier entry
            else []
        | None => fallback
        end
      else fallback
  | None => fallback
  end.

(** The items one record contributes: one per supplier with [pallets > 0]. *)
Definition row_items (reserve : ReserveInfo.t) (template : option TemplateData.t)
    (row : DemandRow.t) (pallets_by_supplier : dict Z Z)
  : list AllocationItem.t :=
  let pallet_weight := row_pallet_weight reserve template (DemandRow.plu row) in
  flat_map
    (fun sp =>
       let '(supplier, pallets) := sp in
       if (pallets <=? 0)%Z then []
       else
         let sn := dict_get Z.eqb (ReserveInfo.supplier_name reserve) supplier in
         let supplier_name :=
           if truthy_string sn then sn
           else match template with
                | Some t => dict_get Z.eqb (TemplateData.supplier_name t) supplier
                | None => Some EmptyString
                end in
         [AllocationItem.mk
            (DemandRow.rc row)
            (dict_get_default Z.eqb (ReserveInfo.rc_name reserve)
               (DemandRow.rc row) (DemandRow.rc_name row))
            (DemandRow.plu row)
            (dict_get_default Z.eqb (ReserveInfo.plu_name reserve)
               (DemandRow.plu row) (DemandRow.plu_name row))
            (DemandRow.date row) supplier supplier_name pallet_weight pallets])
    pallets_by_supplier.

(** The items of the template entries whose key has no demand at all. *)
Definition template_only_items (demand_by_key : dict key float)
    (reserve : ReserveInfo.t) (t : TemplateData.t) : list AllocationItem.t :=
  flat_map
    (fun ke =>
       let '((rc, plu, date), entry) := ke in
       if dict_mem key_eqb demand_by_key (rc, plu, date) then []
       else
         let pw := dict_get Z.eqb (ReserveInfo.pallet_weight reserve) plu in
         let pw :=
           if truthy_float pw then pw
           else dict_get Z.eqb (TemplateData.pallet_weight t) plu in
         let pallet_weight := match pw with
                              | Some v => if Qeq_bool v 0 then 1 else v
                              | None => 1
                              end in
         flat_map
           (fun sp =>
              let '(supplier, pallets) := sp in
              if (pallets <=? 0)%Z then []
              else
                let sn := dict_get Z.eqb (ReserveInfo.supplier_name reserve) supplier in
                let supplier_name :=
                  if truthy_string sn then sn
                  else Some (dict_get_default Z.eqb (TemplateData.supplier_name t)
                               supplier EmptyString) in
                [AllocationItem.mk rc
                   (dict_get_default Z.eqb (ReserveInfo.rc_name reserve) rc
                      (dict_get_default Z.eqb (TemplateData.rc_name t) rc EmptyString))
                   plu
                   (dict_get_default Z.eqb (ReserveInfo.plu_name reserve) plu
                      (dict_get_default Z.eqb (TemplateData.plu_name t) plu EmptyString))
                   date supplier supplier_name pallet_weight pallets])
           (TemplateEntry.pallets_by_supplier entry))
    (TemplateData.entries t).

(** Step 4: the template-only items, when the template is in use and
    [include_template_without_demand] is set. *)
Definition step4_items (demand_by_key : dict key float)
    (reserve : ReserveInfo.t) (template : option TemplateData.t)
    (options : RunOptions.t) : list AllocationItem.t :=
  match template with
  | Some t =>
      if RunOptions.use_template options
         && RunOptions.include_template_without_demand options
      then template_only_items demand_by_key reserve t
      else []
  | None => []
  end.

(** [build_allocations] returns the items; the catalog and the template it
    has updated in place are returned with them. *)
Definition build_allocations (demand_rows : list DemandRow.t)
    (reserve : ReserveInfo.t) (template : option TemplateData.t)
    (options : RunOptions.t)
  : list AllocationItem.t * ReserveInfo.t * option TemplateData.t :=
  let '(demand_by_key, reserve) := aggregate demand_rows reserve in
  let template := option_map (set_base_demand demand_by_key) template in
  let items :=
    fold_left
      (fun items row =>
         items ++ row_items reserve template row
                    (row_split reserve template options row))
      demand_rows [] in
  (items ++ step4_items demand_by_key reserve template options,
   reserve, template).

(** *** Step 3 in the words of the specification

    One split per aggregated demand key, computed by the same branches from
    the aggregated quantity of the key. *)
Definition split_for_key_spec (reserve : ReserveInfo.t)
    (template : option TemplateData.t) (options : RunOptions.t)
    (k : key) (aggregated_quantity : float) : dict Z Z :=
  let '(rc, plu, date) := k in
  row_split reserve template options
    (DemandRow.mk rc EmptyString plu EmptyString date aggregated_quantity).

(** "Step 3 determines one split per aggregated key, from the aggregated
    quantity": the (key, split) pairs of the per-record loop are those of
    [split_for_key_spec] over the aggregated demand. *)
Definition one_split_per_key (demand_rows : list DemandRow.t)
    (reserve : ReserveInfo.t) (template : option TemplateData.t)
    (options : RunOptions.t) : Prop :=
  let demand_by_key := fst (aggregate demand_rows reserve) in
  let reserve' := snd (aggregate demand_rows reserve) in
  let template' := option_map (set_base_demand demand_by_key) template in
  map (fun row => (row_key row, row_split reserve' template' options row))
      demand_rows
  = map (fun kq => (fst kq,
                    split_for_key_spec reserve' template' options
                      (fst kq) (snd kq)))
        demand_by_key.

(** ** [pack_trucks] *)

Record PackState := mkPackState {
  rows : list OutputRow.t;
  truck_id : Z;
  remaining : Z;
  current_truck : Z }.

(** [cap] of a supplier. *)
Definition truck_capacity (reserve : ReserveInfo.t) (options : RunOptions.t)
    (supplier : Z) : Z :=
  dict_get_default Z.eqb (ReserveInfo.max_pallets reserve) supplier
    (RunOptions.default_truck_pallets options).

Definition shoulder_of (template : option TemplateData.t) (supplier rc : Z) : Z :=
  match template with
  | Some t => dict_get_default pair_eqb (TemplateData.shoulder_map t) (supplier, rc) 1%Z
  | None => 1%Z
  end.

(** [if remaining == 0:] a new truck id is taken from the counter. *)
Definition open_truck (cap : Z) (st : PackState) : PackState :=
  if (remaining st =? 0)%Z
  then mkPackState (rows st) (truck_id st + 1) cap (truck_id st)
  else st.

(** The row appended in one round of the loop; the volume is taken in the
    finite range ([item_in_range]), [take * pallet_weight] raising
    [OverflowError] for an integer too large for a float. *)
Definition output_row (supplier : Z) (template : option TemplateData.t)
    (item : AllocationItem.t) (take current : Z) : OutputRow.t :=
  OutputRow.mk (AllocationItem.date item) supplier
    (AllocationItem.supplier_name item)
    (AllocationItem.plu item) (AllocationItem.plu_name item)
    (AllocationItem.rc item) (AllocationItem.rc_name item)
    (float_mul (float_of_int take) (AllocationItem.pallet_weight item))
    current
    (shoulder_of template supplier (AllocationItem.rc item))
    (AllocationItem.pallet_weight item) take.

(** One round of the [while] loop: the new [pallets_left] and state. *)
Definition while_body (cap supplier : Z) (template : option TemplateData.t)
    (item : AllocationItem.t) (pallets_left : Z) (st : PackState)
  : Z * PackState :=
  let st := open_truck cap st in
  let take := Z.min (remaining st) pallets_left in
  ((pallets_left - take)%Z,
   mkPackState
     (rows st ++ [output_row supplier template item take (current_truck st)])
     (truck_id st) (remaining st - take)%Z (current_truck st)).

(** [while pallets_left > 0]; [None] when the fuel runs out first. *)
Fixpoint while_loop (fuel : nat) (cap supplier : Z)
    (template : option TemplateData.t) (item : AllocationItem.t)
    (pallets_left : Z) (st : PackState) : option PackState :=
  if (0 <? pallets_left)%Z then
    match fuel with
    | O => None
    | S fuel' =>
        let '(pallets_left', st') :=
          while_body cap supplier template item pallets_left st in
        while_loop fuel' cap supplier template item pallets_left' st'
    end
  else Some st.

(** [for item in items_sorted] *)
Fixpoint for_items (fuel : nat) (cap supplier : Z)
    (template : option TemplateData.t) (items : list AllocationItem.t)
    (st : PackState) : option PackState :=
  match items with
  | [] => Some st
  | item :: rest =>
      match while_loop fuel cap supplier template item
              (AllocationItem.pallets item) st with
      | Some st' => for_items fuel cap supplier template rest st'
      | None => None
      end
  end.

Definition item_le (x y : AllocationItem.t) : bool :=
  ((AllocationItem.date x <? AllocationItem.date y)
   || ((AllocationItem.date x =? AllocationItem.date y)
       && ((AllocationItem.rc x <? AllocationItem.rc y)
           || ((AllocationItem.rc x =? AllocationItem.rc y)
               && (AllocationItem.plu x <=? AllocationItem.plu y)))))%Z.

(** [grouped.setdefault(item.supplier, []).append(item)] *)
Definition group_step (grouped : dict Z (list AllocationItem.t))
    (item : AllocationItem.t) : dict Z (list AllocationItem.t) :=
  dict_update Z.eqb
    (dict_setdefault Z.eqb grouped (AllocationItem.supplier item) [])
    (AllocationItem.supplier item) (fun l => l ++ [item]).

Definition group_items (items : list AllocationItem.t)
  : dict Z (list AllocationItem.t) :=
  fold_left group_step items [].

(** [for supplier in sorted(grouped.keys())]; the state between suppliers is
    the row list and the truck counter. *)
Fixpoint for_suppliers (fuel : nat) (reserve : ReserveInfo.t)
    (template : option TemplateData.t) (options : RunOptions.t)
    (grouped : dict Z (list AllocationItem.t)) (suppliers : list Z)
    (out : list OutputRow.t) (next_truck : Z) : option (list OutputRow.t * Z) :=
  match suppliers with
  | [] => Some (out, next_truck)
  | supplier :: rest =>
      let cap := truck_capacity reserve options supplier in
      let items_sorted :=
        stable_sort item_le (dict_get_default Z.eqb grouped supplier []) in
      match for_items fuel cap supplier template items_sorted
              (mkPackState out next_truck 0 0) with
      | Some st =>
          for_suppliers fuel reserve template options grouped rest
            (rows st) (truck_id st)
      | None => None
      end
  end.

(** [pack_trucks] with the final value of the truck counter. *)
Definition pack_trucks_counter (fuel : nat) (items : list AllocationItem.t)
    (reserve : ReserveInfo.t) (template : option TemplateData.t)
    (options : RunOptions.t) : option (list OutputRow.t * Z) :=
  let grouped := group_items items in
  for_suppliers fuel reserve template options grouped
    (stable_sort Z.leb (map fst grouped)) [] 1%Z.

Definition pack_trucks (fuel : nat) (items : list AllocationItem.t)
    (reserve : ReserveInfo.t) (template : option TemplateData.t)
    (options : RunOptions.t) : option (list OutputRow.t) :=
  option_map fst (pack_trucks_counter fuel items reserve template options).

(** The core of [run_plan]: [build_allocations], then [pack_trucks] on the
    catalog and template it has updated. *)
Definition run_core (fuel : nat) (demand_rows : list DemandRow.t)
    (reserve : ReserveInfo.t) (template : option TemplateData.t)
    (options : RunOptions.t) : option (list OutputRow.t) :=
  let '(items, reserve', template') :=
    build_allocations demand_rows reserve template options in
  pack_trucks fuel items reserve' template' options.


(** ** Notions used to state the properties *)

(** The truck ids of a list of output rows, in order. *)
Definition ids (rs : list OutputRow.t) : list Z := map OutputRow.truck_id rs.

(** The pallets the rows of [rs] put on truck [t]. *)
Definition load (rs : list OutputRow.t) (t : Z) : Z :=
  sum_Z (map OutputRow.pallets
           (filter (fun r => (OutputRow.truck_id r =? t)%Z) rs)).

(** What holds of the rows emitted so far and of the truck counter, for a
    capacity function [capf] on suppliers. *)
Record rows_ok (capf : Z -> Z) (out : list OutputRow.t) (next : Z) : Prop := {
  ok_next : (1 <= next)%Z;
  ok_ids : forall t, In t (ids out) <-> (1 <= t < next)%Z;
  ok_sorted : StronglySorted Z.le (ids out);
  ok_one_supplier : forall r1 r2, In r1 out -> In r2 out ->
    OutputRow.truck_id r1 = OutputRow.truck_id r2 ->
    OutputRow.supplier r1 = OutputRow.supplier r2;
  ok_load : forall r, In r out ->
    (load out (OutputRow.truck_id r) <= capf (OutputRow.supplier r))%Z }.

(** The loop invariant while the items of supplier [s] are packed. *)
Record state_ok (capf : Z -> Z) (s : Z) (st : PackState) : Prop := {
  st_rows : rows_ok capf (rows st) (truck_id st);
  st_current : remaining st <> 0%Z ->
    current_truck st = (truck_id st - 1)%Z /\ (2 <= truck_id st)%Z
    /\ (forall r, In r (rows st) ->
          OutputRow.truck_id r = current_truck st -> OutputRow.supplier r = s)
    /\ load (rows st) (current_truck st) = (capf s - remaining st)%Z }.

(** [r] is a truck slice of the allocation item [it]. *)
Definition slice_row (it : AllocationItem.t) (r : OutputRow.t) : Prop :=
  (1 <= OutputRow.pallets r)%Z
  /\ OutputRow.volume r
     = float_mul (float_of_int (OutputRow.pallets r))
         (AllocationItem.pallet_weight it)
  /\ OutputRow.supplier r = AllocationItem.supplier it
  /\ OutputRow.rc r = AllocationItem.rc it
  /\ OutputRow.plu r = AllocationItem.plu it
  /\ OutputRow.date r = AllocationItem.date it
  /\ OutputRow.pallet_weight r = AllocationItem.pallet_weight it.

(** [rs] are the truck slices of [it]: each carries at least one pallet and
    together they carry the pallets of the item. *)
Definition slice_of (it : AllocationItem.t) (rs : list OutputRow.t) : Prop :=
  Forall (slice_row it) rs
  /\ sum_Z (map OutputRow.pallets rs) = AllocationItem.pallets it.

(** Every item of a group carries the key of the group. *)
Definition well_keyed (g : dict Z (list AllocationItem.t)) : Prop :=
  forall k l it, In (k, l) g -> In it l -> AllocationItem.supplier it = k.

(** The order in which [pack_trucks] takes the items: suppliers ascending,
    the items of a supplier by (date, rc, plu). *)
Definition packing_order (items : list AllocationItem.t)
  : list AllocationItem.t :=
  let grouped := group_items items in
  flat_map (fun s => stable_sort item_le (dict_get_default Z.eqb grouped s []))
    (stable_sort Z.leb (map fst grouped)).

(** ** Sample data *)

(** A catalog with one product (10 per pallet) held by supplier 7, whose
    trucks take 3 pallets. *)
Definition sample_reserve : ReserveInfo.t :=
  ReserveInfo.mk [] [] [] [(1%Z, 10%Q)] [(7%Z, 3%Z)] [((7%Z, 1%Z), 5%Q)]
    [(1%Z, [7%Z])].

(** The same catalog with a stored capacity of zero for supplier 7. *)
Definition zero_cap_reserve : ReserveInfo.t :=
  ReserveInfo.mk [] [] [] [(1%Z, 10%Q)] [(7%Z, 0%Z)] [((7%Z, 1%Z), 5%Q)]
    [(1%Z, [7%Z])].

(** A catalog that knows no weight and no capacity. *)
Definition bare_reserve : ReserveInfo.t :=
  ReserveInfo.mk [] [] [] [] [] [((7%Z, 1%Z), 5%Q)] [(1%Z, [7%Z])].

Definition sample_row (q : float) : DemandRow.t :=
  DemandRow.mk 1 EmptyString 1 EmptyString 0 q.

Definition zero_default_options : RunOptions.t :=
  RunOptions.mk true true true true true 0.

Definition sample_item (supplier pallets : Z) : AllocationItem.t :=
  AllocationItem.mk 1 EmptyString 1 EmptyString 0 supplier (Some EmptyString)
    10 pallets.

Definition sample_items : list AllocationItem.t :=
  [sample_item 8 2; sample_item 7 5; sample_item 7 2].

Definition sample_rows : list OutputRow.t :=
  Eval vm_compute in
    match pack_trucks 5 sample_items sample_reserve None RunOptions.default with
    | Some rs => rs
    | None => []
    end.

(** ** Further notions *)

(** [x] occurs in [l] with [y] somewhere after it. *)
Inductive before (A : Type) (x y : A) : list A -> Prop :=
| before_here : forall l, In y l -> before x y (x :: l)
| before_skip : forall z l, before x y l -> before x y (z :: l).

(** The suppliers that receive the extra pallet when [delta] pallets are
    left to hand out: the first [delta] of the remainders in descending
    order. *)
Definition top_remainders (demand_int base_demand delta : Z)
    (pallets_by_supplier : dict Z Z) : dict Z Z :=
  firstn (Z.to_nat delta)
    (stable_sort (fun x y => (snd y <=? snd x)%Z)
       (remainder_parts demand_int base_demand pallets_by_supplier)).

(** ** Sample data with display names and a template *)

Definition named_row : DemandRow.t :=
  DemandRow.mk 1 "North" 1 "Apples" 0 1.

Definition named_reserve : ReserveInfo.t :=
  ReserveInfo.mk [(7%Z, "Acme"%string)] [] [(1%Z, "Depot"%string)]
    [(1%Z, 10%Q)] [(7%Z, 3%Z)] [((7%Z, 1%Z), 5%Q)] [(1%Z, [7%Z])].

(** A template with one entry, for a key that [named_row] does not have. *)
Definition sample_template : TemplateData.t :=
  TemplateData.mk
    [((2%Z, 1%Z, 0%Z), TemplateEntry.mk [(7%Z, 4%Z); (8%Z, 0%Z)] 4 0)]
    [] [] [] [] [].

(** A catalog in which no product has a supplier. *)
Definition no_supplier_reserve : ReserveInfo.t :=
  ReserveInfo.mk [] [] [] [(1%Z, 10%Q)] [] [] [].

(** ** Orders on items and rows *)

(** The order of the rows [pack_trucks] returns: by supplier, then by the
    sort key (date, rc, plu) of the items. *)
Definition packed_le (x y : OutputRow.t) : bool :=
  ((OutputRow.supplier x <? OutputRow.supplier y)
   || ((OutputRow.supplier x =? OutputRow.supplier y)
       && ((OutputRow.date x <? OutputRow.date y)
           || ((OutputRow.date x =? OutputRow.date y)
               && ((OutputRow.rc x <? OutputRow.rc y)
                   || ((OutputRow.rc x =? OutputRow.rc y)
                       && (OutputRow.plu x <=? OutputRow.plu y)))))))%Z.

(** [r] was emitted for supplier [s] and item [it]. *)
Definition row_of (s : Z) (it : AllocationItem.t) (r : OutputRow.t) : Prop :=
  OutputRow.supplier r = s
  /\ OutputRow.date r = AllocationItem.date it
  /\ OutputRow.rc r = AllocationItem.rc it
  /\ OutputRow.plu r = AllocationItem.plu it.

(** Every truck of a supplier but the last one carries exactly the capacity
    of the supplier. *)
Definition full_but_last (capf : Z -> Z) (out : list OutputRow.t) : Prop :=
  forall r1 r2, In r1 out -> In r2 out ->
    OutputRow.supplier r1 = OutputRow.supplier r2 ->
    (OutputRow.truck_id r1 < OutputRow.truck_id r2)%Z ->
    load out (OutputRow.truck_id r1) = capf (OutputRow.supplier r1).

(** The same while the items of supplier [s] are packed: of the trucks of
    [s] only the current one may have room left. *)
Record fill_ok (capf : Z -> Z) (s : Z) (st : PackState) : Prop := {
  fill_others : forall r1 r2, In r1 (rows st) -> In r2 (rows st) ->
    OutputRow.supplier r1 = OutputRow.supplier r2 ->
    OutputRow.supplier r1 <> s ->
    (OutputRow.truck_id r1 < OutputRow.truck_id r2)%Z ->
    load (rows st) (OutputRow.truck_id r1) = capf (OutputRow.supplier r1);
  fill_current : forall r, In r (rows st) -> OutputRow.supplier r = s ->
    (OutputRow.truck_id r < truck_id st - 1)%Z \/ remaining st = 0%Z ->
    load (rows st) (OutputRow.truck_id r) = capf s }.

(** ** Counting trucks *)

(** The pallets the items of [items] order from supplier [s]. *)
Definition supplier_pallets (items : list AllocationItem.t) (s : Z) : Z :=
  sum_Z (map AllocationItem.pallets
           (filter (fun it => (AllocationItem.supplier it =? s)%Z) items)).

(** The trucks of capacity [cap] that [pallets] pallets fill, the last one
    possibly in part. *)
Definition trucks_needed (pallets cap : Z) : Z := ((pallets + cap - 1) / cap)%Z.

(** ** [write_output] *)

(** The value of a worksheet cell. *)
Inductive cell :=
| CNone
| CInt (n : Z)
| CFloat (x : float)
| CStr (s : string)
| CDate (d : Z).

Definition headers : list string :=
  ["Дата поставки"; "SAP поставщика"; "Поставщик"; "PLU"; "Наименование ";
   "РЦ"; "Наименование РЦ"; "Объем"; "ТС"; "лог плечо"; "Квант паллет";
   "паллеты"; "тс"]%string.

(** The sort key [(x.date, x.supplier, x.truck_id, x.rc, x.plu)], compared
    as tuples. *)
Definition output_le (x y : OutputRow.t) : bool :=
  ((OutputRow.date x <? OutputRow.date y)
   || ((OutputRow.date x =? OutputRow.date y)
       && ((OutputRow.supplier x <? OutputRow.supplier y)
           || ((OutputRow.supplier x =? OutputRow.supplier y)
               && ((OutputRow.truck_id x <? OutputRow.truck_id y)
                   || ((OutputRow.truck_id x =? OutputRow.truck_id y)
                       && ((OutputRow.rc x <? OutputRow.rc y)
                           || ((OutputRow.rc x =? OutputRow.rc y)
                               && (OutputRow.plu x <=? OutputRow.plu y)))))))))%Z.

(** The cells appended for one output row. *)
Definition row_cells (row : OutputRow.t) : list cell :=
  [CDate (OutputRow.date row);
   CInt (OutputRow.supplier row);
   match OutputRow.supplier_name row with Some s => CStr s | None => CNone end;
   CInt (OutputRow.plu row);
   CStr (OutputRow.plu_name row);
   CInt (OutputRow.rc row);
   CStr (OutputRow.rc_name row);
   CFloat (OutputRow.volume row);
   CInt (OutputRow.truck_id row);
   CInt (OutputRow.shoulder row);
   CFloat (OutputRow.pallet_weight row);
   CInt (OutputRow.pallets row);
   CNone].

(** The rows [write_output] appends to the sheet it saves: the header, then
    one line per output row in the order of the sort key. *)
Definition write_output (rows : list OutputRow.t) : list (list cell) :=
  map CStr headers :: map row_cells (stable_sort output_le rows).

(** ** The finite range of binary64

    The float operations of this development round without an upper limit
    on the exponent.  A value of the model is the value the interpreter
    computes as long as it stays below 2^1024 in magnitude; from there on
    the interpreter has [inf] (then [nan]), and [OverflowError] or
    [ValueError] where such a value, or an integer that large, is
    converted.  The predicates below delimit the inputs on which no
    operation of [build_allocations] and [pack_trucks] leaves the finite
    range. *)

(** [x], a rounded result, is a finite binary64 value. *)
Definition finite64 (x : float) : bool := Qlt_bool (Qabs x) (2 ^ 1024)%Q.

(** The values [demand_by_key[key] = demand_by_key.get(key, 0.0) + row.qty]
    stores, one per demand record, in the order of the first loop. *)
Fixpoint running_sums (demand_rows : list DemandRow.t)
    (demand_by_key : dict key float) : list float :=
  match demand_rows with
  | [] => []
  | row :: rest =>
      let v :=
        float_add (dict_get_default key_eqb demand_by_key (row_key row) 0%Q)
          (DemandRow.qty row) in
      v :: running_sums rest (dict_set key_eqb demand_by_key (row_key row) v)
  end.

(** The second loop stays in the finite range at [row]: the quotient
    [row.qty / pallet_weight] is finite, and where the template has an
    entry for the key of the record the integers that [_round_div]
    converts for the scaler are below 2^1023 in magnitude. *)
Definition row_in_range (reserve : ReserveInfo.t)
    (template : option TemplateData.t) (row : DemandRow.t) : bool :=
  finite64 (float_div (DemandRow.qty row)
              (row_pallet_weight reserve template (DemandRow.plu row)))
  && match template with
     | Some t =>
         match dict_get key_eqb (TemplateData.entries t) (row_key row) with
         | Some entry =>
             (Z.abs (sum_Z (map snd (TemplateEntry.pallets_by_supplier entry))
                     * Z.max 0 (round_half_even (DemandRow.qty row)))
              + TemplateEntry.base_demand entry <? 2 ^ 1023)%Z
         | None => true
         end
     | None => true
     end.

(** [build_allocations] stays in the finite range: every aggregated
    quantity it stores is finite, and so is every record of the second
    loop, taken with the catalog and the template the first loop leaves. *)
Definition build_in_range (demand_rows : list DemandRow.t)
    (reserve : ReserveInfo.t) (template : option TemplateData.t) : bool :=
  let '(demand_by_key, reserve') := aggregate demand_rows reserve in
  let template' := option_map (set_base_demand demand_by_key) template in
  forallb finite64 (running_sums demand_rows [])
  && forallb (row_in_range reserve' template') demand_rows.

(** [pack_trucks] stays in the finite range at [item]: its pallet count
    converts to a float, and no slice of it has a volume
    [take * pallet_weight] beyond the range. *)
Definition item_in_range (item : AllocationItem.t) : bool :=
  (AllocationItem.pallets item <? 2 ^ 1023)%Z
  && Qlt_bool
       (Qabs (inject_Z (AllocationItem.pallets item)
              * AllocationItem.pallet_weight item)%Q)
       (2 ^ 1023)%Q.

(** ** The stock quantities of the catalog *)

(** The catalog [r] with the stock quantities [q]. *)
Definition with_reserve (q : dict (Z * Z) float) (r : ReserveInfo.t)
  : ReserveInfo.t :=
  ReserveInfo.mk (ReserveInfo.supplier_name r) (ReserveInfo.plu_name r)
    (ReserveInfo.rc_name r) (ReserveInfo.pallet_weight r)
    (ReserveInfo.max_pallets r) q (ReserveInfo.suppliers_by_plu r).

(** ** Reading the workbooks

    What the workbook reader hands to the loaders: a sheet is the list of
    its rows, a row the list of its cell values ([cell]).  Booleans, plain
    dates and times are not represented.

    The interpreter's conversions of text are not computed here: [int(s)],
    [float(s)], [s.strip()] and [datetime.strptime(s, fmt)] are the fields
    of a [StrOps], with [None] (for [float(s)]: [Invalid]) where the
    interpreter raises [ValueError]. *)

(** What [float(s)] gives for a text: a finite value, one of [inf], [-inf]
    and [nan] (as for "inf", "nan" or "1e999"), or a [ValueError]. *)
Inductive parsed_float :=
| Parsed (x : float)
| NotFinite
| Invalid.

Record StrOps := {
  parse_int : string -> option Z;
  parse_float : string -> parsed_float;
  strip : string -> string;
  strptime : string -> string -> option Z }.

Inductive exn :=
| ValueError (msg : string)
| IndexError
| KeyError
| OverflowError
| StopIteration.

(** The result of a loader: a value, a raised exception, or [Unmodelled]
    where the code goes on with a value that the records of this
    development cannot hold: a number or a date in a name column (names
    are [string]s), or a float that is [inf] or [nan] (floats are finite
    values). *)
Inductive outcome (A : Type) :=
| Ok (a : A)
| Raise (e : exn)
| Unmodelled.
Arguments Ok {A} a.
Arguments Raise {A} e.
Arguments Unmodelled {A}.

Definition bind (A B : Type) (m : outcome A) (k : A -> outcome B) : outcome B :=
  match m with
  | Ok a => k a
  | Raise e => Raise e
  | Unmodelled => Unmodelled
  end.

Notation "x <- m ;; k" := (bind m (fun x => k))
  (at level 61, m at next level, right associativity).

(** [for x in l: s = body(s, x)] *)
Fixpoint for_each (A S : Type) (body : S -> A -> outcome S) (l : list A)
    (s : S) : outcome S :=
  match l with
  | [] => Ok s
  | x :: r => s' <- body s x ;; for_each body r s'
  end.

(** [bool(value)] *)
Definition truthy (value : cell) : bool :=
  match value with
  | CNone => false
  | CInt n => negb (n =? 0)%Z
  | CFloat x => negb (Qeq_bool x 0)
  | CStr s => nonempty s
  | CDate _ => true
  end.

(** [s.replace(" ", "").replace(",", ".")] *)
Fixpoint clean (s : string) : string :=
  match s with
  | EmptyString => EmptyString
  | String c r =>
      if String.eqb (String c EmptyString) " " then clean r
      else if String.eqb (String c EmptyString) "," then ("." ++ clean r)%string
      else String c (clean r)
  end.

Section Conversions.
Variable ops : StrOps.

(** [_to_int]: [int(value)], else [int(float(...))] of the cleaned text,
    else the default ([int] of [inf] or [nan] raises, which gives the
    default too).  The text of a [datetime] is never a number. *)
Definition _to_int (value : cell) (default : Z) : Z :=
  match value with
  | CNone => default
  | CInt n => n
  | CFloat x => int_of_float x
  | CStr s =>
      match parse_int ops s with
      | Some n => n
      | None =>
          match parse_float ops (clean s) with
          | Parsed x => int_of_float x
          | NotFinite | Invalid => default
          end
      end
  | CDate _ => default
  end.

(** [_to_float]: [float(value)], else [float(...)] of the cleaned text, else
    the default.  An integer beyond the range of binary64 and a text such
    as "nan" give [inf] or [nan], which the model does not hold. *)
Definition _to_float (value : cell) (default : float) : outcome float :=
  match value with
  | CNone => Ok default
  | CInt n => if finite64 (float_of_int n) then Ok (float_of_int n) else Unmodelled
  | CFloat x => Ok x
  | CStr s =>
      match parse_float ops s with
      | Parsed x => Ok x
      | NotFinite => Unmodelled
      | Invalid =>
          match parse_float ops (clean s) with
          | Parsed x => Ok x
          | NotFinite => Unmodelled
          | Invalid => Ok default
          end
      end
  | CDate _ => Ok default
  end.

Definition _to_date (value : cell) : option Z :=
  match value with
  | CNone => None
  | CDate d => Some d
  | CStr s =>
      let text := strip ops s in
      match strptime ops text "%Y-%m-%d" with
      | Some d => Some d
      | None => strptime ops text "%d.%m.%Y"
      end
  | CInt _ | CFloat _ => None
  end.

(** [row[idx]] *)
Definition getitem (row : list cell) (idx : nat) : outcome cell :=
  match nth_error row idx with
  | Some c => Ok c
  | None => Raise IndexError
  end.

(** [value or ""] for a name column. *)
Definition or_empty (value : cell) : outcome string :=
  if truthy value
  then match value with CStr s => Ok s | _ => Unmodelled end
  else Ok EmptyString.

Definition enumerate (A : Type) (l : list A) : list (nat * A) :=
  combine (seq 0 (List.length l)) l.

(** [{name: idx for idx, name in enumerate(header) if name}], as far as it
    is looked up: all lookups are by text, and a header cell that is not
    text is equal to none. *)
Definition col_map (header : list cell) : dict string nat :=
  fold_left
    (fun d ic =>
       match snd ic with
       | CStr s => if nonempty s then dict_set String.eqb d s (fst ic) else d
       | _ => d
       end)
    (enumerate header) [].

(** [col_map[col]] *)
Definition lookup (cm : dict string nat) (col : string) : outcome nat :=
  match dict_get String.eqb cm col with
  | Some i => Ok i
  | None => Raise KeyError
  end.

(** The message of the [ValueError] for a missing column. *)
Definition missing_column (col file : string) : string :=
  ("Не найдена колонка '" ++ col ++ "' в файле " ++ file ++ ".")%string.

(** [for col in required: if col not in col_map: raise ValueError(...)] *)
Fixpoint require_columns (cm : dict string nat) (required : list string)
    (file : string) : outcome unit :=
  match required with
  | [] => Ok tt
  | col :: rest =>
      if dict_mem String.eqb cm col then require_columns cm rest file
      else Raise (ValueError (missing_column col file))
  end.

(** The [required] lists of [load_demand] and [load_template]. *)
Definition demand_required : list string :=
  ["Код РЦ"; "Наименование РЦ"; "Код PLU"; "Наименование PLU"]%string.

Definition template_required : list string :=
  ["Дата поставки"; "SAP поставщика"; "Поставщик"; "PLU"; "Наименование ";
   "РЦ"; "Наименование РЦ"; "Объем"; "лог плечо"; "Квант паллет";
   "паллеты"]%string.

(** *** [load_demand] *)

(** The body of the loop over the date columns of one row. *)
Definition demand_cell (header row : list cell) (rc : Z) (rc_name : string)
    (plu : Z) (plu_name : string) (rows : list DemandRow.t) (idx : nat)
  : outcome (list DemandRow.t) :=
  c <- getitem row idx ;;
  qty <- _to_float c 0 ;;
  if Qle_bool qty 0 then Ok rows
  else
    h <- getitem header idx ;;
    match _to_date h with
    | None => Ok rows
    | Some date =>
        Ok (rows ++ [DemandRow.mk rc rc_name plu plu_name date qty])
    end.

(** The body of the loop over the rows of the sheet. *)
Definition demand_row (cm : dict string nat) (header : list cell)
    (date_cols : list nat) (rows : list DemandRow.t) (row : list cell)
  : outcome (list DemandRow.t) :=
  i <- lookup cm "Код РЦ" ;;
  c <- getitem row i ;;
  let rc := _to_int c 0 in
  i <- lookup cm "Наименование РЦ" ;;
  c <- getitem row i ;;
  rc_name <- or_empty c ;;
  i <- lookup cm "Код PLU" ;;
  c <- getitem row i ;;
  let plu := _to_int c 0 in
  i <- lookup cm "Наименование PLU" ;;
  c <- getitem row i ;;
  plu_name <- or_empty c ;;
  for_each (demand_cell header row rc rc_name plu plu_name) date_cols rows.

(** The columns that hold quantities: those after the product name whose
    header is a date; all columns after the product name when there is
    none. *)
Definition date_columns (header : list cell) (after : nat) : list nat :=
  let date_cols :=
    map fst
      (filter (fun ic =>
                 negb (fst ic <=? after)%nat
                 && match _to_date (snd ic) with Some _ => true | None => false end)
         (enumerate header)) in
  match date_cols with
  | [] => seq (after + 1) (List.length header - (after + 1))
  | _ => date_cols
  end.

Definition load_demand (ws : list (list cell)) : outcome (list DemandRow.t) :=
  match ws with
  | [] => Raise StopIteration
  | header :: data =>
      let cm := col_map header in
      _ <- require_columns cm demand_required "потребности" ;;
      after <- lookup cm "Наименование PLU" ;;
      for_each (demand_row cm header (date_columns header after)) data []
  end.

(** *** [load_reserve] *)

(** [f(row[idx]) if idx is not None else dflt] *)
Definition optional_cell (A : Type) (row : list cell) (idx : option nat)
    (f : cell -> outcome A) (dflt : A) : outcome A :=
  match idx with
  | Some i => c <- getitem row i ;; f c
  | None => Ok dflt
  end.

(** The body of the loop over the rows of the sheet. *)
Definition reserve_row (cm : dict string nat) (info : ReserveInfo.t)
    (row : list cell) : outcome ReserveInfo.t :=
  let idx_supplier_name := dict_get String.eqb cm "Наименование поставщика"%string in
  let idx_plu_name := dict_get String.eqb cm "Наименование PLU"%string in
  let idx_reserve := dict_get String.eqb cm "Резерв"%string in
  let idx_max_pallets :=
    dict_get String.eqb cm
      "Максимальное кол-во паллет в машине (макс. квант), шт."%string in
  let idx_min_pallets :=
    dict_get String.eqb cm
      "Минимальное кол-во паллет в машине (мин. квант), шт."%string in
  let idx_pallet_weight :=
    dict_get String.eqb cm "Макс. вес товара на одной паллете, кг"%string in
  i <- lookup cm "Код поставщика" ;;
  c <- getitem row i ;;
  let supplier := _to_int c 0 in
  supplier_name <- optional_cell row idx_supplier_name or_empty EmptyString ;;
  i <- lookup cm "Код PLU" ;;
  c <- getitem row i ;;
  let plu := _to_int c 0 in
  plu_name <- optional_cell row idx_plu_name or_empty EmptyString ;;
  reserve_val <-
    optional_cell row idx_reserve (fun c => _to_float c 0) 0 ;;
  max_pallets <-
    optional_cell row idx_max_pallets (fun c => Ok (_to_int c 0)) 0%Z ;;
  max_pallets <-
    (if (max_pallets =? 0)%Z
     then optional_cell row idx_min_pallets (fun c => Ok (_to_int c 0)) 0%Z
     else Ok max_pallets) ;;
  pallet_weight <-
    optional_cell row idx_pallet_weight (fun c => _to_float c 0) 0 ;;
  let supplier_names :=
    if negb (supplier =? 0)%Z && nonempty supplier_name
    then dict_set Z.eqb (ReserveInfo.supplier_name info) supplier supplier_name
    else ReserveInfo.supplier_name info in
  let capacities :=
    if negb (supplier =? 0)%Z && negb (max_pallets =? 0)%Z
    then dict_set Z.eqb (ReserveInfo.max_pallets info) supplier max_pallets
    else ReserveInfo.max_pallets info in
  let plu_names :=
    if negb (plu =? 0)%Z && nonempty plu_name
    then dict_set Z.eqb (ReserveInfo.plu_name info) plu plu_name
    else ReserveInfo.plu_name info in
  let weights :=
    if negb (plu =? 0)%Z && negb (Qeq_bool pallet_weight 0)
    then dict_set Z.eqb (ReserveInfo.pallet_weight info) plu pallet_weight
    else ReserveInfo.pallet_weight info in
  let stocked :=
    negb (supplier =? 0)%Z && negb (plu =? 0)%Z
    && negb (Qeq_bool reserve_val 0) in
  let quantities :=
    if stocked
    then dict_set pair_eqb (ReserveInfo.reserve info) (supplier, plu) reserve_val
    else ReserveInfo.reserve info in
  let suppliers :=
    if stocked
    then dict_update Z.eqb
           (dict_setdefault Z.eqb (ReserveInfo.suppliers_by_plu info) plu [])
           plu (fun l => l ++ [supplier])
    else ReserveInfo.suppliers_by_plu info in
  Ok (ReserveInfo.mk supplier_names plu_names (ReserveInfo.rc_name info)
        weights capacities quantities suppliers).

Definition load_reserve (ws : list (list cell)) : outcome ReserveInfo.t :=
  match ws with
  | [] => Raise StopIteration
  | header :: data =>
      let cm := col_map header in
      if negb (dict_mem String.eqb cm "Код поставщика"%string)
         || negb (dict_mem String.eqb cm "Код PLU"%string)
      then Raise (ValueError "Не найдены обязательные колонки в файле резерва.")
      else for_each (reserve_row cm) data (ReserveInfo.mk [] [] [] [] [] [] [])
  end.

(** *** [load_template] *)

(** The message of [int(nan)]. *)
Definition nan_to_int : string := "cannot convert float NaN to integer".

(** [_round_div] with the exceptions of its float arithmetic: an integer
    too large for a float raises [OverflowError]; when the sum
    [numer + denom / 2] leaves the finite range it is [inf], the floor
    quotient is [nan] and [int] raises [ValueError]. *)
Definition round_div_checked (numer denom : Z) : outcome Z :=
  if (denom <=? 0)%Z then Ok (_round_div numer denom)
  else if negb (finite64 (int_truediv denom 2))
          || negb (finite64 (float_of_int numer))
          || negb (finite64 (float_of_int denom))
  then Raise OverflowError
  else if finite64 (float_add (float_of_int numer) (int_truediv denom 2))
  then Ok (_round_div numer denom)
  else Raise (ValueError nan_to_int).

(** [entry.pallets_by_supplier[supplier] = ... + pallets] and
    [entry.total_pallets += pallets] *)
Definition add_pallets (supplier pallets : Z) (entry : TemplateEntry.t)
  : TemplateEntry.t :=
  TemplateEntry.mk
    (dict_set Z.eqb (TemplateEntry.pallets_by_supplier entry) supplier
       (dict_get_default Z.eqb (TemplateEntry.pallets_by_supplier entry)
          supplier 0 + pallets)%Z)
    (TemplateEntry.total_pallets entry + pallets)%Z
    (TemplateEntry.base_demand entry).

(** The body of the loop over the rows of the sheet. *)
Definition template_row (cm : dict string nat) (data : TemplateData.t)
    (row : list cell) : outcome TemplateData.t :=
  i <- lookup cm "Дата поставки" ;;
  c <- getitem row i ;;
  match _to_date c with
  | None => Ok data
  | Some date =>
      i <- lookup cm "SAP поставщика" ;;
      c <- getitem row i ;;
      let supplier := _to_int c 0 in
      i <- lookup cm "Поставщик" ;;
      c <- getitem row i ;;
      supplier_name <- or_empty c ;;
      i <- lookup cm "PLU" ;;
      c <- getitem row i ;;
      let plu := _to_int c 0 in
      i <- lookup cm "Наименование " ;;
      c <- getitem row i ;;
      plu_name <- or_empty c ;;
      i <- lookup cm "РЦ" ;;
      c <- getitem row i ;;
      let rc := _to_int c 0 in
      i <- lookup cm "Наименование РЦ" ;;
      c <- getitem row i ;;
      rc_name <- or_empty c ;;
      i <- lookup cm "Объем" ;;
      c <- getitem row i ;;
      volume <- _to_float c 0 ;;
      i <- lookup cm "лог плечо" ;;
      c <- getitem row i ;;
      let shoulder := _to_int c 0 in
      i <- lookup cm "Квант паллет" ;;
      c <- getitem row i ;;
      pallet_weight <- _to_float c 0 ;;
      i <- lookup cm "паллеты" ;;
      c <- getitem row i ;;
      let pallets := _to_int c 0 in
      pallets <-
        (if (pallets =? 0)%Z && negb (Qeq_bool pallet_weight 0)
         then round_div_checked (round_half_even volume)
                (round_half_even pallet_weight)
         else Ok pallets) ;;
      let k := (rc, plu, date) in
      let entries :=
        dict_update key_eqb
          (dict_setdefault key_eqb (TemplateData.entries data) k
             (TemplateEntry.mk [] 0 0))
          k (add_pallets supplier pallets) in
      let supplier_names :=
        if nonempty supplier_name
        then dict_set Z.eqb (TemplateData.supplier_name data) supplier
               supplier_name
        else TemplateData.supplier_name data in
      let rc_names :=
        if nonempty rc_name
        then dict_set Z.eqb (TemplateData.rc_name data) rc rc_name
        else TemplateData.rc_name data in
      let plu_names :=
        if nonempty plu_name
        then dict_set Z.eqb (TemplateData.plu_name data) plu plu_name
        else TemplateData.plu_name data in
      let weights :=
        if negb (Qeq_bool pallet_weight 0)
        then dict_set Z.eqb (TemplateData.pallet_weight data) plu pallet_weight
        else TemplateData.pallet_weight data in
      let shoulders :=
        if negb (supplier =? 0)%Z && negb (rc =? 0)%Z && negb (shoulder =? 0)%Z
        then dict_setdefault pair_eqb (TemplateData.shoulder_map data)
               (supplier, rc) shoulder
        else TemplateData.shoulder_map data in
      Ok (TemplateData.mk entries shoulders supplier_names plu_names rc_names
            weights)
  end.

Definition load_template (ws : list (list cell)) : outcome TemplateData.t :=
  match ws with
  | [] => Raise StopIteration
  | header :: data =>
      let cm := col_map header in
      _ <- require_columns cm template_required "образца" ;;
      for_each (template_row cm) data (TemplateData.mk [] [] [] [] [] [])
  end.

(** *** [run_plan] *)

(** [load_template(template_path) if (template_path and opts.use_template)
    else None]; [template_ws] is the sheet behind a template path that was
    given. *)
Definition optional_template (template_ws : option (list (list cell)))
    (opts : RunOptions.t) : outcome (option TemplateData.t) :=
  match template_ws with
  | Some ws =>
      if RunOptions.use_template opts
      then t <- load_template ws ;; Ok (Some t)
      else Ok None
  | None => Ok None
  end.

(** The three workbooks are read, the plan is built and packed, and the
    sheet of [write_output] is returned.  The inner [None] is a packing
    loop that has not ended within the fuel. *)
Definition run_plan (fuel : nat) (demand_ws reserve_ws : list (list cell))
    (template_ws : option (list (list cell))) (options : option RunOptions.t)
  : outcome (option (list (list cell))) :=
  let opts := match options with Some o => o | None => RunOptions.default end in
  demand_rows <- load_demand demand_ws ;;
  reserve <- load_reserve reserve_ws ;;
  template <- optional_template template_ws opts ;;
  Ok (option_map write_output
        (run_core fuel demand_rows reserve template opts)).
End Conversions.

(** ** What the loaders guarantee *)

(** An outcome with no exception but the [IndexError] of a row too short
    for a column. *)
Definition reads_rows (A : Type) (o : outcome A) : Prop :=
  match o with
  | Ok _ | Unmodelled | Raise IndexError => True
  | Raise _ => False
  end.

(** The same with the two exceptions of the rounded division of
    [load_template]. *)
Definition reads_template_rows (A : Type) (o : outcome A) : Prop :=
  match o with
  | Ok _ | Unmodelled | Raise IndexError | Raise OverflowError => True
  | Raise (ValueError msg) => msg = nan_to_int
  | Raise _ => False
  end.


(** A catalog as [load_reserve] builds it: nothing is stored for the code 0,
    no stored capacity, weight or quantity is zero, and the supplier lists
    are the suppliers with a stock row. *)
Record catalog_ok (info : ReserveInfo.t) : Prop := {
  cat_capacity : forall s c,
    dict_get Z.eqb (ReserveInfo.max_pallets info) s = Some c ->
    s <> 0%Z /\ c <> 0%Z;
  cat_weight : forall p w,
    dict_get Z.eqb (ReserveInfo.pallet_weight info) p = Some w ->
    p <> 0%Z /\ ~ w == 0;
  cat_reserve : forall s p q,
    dict_get pair_eqb (ReserveInfo.reserve info) (s, p) = Some q ->
    s <> 0%Z /\ p <> 0%Z /\ ~ q == 0
    /\ exists l, dict_get Z.eqb (ReserveInfo.suppliers_by_plu info) p = Some l
                 /\ In s l;
  cat_suppliers : forall p l,
    dict_get Z.eqb (ReserveInfo.suppliers_by_plu info) p = Some l ->
    p <> 0%Z /\ l <> []
    /\ forall s, In s l ->
         s <> 0%Z
         /\ dict_mem pair_eqb (ReserveInfo.reserve info) (s, p) = true;
  cat_supplier_name : forall s n,
    dict_get Z.eqb (ReserveInfo.supplier_name info) s = Some n ->
    s <> 0%Z /\ nonempty n = true;
  cat_plu_name : forall p n,
    dict_get Z.eqb (ReserveInfo.plu_name info) p = Some n ->
    p <> 0%Z /\ nonempty n = true;
  cat_rc_name : ReserveInfo.rc_name info = [] }.

(** A template as [load_template] builds it. *)
Record template_ok (data : TemplateData.t) : Prop := {
  tpl_keys : NoDup (map fst (TemplateData.entries data));
  tpl_entry : forall k entry,
    dict_get key_eqb (TemplateData.entries data) k = Some entry ->
    TemplateEntry.total_pallets entry
    = sum_Z (map snd (TemplateEntry.pallets_by_supplier entry))
    /\ NoDup (map fst (TemplateEntry.pallets_by_supplier entry))
    /\ TemplateEntry.pallets_by_supplier entry <> []
    /\ TemplateEntry.base_demand entry = 0%Z;
  tpl_shoulder : forall s rc v,
    dict_get pair_eqb (TemplateData.shoulder_map data) (s, rc) = Some v ->
    s <> 0%Z /\ rc <> 0%Z /\ v <> 0%Z;
  tpl_weight : forall p w,
    dict_get Z.eqb (TemplateData.pallet_weight data) p = Some w -> ~ w == 0;
  tpl_supplier_name : forall s n,
    dict_get Z.eqb (TemplateData.supplier_name data) s = Some n ->
    nonempty n = true;
  tpl_plu_name : forall p n,
    dict_get Z.eqb (TemplateData.plu_name data) p = Some n -> nonempty n = true;
  tpl_rc_name : forall rc n,
    dict_get Z.eqb (TemplateData.rc_name data) rc = Some n -> nonempty n = true }.

(** ** Sample sheets *)

(** Conversions that accept no text at all. *)
Definition no_text : StrOps :=
  Build_StrOps (fun _ => None) (fun _ => Invalid) (fun s => s)
    (fun _ _ => None).

Definition sample_reserve_ws : list (list cell) :=
  [[CStr "Код поставщика"; CStr "Код PLU"; CStr "Резерв";
    CStr "Максимальное кол-во паллет в машине (макс. квант), шт."];
   [CInt 7; CInt 1; CFloat 5; CInt 3];
   [CInt 8; CInt 1; CFloat 0; CInt 0]].

Definition sample_catalog : ReserveInfo.t :=
  Eval vm_compute in
    match load_reserve no_text sample_reserve_ws with
    | Ok info => info
    | _ => ReserveInfo.mk [] [] [] [] [] [] []
    end.

Definition sample_demand_ws : list (list cell) :=
  [[CStr "Код РЦ"; CStr "Наименование РЦ"; CStr "Код PLU";
    CStr "Наименование PLU"; CDate 0; CDate 1];
   [CInt 1; CStr "North"; CInt 1; CStr "Apples"; CFloat 25; CNone]].

Definition sample_demand : list DemandRow.t :=
  Eval vm_compute in
    match load_demand no_text sample_demand_ws with
    | Ok rows => rows
    | _ => []
    end.

Definition sample_template_ws : list (list cell) :=
  [[CStr "Дата поставки"; CStr "SAP поставщика"; CStr "Поставщик"; CStr "PLU";
    CStr "Наименование "; CStr "РЦ"; CStr "Наименование РЦ"; CStr "Объем";
    CStr "ТС"; CStr "лог плечо"; CStr "Квант паллет"; CStr "паллеты";
    CStr "тс"];
   [CDate 0; CInt 7; CStr "Acme"; CInt 1; CStr "Apples"; CInt 1; CStr "North";
    CFloat 20; CInt 1; CInt 2; CFloat 10; CInt 2; CNone];
   [CDate 0; CInt 7; CStr "Acme"; CInt 1; CStr "Apples"; CInt 1; CStr "North";
    CFloat 30; CInt 2; CInt 2; CFloat 10; CInt 0; CNone]].

Definition sample_loaded_template : TemplateData.t :=
  Eval vm_compute in
    match load_template no_text sample_template_ws with
    | Ok data => data
    | _ => TemplateData.mk [] [] [] [] [] []
    end.

(* ================================================================= *)
(** * Part II: properties *)
(* ================================================================= *)

(** ** Binary64 rounding is exact on short dyadic numbers *)

Open Scope Q_scope.

Lemma pow2_pos (e : Z) : 0 < 2 ^ e.
Proof. apply Qpower_0_lt. reflexivity. Qed.

Lemma pow2_nonzero (e : Z) : ~ 2 ^ e == 0.
Proof. intro H. pose proof (pow2_pos e) as P. rewrite H in P. discriminate P. Qed.

Lemma pow2_inject (e : Z) : (0 <= e)%Z -> 2 ^ e == inject_Z (2 ^ e).
Proof. intro H. symmetry. apply (Zpower_Qpower 2 e H). Qed.

Lemma Qabs_frac (x : Q) : Qabs x == inject_Z (Z.abs (Qnum x)) / inject_Z (Zpos (Qden x)).
Proof. destruct x as [n d]. simpl. rewrite (Qmake_Qdiv (Z.abs n) d). reflexivity. Qed.

Lemma ilog2_lower (x : Q) : ~ x == 0 -> 2 ^ ilog2 x <= Qabs x.
Proof.
  intro Hx. unfold ilog2.
  set (n := Z.abs (Qnum x)). set (d := Zpos (Qden x)).
  destruct (Qle_bool (2 ^ (Z.log2 n - Z.log2 d)) (Qabs x)) eqn:E.
  - now apply Qle_bool_iff.
  - assert (Hn : (0 < n)%Z).
    { subst n. destruct x as [[|p|p] q]; simpl; try lia. exfalso. apply Hx. reflexivity. }
    assert (Hd : (0 < d)%Z) by (subst d; lia).
    pose proof (Z.log2_spec n Hn) as [Hn1 _].
    pose proof (Z.log2_spec d Hd) as [_ Hd2].
    pose proof (Z.log2_nonneg n) as Ln. pose proof (Z.log2_nonneg d) as Ld.
    replace (Z.log2 n - Z.log2 d - 1)%Z with (Z.log2 n - Z.succ (Z.log2 d))%Z by lia.
    rewrite Qpower_minus by (intro H; discriminate H).
    rewrite Qabs_frac. fold n d.
    rewrite !pow2_inject by lia.
    apply Qle_shift_div_l. { change 0 with (inject_Z 0). rewrite <- Zlt_Qlt. exact Hd. }
    unfold Qdiv. rewrite <- Qmult_assoc, (Qmult_comm (/ _)), Qmult_assoc.
    apply Qle_shift_div_r. { change 0 with (inject_Z 0). rewrite <- Zlt_Qlt. lia. }
    rewrite <- !inject_Z_mult, <- Zle_Qle.
    apply Z.mul_le_mono_nonneg; lia.
Qed.

Lemma ilog2_upper (x : Q) : ~ x == 0 -> Qabs x < 2 ^ (ilog2 x + 1).
Proof.
  intro Hx. unfold ilog2.
  set (n := Z.abs (Qnum x)). set (d := Zpos (Qden x)).
  destruct (Qle_bool (2 ^ (Z.log2 n - Z.log2 d)) (Qabs x)) eqn:E.
  - assert (Hn : (0 < n)%Z).
    { subst n. destruct x as [[|p|p] q]; simpl; try lia. exfalso. apply Hx. reflexivity. }
    assert (Hd : (0 < d)%Z) by (subst d; lia).
    pose proof (Z.log2_spec n Hn) as [_ Hn2].
    pose proof (Z.log2_spec d Hd) as [Hd1 _].
    pose proof (Z.log2_nonneg n) as Ln. pose proof (Z.log2_nonneg d) as Ld.
    replace (Z.log2 n - Z.log2 d + 1)%Z with (Z.succ (Z.log2 n) - Z.log2 d)%Z by lia.
    rewrite Qpower_minus by (intro H; discriminate H).
    rewrite Qabs_frac. fold n d.
    rewrite !pow2_inject by lia.
    apply Qlt_shift_div_l. { change 0 with (inject_Z 0). rewrite <- Zlt_Qlt. lia. }
    unfold Qdiv. rewrite <- Qmult_assoc, (Qmult_comm (/ _)), Qmult_assoc.
    apply Qlt_shift_div_r. { change 0 with (inject_Z 0). rewrite <- Zlt_Qlt. exact Hd. }
    rewrite <- !inject_Z_mult, <- Zlt_Qlt.
    apply Z.lt_le_trans with (2 ^ Z.succ (Z.log2 n) * 2 ^ Z.log2 d)%Z.
    + apply Z.mul_lt_mono_pos_r; lia.
    + apply Z.mul_le_mono_nonneg_l; lia.
  - replace (Z.log2 n - Z.log2 d - 1 + 1)%Z with (Z.log2 n - Z.log2 d)%Z by lia.
    apply Qnot_le_lt. intro H. apply Qle_bool_iff in H. congruence.
Qed.

Lemma round_half_even_Z (x : Q) (k : Z) : x == inject_Z k -> round_half_even x = k.
Proof.
  intro H. unfold round_half_even.
  assert (F : Qfloor x = k) by (rewrite H; apply Qfloor_Z).
  rewrite F.
  assert (C : (x - inject_Z k ?= 1 # 2) = Lt).
  { rewrite H. rewrite <- Qlt_alt. ring_simplify. reflexivity. }
  now rewrite C.
Qed.

Lemma rnd64_compat (x y : Q) : x == y -> rnd64 x = rnd64 y.
Proof. intro H. unfold rnd64. now rewrite (Qred_complete _ _ H). Qed.

Lemma rnd64_exact (x : Q) (m s : Z) :
  (0 <= s <= 1074)%Z -> (Z.abs m < 2 ^ 53)%Z -> x == inject_Z m / 2 ^ s ->
  rnd64 x == x.
Proof.
  intros Hs Hm Hx. unfold rnd64.
  pose proof (Qred_correct x) as Hy. set (y := Qred x) in *.
  destruct (Qeq_bool y 0) eqn:E0.
  - apply Qeq_bool_iff in E0. now rewrite <- Hy, E0.
  - apply Qeq_bool_neq in E0.
    rewrite Qred_correct.
    set (e := Z.max (ilog2 y - 52) (-1074)).
    assert (Hy' : y == inject_Z m / 2 ^ s) by now rewrite Hy.
    assert (He : (e <= - s)%Z).
    { subst e. apply Z.max_lub; [|lia].
      enough (ilog2 y < 53 - s)%Z by lia.
      apply Qpower_lt_compat_l_inv with (q := 2); [|reflexivity].
      apply Qle_lt_trans with (Qabs y); [now apply ilog2_lower|].
      rewrite Hy'. unfold Qdiv. rewrite Qabs_Qmult.
      rewrite (Qabs_pos (/ 2 ^ s)) by (apply Qlt_le_weak, Qinv_lt_0_compat, pow2_pos).
      rewrite Qpower_minus by (intro H; discriminate H).
      unfold Qdiv. apply Qmult_lt_compat_r. { apply Qinv_lt_0_compat, pow2_pos. }
      rewrite pow2_inject by lia.
      change (Qabs (inject_Z m)) with (inject_Z (Z.abs m)). now rewrite <- Zlt_Qlt. }
    assert (Hk : y / 2 ^ e == inject_Z (m * 2 ^ (- s - e))).
    { rewrite Hy', inject_Z_mult, <- pow2_inject by lia.
      rewrite Qpower_minus by (intro H; discriminate H).
      rewrite Qpower_opp.
      field. split; apply pow2_nonzero. }
    rewrite (round_half_even_Z Hk), <- Hk, <- Hy.
    field. apply pow2_nonzero.
Qed.

Lemma rnd64_exact_int (x : Q) (m : Z) :
  (Z.abs m < 2 ^ 53)%Z -> x == inject_Z m -> rnd64 x == x.
Proof.
  intros Hm Hx. apply rnd64_exact with (m := m) (s := 0%Z); [lia|exact Hm|].
  rewrite Hx. simpl. field.
Qed.

Lemma rnd64_exact_half (x : Q) (m : Z) :
  (Z.abs m < 2 ^ 53)%Z -> x == inject_Z m / 2 -> rnd64 x == x.
Proof.
  intros Hm Hx. apply rnd64_exact with (m := m) (s := 1%Z); [lia|exact Hm|].
  rewrite Hx. reflexivity.
Qed.

#[local] Instance Qtrunc_comp : Proper (Qeq ==> eq) Qtrunc.
Proof.
  intros x y H. unfold Qtrunc.
  rewrite (Qleb_comp 0 0 (Qeq_refl 0) x y H), (Qfloor_comp x y H), (Qceiling_comp x y H).
  reflexivity.
Qed.

#[local] Instance Qlt_bool_comp : Proper (Qeq ==> Qeq ==> eq) Qlt_bool.
Proof. intros x y H x' y' H'. unfold Qlt_bool. now rewrite (Qleb_comp x' y' H' x y H). Qed.

Lemma Qtrunc_Z (k : Z) : Qtrunc (inject_Z k) = k.
Proof. unfold Qtrunc. destruct (Qle_bool 0 (inject_Z k)); [apply Qfloor_Z|apply Qceiling_Z]. Qed.

Lemma Qtrunc_nonneg (x : Q) : 0 <= x -> Qtrunc x = Qfloor x.
Proof. intro H. unfold Qtrunc. apply Qle_bool_iff in H. now rewrite H. Qed.

Lemma Qlt_bool_false (x y : Q) : y <= x -> Qlt_bool x y = false.
Proof. intro H. unfold Qlt_bool. apply Qle_bool_iff in H. now rewrite H. Qed.

Lemma float_floordiv_exact (v w : Q) (p q : Z) :
  (0 <= p < 2 ^ 53)%Z -> (0 < q)%Z ->
  v == inject_Z p / 2 -> w == inject_Z q ->
  float_floordiv v w == inject_Z (p / (2 * q)).
Proof.
  intros Hp Hq Hv Hw.
  set (k := (p / (2 * q))%Z).
  assert (Hq0 : ~ inject_Z q == 0).
  { intro H. apply (inject_Z_injective q 0) in H. lia. }
  assert (Hk0 : (0 <= k)%Z) by (apply Z.div_pos; lia).
  assert (Hmod : (0 <= p - 2 * q * k)%Z).
  { pose proof (Z.mul_div_le p (2 * q)) as M. fold k in M. lia. }
  assert (Hquot : v / w == inject_Z p / inject_Z (2 * q)).
  { rewrite Hv, Hw, inject_Z_mult. field. exact Hq0. }
  assert (Hfl : Qfloor (v / w) = k).
  { rewrite Hquot. symmetry. apply Zdiv_Qdiv. }
  assert (Hnn : 0 <= v / w).
  { rewrite Hquot. apply Qle_shift_div_l.
    - change 0 with (inject_Z 0). rewrite <- Zlt_Qlt. lia.
    - rewrite Qmult_0_l. change 0 with (inject_Z 0). rewrite <- Zle_Qle. lia. }
  assert (Hmd : fmod v w == inject_Z (p - 2 * q * k) / 2).
  { unfold fmod. rewrite Qred_correct, (Qtrunc_nonneg Hnn), Hfl, Hv, Hw.
    unfold Zminus. rewrite inject_Z_plus, inject_Z_opp, !inject_Z_mult. field. }
  assert (Hkq : (Z.abs (k * q) < 2 ^ 53)%Z) by (rewrite Z.abs_eq; nia).
  assert (Hsub : float_sub v (fmod v w) == inject_Z (k * q)).
  { unfold float_sub.
    assert (E : v - fmod v w == inject_Z (k * q)).
    { rewrite Hmd, Hv. unfold Zminus.
      rewrite inject_Z_plus, inject_Z_opp, !inject_Z_mult. field. }
    rewrite (rnd64_exact_int Hkq E). exact E. }
  assert (Hdiv : float_div (float_sub v (fmod v w)) w == inject_Z k).
  { unfold float_div.
    assert (E : float_sub v (fmod v w) / w == inject_Z k).
    { rewrite Hsub, Hw, inject_Z_mult. field. exact Hq0. }
    assert (Hk : (Z.abs k < 2 ^ 53)%Z) by (rewrite Z.abs_eq; nia).
    rewrite (rnd64_exact_int Hk E). exact E. }
  unfold float_floordiv.
  assert (Hw' : Qlt_bool w 0 = false).
  { apply Qlt_bool_false. rewrite Hw. change 0 with (inject_Z 0). rewrite <- Zle_Qle. lia. }
  assert (Hm' : Qlt_bool (fmod v w) 0 = false).
  { apply Qlt_bool_false. rewrite Hmd. apply Qle_shift_div_l; [reflexivity|].
    rewrite Qmult_0_l. change 0 with (inject_Z 0). rewrite <- Zle_Qle. exact Hmod. }
  rewrite Hw', Hm'. simpl. rewrite andb_false_r.
  destruct (Qeq_bool _ 0) eqn:E0.
  - apply Qeq_bool_iff in E0. rewrite <- Hdiv. symmetry. exact E0.
  - assert (Hfloor : Qfloor (float_div (float_sub v (fmod v w)) w) = k).
    { rewrite Hdiv. apply Qfloor_Z. }
    rewrite Hfloor.
    assert (Z0 : float_sub (float_div (float_sub v (fmod v w)) w) (inject_Z k) = 0).
    { unfold float_sub. rewrite (@rnd64_compat _ 0); [reflexivity|].
      rewrite Hdiv. ring. }
    rewrite Z0. reflexivity.
Qed.

Lemma round_div_exact (n d : Z) :
  (0 <= n)%Z -> (0 < d)%Z -> (2 * n + d < 2 ^ 53)%Z ->
  _round_div n d = round_half_up n d.
Proof.
  intros Hn Hd Hr. unfold _round_div, round_half_up.
  destruct (Z.leb_spec d 0) as [H|_]; [lia|].
  unfold int_of_float.
  rewrite (@float_floordiv_exact _ _ (2 * n + d) d); [apply Qtrunc_Z|lia|lia| |].
  - unfold float_add.
    assert (En : float_of_int n == inject_Z n).
    { unfold float_of_int. apply rnd64_exact_int with (m := n); [rewrite Z.abs_eq; lia|reflexivity]. }
    assert (Eh : int_truediv d 2 == inject_Z d / 2).
    { unfold int_truediv. apply rnd64_exact_half with (m := d); [rewrite Z.abs_eq; lia|reflexivity]. }
    assert (E : float_of_int n + int_truediv d 2 == inject_Z (2 * n + d) / 2).
    { rewrite En, Eh, inject_Z_plus, inject_Z_mult. field. }
    rewrite (@rnd64_exact_half _ (2 * n + d)); [exact E|rewrite Z.abs_eq; lia|exact E].
  - unfold float_of_int. apply rnd64_exact_int with (m := d); [rewrite Z.abs_eq; lia|reflexivity].
Qed.

(** The model on a few values of the interpreter: [0.1] as a float,
    [1.0 // 0.1 = 9.0], [-7.5 // 2.0 = -4.0], [round(2.5) = 2],
    [round(3.5) = 4], [float(2**53 + 1) = 2**53]. *)
Example binary64_samples :
  rnd64 (1 # 10) = (3602879701896397 # 36028797018963968)
  /\ float_floordiv 1 (rnd64 (1 # 10)) == 9
  /\ float_floordiv (- (15 # 2)) 2 == - (4)
  /\ round_half_even (5 # 2) = 2%Z /\ round_half_even (7 # 2) = 4%Z
  /\ float_of_int 9007199254740993 == inject_Z 9007199254740992.
Proof. vm_compute. repeat split. Qed.

Example round_div_samples :
  _round_div 7 2 = 4%Z /\ _round_div 150 10 = 15%Z /\ _round_div 4 3 = 1%Z
  /\ _round_div 5 0 = 0%Z.
Proof. vm_compute. repeat split. Qed.

Open Scope Z_scope.

(** ** Stable sort *)

Section SortFacts.
Variable A : Type.
Variable le : A -> A -> bool.

Lemma insert_sorted_perm (x : A) (l : list A) :
  Permutation (insert_sorted le x l) (x :: l).
Proof.
  induction l as [|y r IH]; simpl; [reflexivity|].
  destruct (le x y); [reflexivity|].
  rewrite IH. apply perm_swap.
Qed.

Lemma stable_sort_perm (l : list A) : Permutation (stable_sort le l) l.
Proof.
  induction l as [|x r IH]; simpl; [constructor|].
  rewrite insert_sorted_perm. now constructor.
Qed.

Lemma stable_sort_length (l : list A) : List.length (stable_sort le l) = List.length l.
Proof. apply Permutation_length, stable_sort_perm. Qed.

Lemma stable_sort_In (l : list A) (x : A) : In x (stable_sort le l) <-> In x l.
Proof.
  split; apply Permutation_in; [|symmetry]; apply stable_sort_perm.
Qed.
End SortFacts.

Lemma In_firstn (A : Type) (n : nat) (l : list A) (x : A) :
  In x (firstn n l) -> In x l.
Proof.
  intro H. rewrite <- (firstn_skipn n l). apply in_or_app. now left.
Qed.

(** ** Dictionaries with integer values *)

Lemma dict_update_keys (V : Type) (f : V -> V) (d : dict Z V) (k : Z) :
  map fst (dict_update Z.eqb d k f) = map fst d.
Proof.
  induction d as [|[k' v] r IH]; simpl; [reflexivity|].
  destruct (k' =? k); simpl; [reflexivity|now rewrite IH].
Qed.

Section DictFacts.
Variable f : Z -> Z.

Lemma dict_update_sum (d : dict Z Z) (k : Z) (c : Z) :
  (forall v, f v = v + c) -> In k (map fst d) ->
  sum_Z (map snd (dict_update Z.eqb d k f)) = sum_Z (map snd d) + c.
Proof.
  intros Hf. induction d as [|[k' v] r IH]; simpl; [tauto|].
  intros [E|Hin].
  - subst k'. rewrite Z.eqb_refl. simpl. rewrite Hf. lia.
  - destruct (Z.eqb_spec k' k); simpl; [rewrite Hf; lia|].
    rewrite (IH Hin). lia.
Qed.

Lemma dict_update_nonneg (d : dict Z Z) (k : Z) :
  (forall v, 0 <= v -> 0 <= f v) ->
  Forall (fun kv => 0 <= snd kv) d ->
  Forall (fun kv => 0 <= snd kv) (dict_update Z.eqb d k f).
Proof.
  intros Hf. induction 1 as [|[k' v] r Hv Hr IH]; simpl; [constructor|].
  destruct (k' =? k); constructor; simpl in *; auto.
Qed.
End DictFacts.

Lemma sum_filter_pos (l : dict Z Z) :
  Forall (fun kv => 0 <= snd kv) l ->
  sum_Z (map snd (filter (fun kv => 0 <? snd kv) l)) = sum_Z (map snd l).
Proof.
  induction 1 as [|[k v] r Hv Hr IH]; simpl; [reflexivity|].
  simpl in Hv. destruct (Z.ltb_spec 0 v); simpl; lia.
Qed.

(** Adding one pallet to each supplier of a list of suppliers of the split. *)
Lemma fold_increment (ks : list (Z * Z)) (d : dict Z Z) :
  (forall sr, In sr ks -> In (fst sr) (map fst d)) ->
  Forall (fun kv => 0 <= snd kv) d ->
  let d' := fold_left (fun sc sr => dict_update Z.eqb sc (fst sr) (fun v => v + 1)) ks d in
  sum_Z (map snd d') = sum_Z (map snd d) + Z.of_nat (List.length ks)
  /\ Forall (fun kv => 0 <= snd kv) d'.
Proof.
  revert d. induction ks as [|sr ks IH]; intros d Hin Hnn; simpl.
  - split; [lia|exact Hnn].
  - destruct (IH (dict_update Z.eqb d (fst sr) (fun v => v + 1))) as [S1 N1].
    + intros sr' H'. rewrite dict_update_keys. apply Hin. now right.
    + apply dict_update_nonneg; [intros; lia|exact Hnn].
    + split; [|exact N1].
      rewrite S1, (@dict_update_sum (fun v => v + 1) d (fst sr) 1); [lia|reflexivity|].
      apply Hin. now left.
Qed.

(** ** Quotients and remainders of a split *)

Section Apportion.
Variables (d b : Z).
Hypothesis Hb : 0 < b.

Lemma floors_rems_sum (l : dict Z Z) :
  sum_Z (map snd l) * d
  = b * sum_Z (map snd (floor_parts d b l)) + sum_Z (map snd (remainder_parts d b l)).
Proof.
  induction l as [|[k p] r IH]; simpl; [lia|].
  pose proof (Z.div_mod (p * d) b ltac:(lia)). simpl in IH. lia.
Qed.

Lemma rems_bound (l : dict Z Z) :
  0 <= sum_Z (map snd (remainder_parts d b l)) <= Z.of_nat (List.length l) * (b - 1).
Proof.
  induction l as [|[k p] r IH]; [simpl; lia|].
  pose proof (Z.mod_pos_bound (p * d) b Hb) as M.
  change (sum_Z (map snd (remainder_parts d b ((k, p) :: r))))
    with (p * d mod b + sum_Z (map snd (remainder_parts d b r))).
  change (List.length ((k, p) :: r)) with (S (List.length r)).
  rewrite Nat2Z.inj_succ. nia.
Qed.

Lemma floors_nonneg (l : dict Z Z) :
  0 <= d -> Forall (fun sp => 0 <= snd sp) l ->
  Forall (fun kv => 0 <= snd kv) (floor_parts d b l).
Proof.
  intros Hd. induction 1 as [|[k p] r Hp Hr IH]; simpl; constructor; auto.
  simpl in *. apply Z.div_pos; nia.
Qed.

(** The number of pallets the largest-remainder step has to hand out lies
    between 0 and the number of suppliers. *)
Lemma delta_bounds (l : dict Z Z) :
  let delta := round_half_up (sum_Z (map snd l) * d) b
               - sum_Z (map snd (floor_parts d b l)) in
  0 <= delta <= Z.of_nat (List.length l).
Proof.
  intro delta. subst delta. unfold round_half_up.
  rewrite floors_rems_sum.
  pose proof (rems_bound l) as [R0 R1].
  set (F := sum_Z (map snd (floor_parts d b l))) in *.
  set (R := sum_Z (map snd (remainder_parts d b l))) in *.
  replace (2 * (b * F + R) + b) with (F * (2 * b) + (2 * R + b)) by lia.
  rewrite Z.div_add_l by lia.
  assert (0 <= (2 * R + b) / (2 * b)) by (apply Z.div_pos; lia).
  assert ((2 * R + b) / (2 * b) < Z.of_nat (List.length l) + 1).
  { apply Z.div_lt_upper_bound; nia. }
  lia.
Qed.
End Apportion.

Lemma sum_nonneg (l : dict Z Z) :
  Forall (fun sp => 0 <= snd sp) l -> 0 <= sum_Z (map snd l).
Proof. induction 1 as [|[k p] r Hp Hr IH]; simpl in *; lia. Qed.

Lemma scale_total (split : dict Z Z) (base_demand : Z) (demand_value : float) :
  let demand_int := Z.max 0 (round_half_even demand_value) in
  let total_old := sum_Z (map snd split) in
  0 < base_demand -> 0 < demand_int ->
  Forall (fun sp => 0 <= snd sp) split ->
  2 * (total_old * demand_int) + base_demand < 2 ^ 53 ->
  sum_Z (map snd (_scale_pallets split base_demand demand_value))
  = round_half_up (total_old * demand_int) base_demand.
Proof.
  intros d T Hb Hd Hnn Hr. unfold _scale_pallets. fold d.
  destruct (Z.leb_spec base_demand 0); [lia|].
  destruct (Z.leb_spec d 0); [lia|]. simpl orb. cbv iota.
  fold T.
  assert (HT : 0 <= T) by now apply sum_nonneg.
  rewrite round_div_exact by nia.
  pose proof (@delta_bounds d base_demand Hb split) as D. simpl in D. fold T in D.
  set (delta := round_half_up (T * d) base_demand
                - sum_Z (map snd (floor_parts d base_demand split))) in *.
  assert (Hfl : Forall (fun kv => 0 <= snd kv) (floor_parts d base_demand split)).
  { apply floors_nonneg; try lia. exact Hnn. }
  destruct (Z.ltb_spec 0 delta) as [Hpos|Hnpos].
  - set (top := firstn (Z.to_nat delta) _).
    destruct (@fold_increment top (floor_parts d base_demand split)) as [S N]; [|exact Hfl|].
    + intros sr Hin. subst top. apply In_firstn in Hin.
      apply stable_sort_In in Hin.
      unfold floor_parts, remainder_parts in *. rewrite map_map. simpl.
      apply in_map_iff in Hin. destruct Hin as [sp [E Hsp]]. subst sr. simpl.
      apply in_map_iff. now exists sp.
    + rewrite sum_filter_pos by exact N. rewrite S.
      subst top. rewrite length_firstn, stable_sort_length.
      unfold remainder_parts at 1. rewrite length_map. lia.
  - destruct (Z.ltb_spec delta 0); [lia|].
    rewrite sum_filter_pos by exact Hfl. lia.
Qed.

Lemma scale_guard (split : dict Z Z) (base_demand : Z) (demand_value : float) :
  Z.max 0 (round_half_even demand_value) = 0 \/ base_demand <= 0 ->
  _scale_pallets split base_demand demand_value = [].
Proof.
  intros H. unfold _scale_pallets.
  destruct (Z.leb_spec base_demand 0); [reflexivity|].
  destruct (Z.leb_spec (Z.max 0 (round_half_even demand_value)) 0); [reflexivity|].
  lia.
Qed.

(** ** Rows, truck ids and loads *)

Lemma sum_Z_app (a b : list Z) : sum_Z (a ++ b) = sum_Z a + sum_Z b.
Proof. induction a as [|x a IH]; simpl; lia. Qed.

Lemma ids_snoc (out : list OutputRow.t) (r : OutputRow.t) :
  ids (out ++ [r]) = ids out ++ [OutputRow.truck_id r].
Proof. unfold ids. now rewrite map_app. Qed.

Lemma load_snoc (out : list OutputRow.t) (r : OutputRow.t) (t : Z) :
  load (out ++ [r]) t
  = load out t + (if OutputRow.truck_id r =? t then OutputRow.pallets r else 0).
Proof.
  unfold load. rewrite filter_app, map_app, sum_Z_app. simpl.
  destruct (OutputRow.truck_id r =? t); simpl; lia.
Qed.

Lemma load_absent (out : list OutputRow.t) (t : Z) :
  ~ In t (ids out) -> load out t = 0.
Proof.
  unfold load, ids. induction out as [|r out IH]; simpl; [reflexivity|].
  intro H. destruct (Z.eqb_spec (OutputRow.truck_id r) t) as [E|E].
  - exfalso. apply H. now left.
  - apply IH. intro H'. apply H. now right.
Qed.

Lemma sorted_snoc (l : list Z) (y : Z) :
  StronglySorted Z.le l -> (forall x, In x l -> x <= y) ->
  StronglySorted Z.le (l ++ [y]).
Proof.
  induction 1 as [|x l Hl IH Hx]; intro Hy; simpl.
  - constructor; constructor.
  - constructor.
    + apply IH. intros z Hz. apply Hy. now right.
    + apply Forall_app. split; [exact Hx|].
      constructor; [|constructor]. apply Hy. now left.
Qed.

Lemma in_ids (out : list OutputRow.t) (r : OutputRow.t) :
  In r out -> In (OutputRow.truck_id r) (ids out).
Proof. apply in_map. Qed.

(** ** Unfolding the [while] loop *)

Lemma while_loop_O (cap s : Z) (template : option TemplateData.t)
    (item : AllocationItem.t) (pl : Z) (st : PackState) :
  while_loop 0 cap s template item pl st = if 0 <? pl then None else Some st.
Proof. reflexivity. Qed.

Lemma while_loop_S (fuel : nat) (cap s : Z) (template : option TemplateData.t)
    (item : AllocationItem.t) (pl : Z) (st : PackState) :
  while_loop (S fuel) cap s template item pl st
  = if 0 <? pl
    then while_loop fuel cap s template item
           (fst (while_body cap s template item pl st))
           (snd (while_body cap s template item pl st))
    else Some st.
Proof. reflexivity. Qed.

(** ** The loop invariant *)

Section PackInvariant.
Variable capf : Z -> Z.
Variable template : option TemplateData.t.

(** A row put on a truck that is the newest one keeps [rows_ok], provided
    the truck's load stays within the capacity and the truck is the
    supplier's own. *)
Lemma rows_ok_snoc (out : list OutputRow.t) (next next' : Z) (r : OutputRow.t) :
  rows_ok capf out next ->
  next <= next' <= next + 1 -> OutputRow.truck_id r = next' - 1 -> 1 <= next' - 1 ->
  (forall r', In r' out -> OutputRow.truck_id r' = OutputRow.truck_id r ->
     OutputRow.supplier r' = OutputRow.supplier r) ->
  load out (OutputRow.truck_id r) + OutputRow.pallets r <= capf (OutputRow.supplier r) ->
  rows_ok capf (out ++ [r]) next'.
Proof.
  intros [Hn Hids Hs H1 Hl] Hnext Hid Hpos Hsup Hload.
  constructor.
  - lia.
  - intro t. rewrite ids_snoc, in_app_iff, Hids. simpl. lia.
  - rewrite ids_snoc. apply sorted_snoc; [exact Hs|].
    intros x Hx. apply Hids in Hx. lia.
  - intros r1 r2 I1 I2 E. apply in_app_iff in I1, I2. simpl in I1, I2.
    destruct I1 as [I1|[I1|[]]], I2 as [I2|[I2|[]]]; subst.
    + now apply H1.
    + apply Hsup; assumption.
    + symmetry. apply Hsup; [assumption|now symmetry].
    + reflexivity.
  - intros r' I. rewrite load_snoc. apply in_app_iff in I. simpl in I.
    destruct I as [I|[I|[]]].
    + destruct (Z.eqb_spec (OutputRow.truck_id r) (OutputRow.truck_id r')) as [E|E].
      * rewrite <- E. rewrite (Hsup r' I); [exact Hload|now symmetry].
      * specialize (Hl r' I). lia.
    + subst r'. rewrite Z.eqb_refl. exact Hload.
Qed.

Lemma while_body_ok (s : Z) (item : AllocationItem.t) (pallets_left : Z)
    (st : PackState) :
  state_ok capf s st ->
  state_ok capf s (snd (while_body (capf s) s template item pallets_left st)).
Proof.
  intros [Hrows Hcur]. destruct st as [out next rem cur]. simpl in *.
  unfold while_body, open_truck. simpl.
  destruct (Z.eqb_spec rem 0) as [E|E]; simpl.
  - (* a new truck *)
    pose proof (ok_next Hrows) as Hn.
    assert (Hfresh : ~ In next (ids out)).
    { intro H. apply (ok_ids Hrows) in H. lia. }
    assert (Hnone : forall r', In r' out -> OutputRow.truck_id r' = next -> False).
    { intros r' I E'. apply Hfresh. rewrite <- E'. now apply in_ids. }
    constructor; simpl.
    + apply rows_ok_snoc with (next := next); simpl; try lia; try assumption.
      { intros r' I E'. exfalso. eapply Hnone; eassumption. }
      { rewrite (load_absent _ _ Hfresh). lia. }
    + intros _. repeat split; try lia.
      * intros r I E'. apply in_app_iff in I. simpl in I.
        destruct I as [I|[I|[]]]; [exfalso; eapply Hnone; eassumption|].
        subst r. reflexivity.
      * rewrite load_snoc, (load_absent _ _ Hfresh). simpl.
        rewrite Z.eqb_refl. lia.
  - (* the truck in use *)
    destruct (Hcur E) as [Ec [H2 [Hsup Hld]]]. subst cur.
    constructor; simpl.
    + apply rows_ok_snoc with (next := next); simpl; try lia; assumption.
    + intros _. repeat split; try lia.
      * intros r I E'. apply in_app_iff in I. simpl in I.
        destruct I as [I|[I|[]]]; [now apply Hsup|]. subst r. reflexivity.
      * rewrite load_snoc. simpl. rewrite Z.eqb_refl. lia.
Qed.

Lemma while_loop_ok (fuel : nat) (s : Z) (item : AllocationItem.t)
    (pallets_left : Z) (st st' : PackState) :
  state_ok capf s st ->
  while_loop fuel (capf s) s template item pallets_left st = Some st' ->
  state_ok capf s st'.
Proof.
  revert pallets_left st. induction fuel as [|fuel IH]; intros pl st Hst.
  - rewrite while_loop_O. destruct (0 <? pl); [discriminate|]. now intros [= <-].
  - rewrite while_loop_S. destruct (0 <? pl); [|now intros [= <-]].
    apply IH. now apply while_body_ok.
Qed.

Lemma for_items_ok (fuel : nat) (s : Z) (items : list AllocationItem.t)
    (st st' : PackState) :
  state_ok capf s st ->
  for_items fuel (capf s) s template items st = Some st' ->
  state_ok capf s st'.
Proof.
  revert st. induction items as [|item rest IH]; intros st Hst; simpl.
  - now intros [= <-].
  - destruct (while_loop fuel (capf s) s template item
                (AllocationItem.pallets item) st) as [st1|] eqn:E; [|discriminate].
    apply IH. eapply while_loop_ok; eassumption.
Qed.
End PackInvariant.

Lemma for_suppliers_ok (fuel : nat) (reserve : ReserveInfo.t)
    (template : option TemplateData.t) (options : RunOptions.t)
    (grouped : dict Z (list AllocationItem.t)) (suppliers : list Z)
    (out out' : list OutputRow.t) (next next' : Z) :
  rows_ok (truck_capacity reserve options) out next ->
  for_suppliers fuel reserve template options grouped suppliers out next
  = Some (out', next') ->
  rows_ok (truck_capacity reserve options) out' next'.
Proof.
  revert out next. induction suppliers as [|s rest IH]; intros out next Hok; simpl.
  - now intros [= <- <-].
  - destruct (for_items _ _ _ _ _ _) as [st|] eqn:E; [|discriminate].
    apply IH.
    assert (H0 : state_ok (truck_capacity reserve options) s
                   (mkPackState out next 0 0)).
    { constructor; simpl; [exact Hok|]. intro H. now elim H. }
    apply (st_rows (for_items_ok _ _ _ H0 E)).
Qed.

Lemma rows_ok_init (capf : Z -> Z) : rows_ok capf [] 1.
Proof.
  constructor; simpl.
  - lia.
  - intro t. split; [tauto|lia].
  - constructor.
  - intros ? ? [].
  - intros ? [].
Qed.

Lemma pack_trucks_counter_ok (fuel : nat) (items : list AllocationItem.t)
    (reserve : ReserveInfo.t) (template : option TemplateData.t)
    (options : RunOptions.t) (out : list OutputRow.t) (next : Z) :
  pack_trucks_counter fuel items reserve template options = Some (out, next) ->
  rows_ok (truck_capacity reserve options) out next.
Proof.
  unfold pack_trucks_counter. apply for_suppliers_ok. apply rows_ok_init.
Qed.

(** ** Slices of one item *)

Section Slices.
Variables (cap s : Z) (template : option TemplateData.t).
Hypothesis Hcap : 1 <= cap.

Lemma open_truck_rows (st : PackState) : rows (open_truck cap st) = rows st.
Proof. unfold open_truck. now destruct (remaining st =? 0). Qed.

Lemma open_truck_remaining (st : PackState) :
  0 <= remaining st -> 1 <= remaining (open_truck cap st).
Proof.
  intro H. unfold open_truck.
  destruct (Z.eqb_spec (remaining st) 0); simpl; lia.
Qed.

Lemma while_loop_slice (fuel : nat) (item : AllocationItem.t) (pl : Z)
    (st st' : PackState) :
  AllocationItem.supplier item = s -> 0 <= remaining st ->
  while_loop fuel cap s template item pl st = Some st' ->
  exists rs, rows st' = rows st ++ rs
    /\ Forall (slice_row item) rs
    /\ sum_Z (map OutputRow.pallets rs) = Z.max 0 pl
    /\ 0 <= remaining st'.
Proof.
  intro Hs. revert pl st. induction fuel as [|fuel IH]; intros pl st Hrem.
  - rewrite while_loop_O. destruct (Z.ltb_spec 0 pl); [discriminate|].
    intros [= <-]. exists []. rewrite app_nil_r. repeat split; auto. simpl. lia.
  - rewrite while_loop_S. destruct (Z.ltb_spec 0 pl) as [Hpl|Hpl].
    + pose proof (open_truck_remaining st Hrem) as H1.
      unfold while_body. cbn [fst snd]. intro Hloop.
      apply IH in Hloop; [|simpl; lia].
      destruct Hloop as [rs [Hrows [Hall [Hsum Hrem']]]].
      cbn [rows] in Hrows. rewrite open_truck_rows, <- app_assoc in Hrows.
      eexists. split; [exact Hrows|]. repeat split.
      * constructor; [|exact Hall].
        unfold slice_row, output_row. simpl. repeat split; auto; lia.
      * simpl. change (fold_right Z.add 0) with sum_Z. rewrite Hsum. simpl. lia.
      * exact Hrem'.
    + intros [= <-]. exists []. rewrite app_nil_r. repeat split; auto. simpl. lia.
Qed.

Lemma while_loop_terminates (fuel : nat) (item : AllocationItem.t) (pl : Z)
    (st : PackState) :
  0 <= remaining st -> pl <= Z.of_nat fuel ->
  exists st', while_loop fuel cap s template item pl st = Some st'.
Proof.
  revert pl st. induction fuel as [|fuel IH]; intros pl st Hrem Hpl.
  - rewrite while_loop_O. destruct (Z.ltb_spec 0 pl); [lia|]. now exists st.
  - rewrite while_loop_S. destruct (Z.ltb_spec 0 pl); [|now exists st].
    pose proof (open_truck_remaining st Hrem) as H1.
    unfold while_body. cbn [fst snd]. apply IH; simpl; lia.
Qed.

Lemma for_items_slices (fuel : nat) (items : list AllocationItem.t)
    (st : PackState) :
  0 <= remaining st ->
  (forall it, In it items ->
     AllocationItem.supplier it = s
     /\ 0 <= AllocationItem.pallets it <= Z.of_nat fuel) ->
  exists st' chunks,
    for_items fuel cap s template items st = Some st'
    /\ rows st' = rows st ++ concat chunks
    /\ Forall2 slice_of items chunks.
Proof.
  revert st. induction items as [|item rest IH]; intros st Hrem Hit; simpl.
  - exists st, []. simpl. rewrite app_nil_r. repeat split. constructor.
  - destruct (Hit item (or_introl eq_refl)) as [Hs Hp].
    destruct (@while_loop_terminates fuel item (AllocationItem.pallets item) st Hrem)
      as [st1 E1]; [lia|].
    rewrite E1.
    destruct (@while_loop_slice fuel item _ _ _ Hs Hrem E1) as [rs [Hrows [Hall [Hsum Hrem1]]]].
    destruct (IH st1 Hrem1) as [st' [chunks [E2 [Hrows2 Hall2]]]].
    { intros it Hin. apply Hit. now right. }
    exists st', (rs :: chunks). repeat split.
    + exact E2.
    + rewrite Hrows2, Hrows. simpl. now rewrite app_assoc.
    + constructor; [|exact Hall2]. split; [exact Hall|]. rewrite Hsum. lia.
Qed.
End Slices.

(** With a capacity of zero or less a positive item is never placed. *)
Lemma while_loop_diverges (fuel : nat) (cap s : Z)
    (template : option TemplateData.t) (item : AllocationItem.t) (pl : Z)
    (st : PackState) :
  cap <= 0 -> remaining st = 0 -> 0 < pl ->
  while_loop fuel cap s template item pl st = None.
Proof.
  intro Hcap. revert pl st. induction fuel as [|fuel IH]; intros pl st Hrem Hpl.
  - rewrite while_loop_O. now destruct (Z.ltb_spec 0 pl); [|lia].
  - rewrite while_loop_S. destruct (Z.ltb_spec 0 pl); [|lia].
    unfold while_body, open_truck. rewrite Hrem. cbn.
    apply IH; simpl; lia.
Qed.

(** ** Grouping by supplier *)

Section DictGet.
Variable V : Type.

Lemma dict_mem_In (d : dict Z V) (k : Z) :
  dict_mem Z.eqb d k = true <-> In k (map fst d).
Proof.
  unfold dict_mem. induction d as [|[k' v] r IH]; simpl.
  - split; [discriminate|tauto].
  - destruct (Z.eqb_spec k' k).
    + split; auto.
    + rewrite IH. split; [auto|]. intros [H|H]; [contradiction|exact H].
Qed.

Lemma dict_get_In (d : dict Z V) (k : Z) (v : V) :
  dict_get Z.eqb d k = Some v -> In (k, v) d.
Proof.
  induction d as [|[k' v'] r IH]; simpl; [discriminate|].
  destruct (Z.eqb_spec k' k).
  - intros [= <-]. subst. now left.
  - intro H. right. now apply IH.
Qed.

Lemma dict_get_head_other (d : dict Z V) (k k' : Z) (v : V) :
  k <> k' -> dict_get Z.eqb ((k, v) :: d) k' = dict_get Z.eqb d k'.
Proof. intro H. simpl. now destruct (Z.eqb_spec k k'). Qed.
End DictGet.

Lemma concat_groups (g : dict Z (list AllocationItem.t)) :
  NoDup (map fst g) ->
  flat_map (fun k => dict_get_default Z.eqb g k []) (map fst g)
  = concat (map snd g).
Proof.
  induction g as [|[k l] r IH]; simpl; [reflexivity|].
  intro H. inversion H as [|? ? Hnotin Hnd]; subst.
  unfold dict_get_default at 1. simpl. rewrite Z.eqb_refl. f_equal.
  rewrite <- (IH Hnd). rewrite !flat_map_concat_map. f_equal.
  apply map_ext_in. intros k' Hk'. unfold dict_get_default.
  rewrite dict_get_head_other; [reflexivity|]. intro E. subst. contradiction.
Qed.

Lemma append_group_perm (g : dict Z (list AllocationItem.t)) (k : Z)
    (x : AllocationItem.t) :
  In k (map fst g) ->
  Permutation (concat (map snd (dict_update Z.eqb g k (fun l => l ++ [x]))))
              (x :: concat (map snd g)).
Proof.
  induction g as [|[k' l] r IH]; simpl; [tauto|].
  intro H. destruct (Z.eqb_spec k' k) as [E|E]; simpl.
  - rewrite <- app_assoc. simpl. symmetry. apply Permutation_middle.
  - destruct H as [H|H]; [contradiction|].
    rewrite (IH H). symmetry. apply Permutation_middle.
Qed.

Lemma append_group_keyed (g : dict Z (list AllocationItem.t))
    (x : AllocationItem.t) :
  well_keyed g ->
  well_keyed (dict_update Z.eqb g (AllocationItem.supplier x) (fun l => l ++ [x])).
Proof.
  induction g as [|[k' l] r IH]; simpl; intro W; [exact W|].
  destruct (Z.eqb_spec k' (AllocationItem.supplier x)) as [E|E].
  - intros k l' it [H|H] Hit.
    + injection H as <- <-. apply in_app_iff in Hit. simpl in Hit.
      destruct Hit as [Hit|[<-|[]]]; [|now symmetry].
      eapply W; [now left|exact Hit].
    + eapply W; [right; exact H|exact Hit].
  - intros k l' it [H|H] Hit.
    + injection H as <- <-. eapply W; [now left|exact Hit].
    + eapply IH; [|exact H|exact Hit].
      intros k1 l1 it1 H1. apply W. now right.
Qed.

Lemma group_step_spec (g : dict Z (list AllocationItem.t)) (x : AllocationItem.t) :
  NoDup (map fst g) -> well_keyed g ->
  NoDup (map fst (group_step g x))
  /\ well_keyed (group_step g x)
  /\ Permutation (concat (map snd (group_step g x))) (concat (map snd g) ++ [x]).
Proof.
  intros Hnd W. unfold group_step, dict_setdefault.
  destruct (dict_mem Z.eqb g (AllocationItem.supplier x)) eqn:M.
  - apply dict_mem_In in M. repeat split.
    + now rewrite dict_update_keys.
    + now apply append_group_keyed.
    + rewrite append_group_perm by exact M. apply Permutation_cons_append.
  - assert (Hnot : ~ In (AllocationItem.supplier x) (map fst g)).
    { intro H. apply dict_mem_In in H. congruence. }
    assert (W' : well_keyed (g ++ [(AllocationItem.supplier x, [])])).
    { intros k l it H Hit. apply in_app_iff in H. destruct H as [H|[H|[]]].
      - eapply W; eassumption.
      - injection H as <- <-. destruct Hit. }
    repeat split.
    + rewrite dict_update_keys, map_app. simpl.
      apply NoDup_app; [exact Hnd|repeat constructor; simpl; tauto|].
      intros k Hk [<-|[]]. contradiction.
    + now apply append_group_keyed.
    + rewrite append_group_perm.
      * rewrite map_app, concat_app. simpl. rewrite app_nil_r.
        apply Permutation_cons_append.
      * rewrite map_app. apply in_or_app. right. now left.
Qed.

Lemma group_fold_spec (items : list AllocationItem.t)
    (g : dict Z (list AllocationItem.t)) :
  NoDup (map fst g) -> well_keyed g ->
  NoDup (map fst (fold_left group_step items g))
  /\ well_keyed (fold_left group_step items g)
  /\ Permutation (concat (map snd (fold_left group_step items g)))
                 (concat (map snd g) ++ items).
Proof.
  revert g. induction items as [|x rest IH]; intros g Hnd W; simpl.
  - rewrite app_nil_r. repeat split; auto.
  - destruct (group_step_spec x Hnd W) as [Hnd1 [W1 P1]].
    destruct (IH _ Hnd1 W1) as [Hnd2 [W2 P2]].
    repeat split; auto.
    rewrite P2, P1, <- app_assoc. reflexivity.
Qed.

Lemma group_items_spec (items : list AllocationItem.t) :
  NoDup (map fst (group_items items))
  /\ well_keyed (group_items items)
  /\ Permutation (concat (map snd (group_items items))) items.
Proof.
  unfold group_items.
  destruct (@group_fold_spec items []) as [H1 [H2 H3]].
  - constructor.
  - intros ? ? ? [].
  - auto.
Qed.

Lemma flat_map_sorted_perm (A B : Type) (le : B -> B -> bool)
    (f : A -> list B) (l : list A) :
  Permutation (flat_map (fun a => stable_sort le (f a)) l) (flat_map f l).
Proof.
  induction l as [|a l IH]; simpl; [constructor|].
  apply Permutation_app; [apply stable_sort_perm|exact IH].
Qed.

Lemma packing_order_perm (items : list AllocationItem.t) :
  Permutation (packing_order items) items.
Proof.
  unfold packing_order.
  destruct (group_items_spec items) as [Hnd [_ P]].
  rewrite flat_map_sorted_perm.
  rewrite (Permutation_flat_map _ (stable_sort_perm Z.leb (map fst (group_items items)))).
  now rewrite concat_groups.
Qed.

Lemma in_group (items : list AllocationItem.t) (k : Z) (it : AllocationItem.t) :
  In it (dict_get_default Z.eqb (group_items items) k []) ->
  AllocationItem.supplier it = k /\ In it items.
Proof.
  destruct (group_items_spec items) as [_ [W P]].
  unfold dict_get_default.
  destruct (dict_get Z.eqb (group_items items) k) as [l|] eqn:E; [|intros []].
  apply dict_get_In in E. intro H. split.
  - eapply W; eassumption.
  - apply (Permutation_in _ P). apply in_concat. exists l. split; [|exact H].
    apply in_map_iff. now exists (k, l).
Qed.

(** ** The whole packing run *)

Lemma for_suppliers_slices (fuel : nat) (reserve : ReserveInfo.t)
    (template : option TemplateData.t) (options : RunOptions.t)
    (grouped : dict Z (list AllocationItem.t)) (suppliers : list Z)
    (out : list OutputRow.t) (next : Z) :
  (forall s it, In s suppliers ->
     In it (dict_get_default Z.eqb grouped s []) ->
     AllocationItem.supplier it = s
     /\ 1 <= truck_capacity reserve options s
     /\ 0 <= AllocationItem.pallets it <= Z.of_nat fuel) ->
  exists out' next' chunks,
    for_suppliers fuel reserve template options grouped suppliers out next
    = Some (out', next')
    /\ out' = out ++ concat chunks
    /\ Forall2 slice_of
         (flat_map (fun s => stable_sort item_le
                               (dict_get_default Z.eqb grouped s []))
                   suppliers)
         chunks.
Proof.
  revert out next. induction suppliers as [|s rest IH]; intros out next H.
  - exists out, next, []. simpl. rewrite app_nil_r. repeat split. constructor.
  - cbn [for_suppliers flat_map].
    set (group := stable_sort item_le (dict_get_default Z.eqb grouped s [])).
    assert (Hgroup : forall it, In it group ->
              AllocationItem.supplier it = s
              /\ 1 <= truck_capacity reserve options s
              /\ 0 <= AllocationItem.pallets it <= Z.of_nat fuel).
    { intros it Hit. apply H; [now left|]. now apply stable_sort_In in Hit. }
    assert (Hfor : exists st' chunks,
              for_items fuel (truck_capacity reserve options s) s template group
                (mkPackState out next 0 0) = Some st'
              /\ rows st' = out ++ concat chunks
              /\ Forall2 slice_of group chunks).
    { destruct group as [|it0 group'] eqn:Eg.
      - exists (mkPackState out next 0 0), []. simpl. rewrite app_nil_r.
        repeat split. constructor.
      - destruct (Hgroup it0 (or_introl eq_refl)) as [_ [Hcap _]].
        apply (@for_items_slices _ s template Hcap fuel _ (mkPackState out next 0 0));
          [simpl; lia|].
        intros it Hit. destruct (Hgroup it Hit) as [? [? ?]]. now split. }
    destruct Hfor as [st' [chunks1 [E1 [R1 F1]]]]. rewrite E1.
    destruct (IH (rows st') (truck_id st')) as [out' [next' [chunks2 [E2 [R2 F2]]]]].
    { intros s' it Hs'. apply H. now right. }
    exists out', next', (chunks1 ++ chunks2). repeat split.
    + exact E2.
    + rewrite R2, R1, concat_app. now rewrite app_assoc.
    + now apply Forall2_app.
Qed.

Lemma slices_sum (order : list AllocationItem.t) (chunks : list (list OutputRow.t)) :
  Forall2 slice_of order chunks ->
  sum_Z (map OutputRow.pallets (concat chunks))
  = sum_Z (map AllocationItem.pallets order).
Proof.
  induction 1 as [|it rs order chunks [_ Hs] _ IH]; simpl; [reflexivity|].
  rewrite map_app, sum_Z_app, Hs, IH. reflexivity.
Qed.

Lemma sum_Z_perm (l l' : list Z) : Permutation l l' -> sum_Z l = sum_Z l'.
Proof. induction 1; simpl; lia. Qed.

(** ** Divergence on a capacity that is not positive *)

Lemma for_items_diverges (fuel : nat) (cap s : Z)
    (template : option TemplateData.t) (items : list AllocationItem.t)
    (st : PackState) :
  cap <= 0 -> remaining st = 0 ->
  (exists it, In it items /\ 0 < AllocationItem.pallets it) ->
  for_items fuel cap s template items st = None.
Proof.
  intros Hcap. revert st. induction items as [|item rest IH]; intros st Hrem [it [Hin Hpos]].
  - destruct Hin.
  - simpl. destruct (Z.ltb_spec 0 (AllocationItem.pallets item)) as [Hp|Hp].
    + now rewrite while_loop_diverges.
    + assert (E : while_loop fuel cap s template item
                    (AllocationItem.pallets item) st = Some st).
      { destruct fuel; [rewrite while_loop_O|rewrite while_loop_S];
          now destruct (Z.ltb_spec 0 (AllocationItem.pallets item)); [lia|]. }
      rewrite E. apply IH; [exact Hrem|]. exists it. split; [|exact Hpos].
      destruct Hin as [<-|Hin]; [lia|exact Hin].
Qed.

Lemma for_suppliers_diverges (fuel : nat) (reserve : ReserveInfo.t)
    (template : option TemplateData.t) (options : RunOptions.t)
    (grouped : dict Z (list AllocationItem.t)) (suppliers : list Z)
    (out : list OutputRow.t) (next : Z) (s : Z) (it : AllocationItem.t) :
  In s suppliers -> truck_capacity reserve options s <= 0 ->
  In it (dict_get_default Z.eqb grouped s []) -> 0 < AllocationItem.pallets it ->
  for_suppliers fuel reserve template options grouped suppliers out next = None.
Proof.
  intros Hs Hcap Hit Hpos. revert out next.
  induction suppliers as [|s0 rest IH]; intros out next; [destruct Hs|].
  cbn [for_suppliers].
  destruct (for_items _ _ _ _ _ _) as [st|] eqn:E; [|reflexivity].
  destruct Hs as [->|Hs]; [|now apply IH].
  rewrite for_items_diverges in E; [discriminate|exact Hcap|reflexivity|].
  exists it. split; [|exact Hpos]. now apply stable_sort_In.
Qed.

Lemma dict_get_default_In (V : Type) (d : dict Z V) (k : Z) (v dflt : V) :
  NoDup (map fst d) -> In (k, v) d -> dict_get_default Z.eqb d k dflt = v.
Proof.
  unfold dict_get_default. induction d as [|[k' v'] r IH]; simpl; [tauto|].
  intros Hnd [H|H].
  - injection H as -> ->. now rewrite Z.eqb_refl.
  - inversion Hnd as [|? ? Hnot Hnd']; subst.
    destruct (Z.eqb_spec k' k) as [->|Hne].
    + exfalso. apply Hnot. apply in_map_iff. now exists (k, v).
    + now apply IH.
Qed.

Lemma group_of_item (items : list AllocationItem.t) (it : AllocationItem.t) :
  In it items ->
  In (AllocationItem.supplier it) (map fst (group_items items))
  /\ In it (dict_get_default Z.eqb (group_items items)
              (AllocationItem.supplier it) []).
Proof.
  destruct (group_items_spec items) as [Hnd [W P]]. intro Hin.
  apply (Permutation_in _ (Permutation_sym P)) in Hin.
  apply in_concat in Hin. destruct Hin as [l [Hl Hit]].
  apply in_map_iff in Hl. destruct Hl as [[k l'] [E Hkl]]. simpl in E. subst l'.
  pose proof (W k l it Hkl Hit) as Hk. rewrite Hk. split.
  - apply in_map_iff. now exists (k, l).
  - now rewrite (@dict_get_default_In _ _ k l [] Hnd Hkl).
Qed.

(** A positive item of a supplier whose capacity is zero or less keeps
    [pack_trucks] in its loop whatever the fuel. *)
Lemma pack_trucks_diverges (fuel : nat) (items : list AllocationItem.t)
    (reserve : ReserveInfo.t) (template : option TemplateData.t)
    (options : RunOptions.t) (it : AllocationItem.t) :
  In it items -> 0 < AllocationItem.pallets it ->
  truck_capacity reserve options (AllocationItem.supplier it) <= 0 ->
  pack_trucks fuel items reserve template options = None.
Proof.
  intros Hin Hpos Hcap. unfold pack_trucks, pack_trucks_counter.
  destruct (group_of_item items it Hin) as [Hk Hg].
  rewrite (@for_suppliers_diverges fuel reserve template options _ _ [] 1
             (AllocationItem.supplier it) it); auto.
  now apply stable_sort_In.
Qed.

(** With capacities of at least one and enough fuel the run ends. *)
Lemma pack_trucks_slices (fuel : nat) (items : list AllocationItem.t)
    (reserve : ReserveInfo.t) (template : option TemplateData.t)
    (options : RunOptions.t) :
  (forall it, In it items ->
     1 <= truck_capacity reserve options (AllocationItem.supplier it)) ->
  (forall it, In it items -> 0 <= AllocationItem.pallets it) ->
  (forall it, In it items -> AllocationItem.pallets it <= Z.of_nat fuel) ->
  exists chunks,
    pack_trucks fuel items reserve template options = Some (concat chunks)
    /\ Forall2 slice_of (packing_order items) chunks.
Proof.
  intros Hcap Hnn Hfuel. unfold pack_trucks, pack_trucks_counter.
  destruct (@for_suppliers_slices fuel reserve template options (group_items items)
              (stable_sort Z.leb (map fst (group_items items))) [] 1)
    as [out' [next' [chunks [E [R F]]]]].
  - intros s it _ Hit. apply in_group in Hit. destruct Hit as [Hs Hin].
    subst s. repeat split; auto.
  - exists chunks. rewrite E. simpl. subst out'. split; [reflexivity|exact F].
Qed.

(** ** More fuel does not change a finished run *)

Lemma while_loop_more_fuel (fuel fuel' : nat) (cap s : Z)
    (template : option TemplateData.t) (item : AllocationItem.t) (pl : Z)
    (st st' : PackState) :
  (fuel <= fuel')%nat ->
  while_loop fuel cap s template item pl st = Some st' ->
  while_loop fuel' cap s template item pl st = Some st'.
Proof.
  revert fuel' pl st. induction fuel as [|fuel IH]; intros fuel' pl st Hle.
  - rewrite while_loop_O. destruct (0 <? pl) eqn:E; [discriminate|].
    intros [= <-]. destruct fuel'; [rewrite while_loop_O|rewrite while_loop_S];
      now rewrite E.
  - destruct fuel' as [|fuel']; [lia|].
    rewrite !while_loop_S. destruct (0 <? pl); [|auto].
    apply IH. lia.
Qed.

Lemma for_items_more_fuel (fuel fuel' : nat) (cap s : Z)
    (template : option TemplateData.t) (items : list AllocationItem.t)
    (st st' : PackState) :
  (fuel <= fuel')%nat ->
  for_items fuel cap s template items st = Some st' ->
  for_items fuel' cap s template items st = Some st'.
Proof.
  intro Hle. revert st. induction items as [|item rest IH]; intro st; simpl; [auto|].
  destruct (while_loop fuel cap s template item (AllocationItem.pallets item) st)
    as [st1|] eqn:E; [|discriminate].
  rewrite (while_loop_more_fuel _ _ _ _ _ _ Hle E). apply IH.
Qed.

Lemma pack_trucks_more_fuel (fuel fuel' : nat) (items : list AllocationItem.t)
    (reserve : ReserveInfo.t) (template : option TemplateData.t)
    (options : RunOptions.t) (out : list OutputRow.t) :
  (fuel <= fuel')%nat ->
  pack_trucks fuel items reserve template options = Some out ->
  pack_trucks fuel' items reserve template options = Some out.
Proof.
  intro Hle. unfold pack_trucks, pack_trucks_counter.
  generalize (@nil OutputRow.t) 1.
  induction (stable_sort Z.leb (map fst (group_items items))) as [|s rest IH];
    intros acc next; simpl; [auto|].
  destruct (for_items fuel _ _ _ _ _) as [st|] eqn:E; [|discriminate].
  rewrite (for_items_more_fuel _ _ _ _ _ Hle E). apply IH.
Qed.

(** ** Step 3 of the allocation builder *)

Lemma fold_left_app_flat_map (A B : Type) (f : A -> list B) (l : list A)
    (init : list B) :
  fold_left (fun acc x => acc ++ f x) l init = init ++ flat_map f l.
Proof.
  revert init. induction l as [|x l IH]; intro init; simpl.
  - now rewrite app_nil_r.
  - now rewrite IH, app_assoc.
Qed.

(** ** The items of the builder *)

Lemma aggregate_step_max_pallets (acc : dict key float * ReserveInfo.t)
    (row : DemandRow.t) :
  ReserveInfo.max_pallets (snd (aggregate_step acc row))
  = ReserveInfo.max_pallets (snd acc).
Proof. destruct acc as [dbk res]. reflexivity. Qed.

(** The back-fill of names leaves the truck capacities alone. *)
Lemma aggregate_max_pallets (demand_rows : list DemandRow.t)
    (reserve : ReserveInfo.t) :
  ReserveInfo.max_pallets (snd (aggregate demand_rows reserve))
  = ReserveInfo.max_pallets reserve.
Proof.
  unfold aggregate.
  change (ReserveInfo.max_pallets reserve)
    with (ReserveInfo.max_pallets (snd (@nil (key * float), reserve))).
  generalize (@nil (key * float), reserve).
  induction demand_rows as [|row rest IH]; intro acc; simpl; [reflexivity|].
  now rewrite IH, aggregate_step_max_pallets.
Qed.

Lemma row_items_positive (reserve : ReserveInfo.t)
    (template : option TemplateData.t) (row : DemandRow.t) (split : dict Z Z)
    (it : AllocationItem.t) :
  In it (row_items reserve template row split) -> 0 < AllocationItem.pallets it.
Proof.
  unfold row_items. intro H. apply in_flat_map in H.
  destruct H as [[supplier pallets] [_ H]].
  destruct (Z.leb_spec pallets 0); [destruct H|].
  destruct H as [<-|[]]. simpl. lia.
Qed.

Lemma template_only_items_positive (demand_by_key : dict key float)
    (reserve : ReserveInfo.t) (t : TemplateData.t) (it : AllocationItem.t) :
  In it (template_only_items demand_by_key reserve t) ->
  0 < AllocationItem.pallets it.
Proof.
  unfold template_only_items. intro H. apply in_flat_map in H.
  destruct H as [[[[rc plu] date] entry] [_ H]].
  destruct (dict_mem key_eqb demand_by_key (rc, plu, date)); [destruct H|].
  apply in_flat_map in H. destruct H as [[supplier pallets] [_ H]].
  destruct (Z.leb_spec pallets 0); [destruct H|].
  destruct H as [<-|[]]. simpl. lia.
Qed.

(** Every allocation item of the builder has a positive pallet count. *)
Lemma build_allocations_positive (demand_rows : list DemandRow.t)
    (reserve : ReserveInfo.t) (template : option TemplateData.t)
    (options : RunOptions.t) (it : AllocationItem.t) :
  In it (fst (fst (build_allocations demand_rows reserve template options))) ->
  0 < AllocationItem.pallets it.
Proof.
  unfold build_allocations.
  destruct (aggregate demand_rows reserve) as [dbk res]. cbn [fst snd].
  rewrite fold_left_app_flat_map. simpl. intro H.
  apply in_app_iff in H. destruct H as [H|H].
  - apply in_flat_map in H. destruct H as [row [_ H]].
    eapply row_items_positive; eassumption.
  - unfold step4_items in H.
    destruct (option_map (set_base_demand dbk) template) as [t|]; [|destruct H].
    destruct (RunOptions.use_template options
              && RunOptions.include_template_without_demand options);
      [|destruct H].
    eapply template_only_items_positive; eassumption.
Qed.

Lemma le_sum_Z (l : list Z) (x : Z) :
  Forall (fun y => 0 <= y) l -> In x l -> x <= sum_Z l.
Proof.
  induction 1 as [|y l Hy Hl IH]; simpl; [tauto|].
  assert (0 <= sum_Z l).
  { clear IH. induction Hl; simpl; lia. }
  intros [->|H']; [lia|]. specialize (IH H'). lia.
Qed.

(** When every truck capacity is at least 1 the pipeline of the model
    returns its rows (in the finite range of binary64 these are the rows
    of the code). *)
Lemma run_core_terminates (demand_rows : list DemandRow.t)
    (reserve : ReserveInfo.t) (template : option TemplateData.t)
    (options : RunOptions.t) :
  (forall s, 1 <= truck_capacity reserve options s) ->
  exists fuel out, run_core fuel demand_rows reserve template options = Some out.
Proof.
  intro Hcap. unfold run_core.
  pose proof (build_allocations_positive demand_rows reserve template options) as Hpos.
  pose proof (aggregate_max_pallets demand_rows reserve) as Hmax.
  assert (Hres : snd (fst (build_allocations demand_rows reserve template options))
                 = snd (aggregate demand_rows reserve)).
  { unfold build_allocations. now destruct (aggregate demand_rows reserve). }
  destruct (build_allocations demand_rows reserve template options)
    as [[items reserve'] template']. cbn [fst snd] in *. subst reserve'.
  set (fuel := Z.to_nat (sum_Z (map AllocationItem.pallets items))).
  destruct (@pack_trucks_slices fuel items (snd (aggregate demand_rows reserve))
              template' options) as [chunks [E _]].
  - intros it _. unfold truck_capacity. rewrite Hmax. apply Hcap.
  - intros it Hin. specialize (Hpos it Hin). lia.
  - intros it Hin. subst fuel. rewrite Z2Nat.id.
    + apply le_sum_Z; [|now apply in_map].
      apply Forall_forall. intros y Hy. apply in_map_iff in Hy.
      destruct Hy as [it' [<- Hin']]. specialize (Hpos it' Hin'). lia.
    + assert (Forall (fun y => 0 <= y) (map AllocationItem.pallets items)).
      { apply Forall_forall. intros y Hy. apply in_map_iff in Hy.
        destruct Hy as [it' [<- Hin']]. specialize (Hpos it' Hin'). lia. }
      clear -H. induction H; simpl; lia.
  - exists fuel, (concat chunks). exact E.
Qed.

(** ** The pipeline *)

Ltac eval_build_allocations :=
  match goal with
  | |- context [build_allocations ?a ?b ?c ?d] =>
      let v := eval vm_compute in (build_allocations a b c d) in
      change (build_allocations a b c d) with v
  end.

(** C2: the pipeline does not end on a zero truck capacity.  With
    [default_truck_pallets = 0] and one record that needs one pallet, and
    with a stored capacity of zero for the supplier, [run_core] is still in
    the [while] loop of [pack_trucks] whatever the fuel: every round opens
    a truck, takes [min(0, pallets_left) = 0] pallets and appends a row. *)
Theorem run_core_zero_capacity_diverges :
  (forall fuel,
     run_core fuel [sample_row 1] bare_reserve None zero_default_options = None)
  /\ (forall fuel,
        run_core fuel [sample_row 50] zero_cap_reserve None RunOptions.default
        = None).
Proof.
  split; intro fuel; unfold run_core; eval_build_allocations; cbv iota beta;
    (eapply pack_trucks_diverges;
     [left; reflexivity|reflexivity|vm_compute; discriminate]).
Qed.

(** The packer reads the options only through [default_truck_pallets]. *)
Lemma for_suppliers_options (fuel : nat) (reserve : ReserveInfo.t)
    (template : option TemplateData.t) (o1 o2 : RunOptions.t)
    (grouped : dict Z (list AllocationItem.t)) (suppliers : list Z)
    (out : list OutputRow.t) (next : Z) :
  RunOptions.default_truck_pallets o1 = RunOptions.default_truck_pallets o2 ->
  for_suppliers fuel reserve template o1 grouped suppliers out next
  = for_suppliers fuel reserve template o2 grouped suppliers out next.
Proof.
  intro H. revert out next.
  induction suppliers as [|s rest IH]; intros out next; simpl; [reflexivity|].
  unfold truck_capacity. rewrite H.
  destruct (for_items _ _ _ _ _ _); [apply IH|reflexivity].
Qed.

(** The builder reads them through the four template switches. *)
Lemma build_allocations_options (demand_rows : list DemandRow.t)
    (reserve : ReserveInfo.t) (template : option TemplateData.t)
    (a b c d i i' : bool) (z : Z) :
  build_allocations demand_rows reserve template (RunOptions.mk a b c d i z)
  = build_allocations demand_rows reserve template (RunOptions.mk a b c d i' z).
Proof. reflexivity. Qed.

(** C9: [ignore_reserve_limits] has no effect: with all other options
    equal, [build_allocations] followed by [pack_trucks] gives the same
    result (the same rows, or the same unfinished run) for [true] and for
    [false]. *)
Theorem ignore_reserve_limits_no_effect (fuel : nat)
    (demand_rows : list DemandRow.t) (reserve : ReserveInfo.t)
    (template : option TemplateData.t)
    (use_template scale_template include_template_without_demand
     use_template_when_no_demand : bool) (default_truck_pallets : Z) :
  run_core fuel demand_rows reserve template
    (RunOptions.mk use_template scale_template include_template_without_demand
       use_template_when_no_demand true default_truck_pallets)
  = run_core fuel demand_rows reserve template
      (RunOptions.mk use_template scale_template include_template_without_demand
         use_template_when_no_demand false default_truck_pallets).
Proof.
  unfold run_core.
  rewrite (build_allocations_options demand_rows reserve template use_template
             scale_template include_template_without_demand
             use_template_when_no_demand true false default_truck_pallets).
  destruct (build_allocations _ _ _ _) as [[items reserve'] template'].
  unfold pack_trucks, pack_trucks_counter. f_equal.
  now apply for_suppliers_options.
Qed.

(** ** Truck capacity *)

Lemma truck_capacity_present (reserve : ReserveInfo.t) (options : RunOptions.t)
    (supplier c : Z) :
  dict_get Z.eqb (ReserveInfo.max_pallets reserve) supplier = Some c ->
  truck_capacity reserve options supplier = c.
Proof. intro H. unfold truck_capacity, dict_get_default. now rewrite H. Qed.

Lemma truck_capacity_absent (reserve : ReserveInfo.t) (options : RunOptions.t)
    (supplier : Z) :
  dict_get Z.eqb (ReserveInfo.max_pallets reserve) supplier = None ->
  truck_capacity reserve options supplier = RunOptions.default_truck_pallets options.
Proof. intro H. unfold truck_capacity, dict_get_default. now rewrite H. Qed.

(** C4: a catalog entry that is present but zero is used as the capacity;
    [pack_trucks] does not fall back to [default_truck_pallets] (32 here),
    and with that capacity of zero the packing of one pallet never ends. *)
Theorem truck_capacity_zero_entry :
  dict_get Z.eqb (ReserveInfo.max_pallets zero_cap_reserve) 7 = Some 0
  /\ RunOptions.default_truck_pallets RunOptions.default = 32
  /\ truck_capacity zero_cap_reserve RunOptions.default 7 = 0
  /\ (forall fuel,
        pack_trucks fuel [sample_item 7 1] zero_cap_reserve None RunOptions.default
        = None).
Proof.
  repeat split. intro fuel.
  apply pack_trucks_diverges with (it := sample_item 7 1);
    [now left|reflexivity|vm_compute; discriminate].
Qed.

(** ** Truck ids and loads of a finished run *)

(** C5: in the rows of a finished run of [pack_trucks] the truck ids are
    exactly 1..N, where N + 1 is the final value of the one counter shared
    by all suppliers, and the ids never decrease along the row list.  A run
    finishes when the capacities of its suppliers are at least 1 and the
    fuel covers the largest item. *)
Theorem truck_ids_consecutive (fuel : nat) (items : list AllocationItem.t)
    (reserve : ReserveInfo.t) (template : option TemplateData.t)
    (options : RunOptions.t) :
  (forall out,
     pack_trucks fuel items reserve template options = Some out ->
     exists N,
       0 <= N
       /\ pack_trucks_counter fuel items reserve template options
          = Some (out, N + 1)
       /\ (forall t, In t (ids out) <-> 1 <= t <= N)
       /\ StronglySorted Z.le (ids out))
  /\ ((forall it, In it items ->
         1 <= truck_capacity reserve options (AllocationItem.supplier it)) ->
      (forall it, In it items ->
         0 <= AllocationItem.pallets it <= Z.of_nat fuel) ->
      exists out, pack_trucks fuel items reserve template options = Some out).
Proof.
  split.
  - intro out. unfold pack_trucks.
    destruct (pack_trucks_counter fuel items reserve template options)
      as [[out' next]|] eqn:E; [|discriminate].
    simpl. intros [= ->].
    pose proof (pack_trucks_counter_ok _ _ _ _ _ E) as [Hn Hids Hs _ _].
    exists (next - 1).
    split; [lia|]. split; [do 2 f_equal; lia|]. split; [|exact Hs].
    intro t. rewrite Hids. lia.
  - intros Hcap Hp.
    destruct (@pack_trucks_slices fuel items reserve template options Hcap)
      as [chunks [E _]]; try (intros it Hin; apply Hp; exact Hin).
    now exists (concat chunks).
Qed.

Lemma truck_ids_consecutive_witness :
  exists N,
    0 <= N
    /\ pack_trucks_counter 5 sample_items sample_reserve None RunOptions.default
       = Some (sample_rows, N + 1)
    /\ (forall t, In t (ids sample_rows) <-> 1 <= t <= N)
    /\ StronglySorted Z.le (ids sample_rows).
Proof.
  apply (proj1 (@truck_ids_consecutive 5 sample_items sample_reserve None
                  RunOptions.default) sample_rows).
  vm_compute. reflexivity.
Defined.

(** C6: in a finished run the rows of any truck id carry together at most
    the capacity of their supplier and rows with the same truck id have the
    same supplier; after every round of the loop [remaining] is not
    negative.  A run finishes when the capacities of its suppliers are at
    least 1 and the fuel covers the largest item. *)
Theorem trucks_within_capacity (fuel : nat) (items : list AllocationItem.t)
    (reserve : ReserveInfo.t) (template : option TemplateData.t)
    (options : RunOptions.t) :
  (forall out,
     pack_trucks fuel items reserve template options = Some out ->
     (forall r, In r out ->
        load out (OutputRow.truck_id r)
        <= truck_capacity reserve options (OutputRow.supplier r))
     /\ (forall r1 r2, In r1 out -> In r2 out ->
           OutputRow.truck_id r1 = OutputRow.truck_id r2 ->
           OutputRow.supplier r1 = OutputRow.supplier r2))
  /\ (forall s item pallets_left st,
        0 <= remaining
               (snd (while_body (truck_capacity reserve options s) s template
                       item pallets_left st)))
  /\ ((forall it, In it items ->
         1 <= truck_capacity reserve options (AllocationItem.supplier it)) ->
      (forall it, In it items ->
         0 <= AllocationItem.pallets it <= Z.of_nat fuel) ->
      exists out, pack_trucks fuel items reserve template options = Some out).
Proof.
  split; [|split].
  - intro out. unfold pack_trucks.
    destruct (pack_trucks_counter fuel items reserve template options)
      as [[out' next]|] eqn:E; [|discriminate].
    simpl. intros [= ->].
    pose proof (pack_trucks_counter_ok _ _ _ _ _ E) as [_ _ _ H1 Hl].
    split; [exact Hl|exact H1].
  - intros s item pl st. unfold while_body. simpl. lia.
  - intros Hcap Hp.
    destruct (@pack_trucks_slices fuel items reserve template options Hcap)
      as [chunks [E _]]; try (intros it Hin; apply Hp; exact Hin).
    now exists (concat chunks).
Qed.

Lemma trucks_within_capacity_witness :
  (forall r, In r sample_rows ->
     load sample_rows (OutputRow.truck_id r)
     <= truck_capacity sample_reserve RunOptions.default (OutputRow.supplier r))
  /\ (forall r1 r2, In r1 sample_rows -> In r2 sample_rows ->
        OutputRow.truck_id r1 = OutputRow.truck_id r2 ->
        OutputRow.supplier r1 = OutputRow.supplier r2).
Proof.
  apply (proj1 (@trucks_within_capacity 5 sample_items sample_reserve None
                  RunOptions.default) sample_rows).
  vm_compute. reflexivity.
Defined.

(** ** Conservation of pallets *)

(** C10 (as amended): for items with pallet counts that are not negative
    and in the finite range ([item_in_range]), when every supplier of the
    items has a capacity of at least 1, [pack_trucks] ends, with fuel for
    the largest item, and its rows are, in packing order, the slices of
    the items: the rows of an item carry at least one pallet each, their
    volume is their pallet count times the pallet weight of the item, and
    their pallets sum to the pallets of the item; the total pallet count
    is conserved. *)
Theorem pack_trucks_conserves_pallets (fuel : nat)
    (items : list AllocationItem.t) (reserve : ReserveInfo.t)
    (template : option TemplateData.t) (options : RunOptions.t) :
  (forall it, In it items ->
     1 <= truck_capacity reserve options (AllocationItem.supplier it)) ->
  (forall it, In it items -> 0 <= AllocationItem.pallets it) ->
  (forall it, In it items -> item_in_range it = true) ->
  (forall it, In it items -> AllocationItem.pallets it <= Z.of_nat fuel) ->
  exists chunks,
    pack_trucks fuel items reserve template options = Some (concat chunks)
    /\ Permutation (packing_order items) items
    /\ Forall2 slice_of (packing_order items) chunks
    /\ sum_Z (map OutputRow.pallets (concat chunks))
       = sum_Z (map AllocationItem.pallets items).
Proof.
  intros Hcap Hnn _ Hfuel.
  destruct (@pack_trucks_slices fuel items reserve template options
              Hcap Hnn Hfuel) as [chunks [E F]].
  exists chunks. repeat split; auto.
  - apply packing_order_perm.
  - rewrite (slices_sum F). apply sum_Z_perm, Permutation_map, packing_order_perm.
Qed.

Lemma pack_trucks_conserves_pallets_witness :
  exists chunks,
    pack_trucks 5 sample_items sample_reserve None RunOptions.default
    = Some (concat chunks)
    /\ Permutation (packing_order sample_items) sample_items
    /\ Forall2 slice_of (packing_order sample_items) chunks
    /\ sum_Z (map OutputRow.pallets (concat chunks))
       = sum_Z (map AllocationItem.pallets sample_items).
Proof.
  apply (@pack_trucks_conserves_pallets 5 sample_items sample_reserve None
           RunOptions.default).
  - intros it [<-|[<-|[<-|[]]]]; vm_compute; discriminate.
  - intros it [<-|[<-|[<-|[]]]]; vm_compute; discriminate.
  - intros it [<-|[<-|[<-|[]]]]; vm_compute; reflexivity.
  - intros it [<-|[<-|[<-|[]]]]; vm_compute; discriminate.
Defined.

(** An item of -1 pallets for a supplier of capacity 3: the [while] loop
    is not entered, no row is emitted, and the rows carry 0 pallets where
    the item has -1. *)
Lemma pack_trucks_negative_item_counterexample :
  1 <= truck_capacity sample_reserve RunOptions.default 7
  /\ pack_trucks 0 [sample_item 7 (-1)] sample_reserve None RunOptions.default
     = Some []
  /\ sum_Z (map OutputRow.pallets [])
     <> sum_Z (map AllocationItem.pallets [sample_item 7 (-1)]).
Proof.
  split; [vm_compute; discriminate|].
  split; [vm_compute; reflexivity|vm_compute; discriminate].
Qed.

(** ** Rounded division and the template scaler *)

(** C7: [_round_div] goes through binary64 arithmetic and is not the exact
    round-half-up for every numerator: for numerator 2^53 + 1 and
    denominator 1 it returns 2^53, where [floor((2n + d) / (2d))] is
    2^53 + 1.  ([round_div_exact] is the exact range.) *)
Theorem round_div_loses_precision :
  _round_div 9007199254740993 1 = 9007199254740992
  /\ round_half_up 9007199254740993 1 = 9007199254740993.
Proof. vm_compute. split; reflexivity. Qed.

(** C8: the Template Scaler returns the empty mapping whenever
    [max(0, round(new_demand)) = 0] or [base_demand <= 0], whatever the
    historical split; scaling {1: 1} with base demand 100 to the new demand
    0.4 gives the empty mapping. *)
Theorem scale_rounds_to_empty :
  (forall (split : dict Z Z) (base_demand : Z) (new_demand : float),
     Z.max 0 (round_half_even new_demand) = 0 \/ base_demand <= 0 ->
     _scale_pallets split base_demand new_demand = [])
  /\ _scale_pallets [(1, 1)] 100 (rnd64 (4 # 10)) = [].
Proof.
  split; [intros; now apply scale_guard|]. vm_compute. reflexivity.
Qed.

Lemma scale_rounds_to_empty_witness :
  _scale_pallets [(1, 1)] 100 (rnd64 (4 # 10)) = []
  /\ _scale_pallets [(1, 6); (2, 4)] 0 15 = [].
Proof.
  split; apply (proj1 scale_rounds_to_empty).
  - left. vm_compute. reflexivity.
  - right. lia.
Defined.

(** C3 (as amended): for a historical split without negative counts,
    [base_demand > 0], [demand_int = max(0, round(new_demand)) > 0] and
    [2 * total_old * demand_int + base_demand < 2^53], the values of the
    scaled split sum to [desired_total], which is the round-half-up of
    [total_old * demand_int / base_demand]; the split {1: 6, 2: 4} with
    base demand 10 and new demand 15 becomes {1: 9, 2: 6}. *)
Theorem scale_preserves_total :
  (forall (split : dict Z Z) (base_demand : Z) (new_demand : float),
     let demand_int := Z.max 0 (round_half_even new_demand) in
     let total_old := sum_Z (map snd split) in
     0 < base_demand -> 0 < demand_int ->
     Forall (fun sp => 0 <= snd sp) split ->
     2 * (total_old * demand_int) + base_demand < 2 ^ 53 ->
     sum_Z (map snd (_scale_pallets split base_demand new_demand))
     = _round_div (total_old * demand_int) base_demand
     /\ _round_div (total_old * demand_int) base_demand
        = round_half_up (total_old * demand_int) base_demand)
  /\ _scale_pallets [(1, 6); (2, 4)] 10 15 = [(1, 9); (2, 6)].
Proof.
  split; [|vm_compute; reflexivity].
  intros split base_demand new_demand demand_int total_old Hb Hd Hnn Hr.
  assert (HT : 0 <= total_old) by now apply sum_nonneg.
  rewrite round_div_exact by nia.
  split; [|reflexivity]. now apply scale_total.
Qed.

Lemma scale_preserves_total_witness :
  sum_Z (map snd (_scale_pallets [(1, 6); (2, 4)] 10 15)) = _round_div (10 * 15) 10
  /\ _round_div (10 * 15) 10 = round_half_up (10 * 15) 10.
Proof.
  apply (proj1 scale_preserves_total [(1, 6); (2, 4)] 10 15%Q).
  - lia.
  - vm_compute. reflexivity.
  - repeat constructor; simpl; lia.
  - vm_compute. reflexivity.
Defined.

(** The sum differs from the round-half-up total for a split with a
    negative count (the count is dropped from the result) and for a total
    above 2^53 (the rounded division is one off; the one decrement, from
    2^53 + 1 to 2^53, is not clamped). *)
Lemma scale_total_counterexample :
  (0 < Z.max 0 (round_half_even 1)
   /\ _scale_pallets [(1, -1); (2, 3)] 1 1 = [(2, 3)]
   /\ sum_Z (map snd (_scale_pallets [(1, -1); (2, 3)] 1 1))
      <> round_half_up (sum_Z (map snd [(1, -1); (2, 3)])
                         * Z.max 0 (round_half_even 1)) 1)
  /\ (_scale_pallets [(1, 9007199254740993)] 1 1 = [(1, 9007199254740992)]
      /\ sum_Z (map snd (_scale_pallets [(1, 9007199254740993)] 1 1))
         <> round_half_up (sum_Z (map snd [(1, 9007199254740993)])
                            * Z.max 0 (round_half_even 1)) 1).
Proof.
  repeat split; try (vm_compute; reflexivity); vm_compute; discriminate.
Qed.


(* ================================================================= *)
(** * Part III: further properties of the code *)
(* ================================================================= *)

(** ** More on the rounded division *)

(** X1: _round_div returns 0 for every denominator <= 0; for numer >= 0,
    denom > 0 and 2*numer + denom < 2^53 its float detour is exact: the
    result is floor((2*numer + denom) / (2*denom)), the integer nearest
    to numer/denom with ties rounded up (|2*numer - 2*denom*result| <=
    denom). *)
Theorem round_div_nearest (numer denom : Z) :
  (denom <= 0 -> _round_div numer denom = 0)
  /\ (0 <= numer -> 0 < denom -> 2 * numer + denom < 2 ^ 53 ->
      _round_div numer denom = (2 * numer + denom) / (2 * denom)
      /\ 2 * denom * _round_div numer denom - denom <= 2 * numer
         < 2 * denom * _round_div numer denom + denom).
Proof.
  split.
  - intro H. unfold _round_div. now destruct (Z.leb_spec denom 0); [|lia].
  - intros Hn Hd Hr. rewrite (round_div_exact Hn Hd Hr). unfold round_half_up.
    split; [reflexivity|].
    pose proof (Z.mul_div_le (2 * numer + denom) (2 * denom) ltac:(lia)).
    pose proof (Z.mul_succ_div_gt (2 * numer + denom) (2 * denom) ltac:(lia)).
    lia.
Qed.

Lemma round_div_nearest_witness :
  _round_div 7 2 = (2 * 7 + 2) / (2 * 2)
  /\ 2 * 2 * _round_div 7 2 - 2 <= 2 * 7 < 2 * 2 * _round_div 7 2 + 2.
Proof.
  apply (proj2 (round_div_nearest 7 2)); [lia|lia|vm_compute; reflexivity].
Defined.

(** ** More on the template scaler *)

Lemma fold_update_keys (f : Z -> Z) (ks : list (Z * Z)) (d : dict Z Z) :
  map fst (fold_left (fun sc sr => dict_update Z.eqb sc (fst sr) f) ks d)
  = map fst d.
Proof.
  revert d. induction ks as [|sr ks IH]; intro d; simpl; [reflexivity|].
  now rewrite IH, dict_update_keys.
Qed.

Lemma scale_keys (split : dict Z Z) (base_demand : Z) (demand_value : float) :
  forall k, In k (map fst (_scale_pallets split base_demand demand_value)) ->
            In k (map fst split).
Proof.
  intros k. unfold _scale_pallets.
  destruct ((base_demand <=? 0) || _); [intros []|].
  set (d := Z.max 0 (round_half_even demand_value)).
  intro H. apply in_map_iff in H. destruct H as [[k' v] [<- H]].
  apply filter_In in H. destruct H as [H _].
  apply (in_map fst) in H. simpl in H.
  assert (E : map fst (floor_parts d base_demand split) = map fst split).
  { unfold floor_parts. rewrite map_map. reflexivity. }
  destruct (0 <? _).
  - rewrite fold_update_keys, E in H. exact H.
  - destruct (_ <? 0).
    + rewrite fold_update_keys, E in H. exact H.
    + now rewrite E in H.
Qed.

(** X2: Whatever the inputs, every entry of the mapping _scale_pallets
    returns has a pallet count > 0 and a supplier that is a key of the
    historical split: the scaler never invents a supplier and never
    returns a zero or negative count. *)
Theorem scale_result_wellformed (split : dict Z Z) (base_demand : Z)
    (demand_value : float) (k v : Z) :
  In (k, v) (_scale_pallets split base_demand demand_value) ->
  0 < v /\ In k (map fst split).
Proof.
  intro H. split.
  - unfold _scale_pallets in H.
    destruct ((base_demand <=? 0) || _); [destruct H|].
    apply filter_In in H. destruct H as [_ H]. simpl in H. lia.
  - apply scale_keys with (base_demand := base_demand) (demand_value := demand_value).
    apply in_map_iff. now exists (k, v).
Qed.

Lemma scale_result_wellformed_witness :
  0 < 9 /\ In 1 (map fst [(1, 6); (2, 4)]).
Proof.
  apply (@scale_result_wellformed [(1, 6); (2, 4)] 10 15%Q 1 9).
  vm_compute. left. reflexivity.
Defined.

(** ** Lookups after updates *)

Lemma dict_get_update (V : Type) (f : V -> V) (d : dict Z V) (k k' : Z) :
  dict_get Z.eqb (dict_update Z.eqb d k f) k'
  = if k =? k' then option_map f (dict_get Z.eqb d k') else dict_get Z.eqb d k'.
Proof.
  induction d as [|[k0 v0] r IH]; simpl.
  - now destruct (k =? k').
  - destruct (Z.eqb_spec k0 k) as [E|E]; simpl.
    + subst k0. destruct (Z.eqb_spec k k'); reflexivity.
    + rewrite IH. destruct (Z.eqb_spec k0 k') as [E'|E']; [|reflexivity].
      subst k0. now destruct (Z.eqb_spec k k'); [congruence|].
Qed.

Lemma dict_get_absent (V : Type) (d : dict Z V) (k : Z) :
  ~ In k (map fst d) -> dict_get Z.eqb d k = None.
Proof.
  induction d as [|[k0 v0] r IH]; simpl; [reflexivity|].
  intro H. destruct (Z.eqb_spec k0 k); [exfalso; auto|]. apply IH. auto.
Qed.

Lemma dict_get_present (V : Type) (d : dict Z V) (k : Z) (v : V) :
  NoDup (map fst d) -> In (k, v) d -> dict_get Z.eqb d k = Some v.
Proof.
  induction d as [|[k0 v0] r IH]; simpl; [tauto|].
  intros Hnd [H|H].
  - injection H as -> ->. now rewrite Z.eqb_refl.
  - inversion Hnd as [|? ? Hnot Hnd']; subst.
    destruct (Z.eqb_spec k0 k) as [->|Hne]; [|now apply IH].
    exfalso. apply Hnot. apply in_map_iff. now exists (k, v).
Qed.

Lemma dict_get_filter (p : Z -> bool) (d : dict Z Z) (k : Z) :
  NoDup (map fst d) ->
  dict_get Z.eqb (filter (fun kv => p (snd kv)) d) k
  = match dict_get Z.eqb d k with
    | Some v => if p v then Some v else None
    | None => None
    end.
Proof.
  induction d as [|[k0 v0] r IH]; simpl; [reflexivity|].
  intro Hnd. inversion Hnd as [|? ? Hnot Hnd']; subst.
  destruct (Z.eqb_spec k0 k) as [->|Hne].
  - destruct (p v0); simpl.
    + now rewrite Z.eqb_refl.
    + rewrite (IH Hnd'), (@dict_get_absent _ _ _ Hnot). reflexivity.
  - destruct (p v0); simpl.
    + destruct (Z.eqb_spec k0 k); [contradiction|]. now apply IH.
    + now apply IH.
Qed.

Lemma dict_get_fold_increment (ks : list (Z * Z)) (d : dict Z Z) (k : Z) :
  NoDup (map fst ks) ->
  dict_get Z.eqb
    (fold_left (fun sc sr => dict_update Z.eqb sc (fst sr) (fun v => v + 1)) ks d) k
  = option_map (fun v => if in_dec Z.eq_dec k (map fst ks) then v + 1 else v)
      (dict_get Z.eqb d k).
Proof.
  revert d. induction ks as [|[k0 r0] ks IH]; intros d Hnd; simpl.
  - now destruct (dict_get Z.eqb d k).
  - inversion Hnd as [|? ? Hnot Hnd']; subst.
    rewrite (IH _ Hnd'), dict_get_update. simpl.
    destruct (Z.eqb_spec k0 k) as [->|Hne].
    + destruct (Z.eq_dec k k); [|congruence].
      destruct (in_dec Z.eq_dec k (map fst ks)); [contradiction|].
      now destruct (dict_get Z.eqb d k).
    + destruct (Z.eq_dec k0 k); [contradiction|].
      destruct (in_dec Z.eq_dec k (map fst ks)); reflexivity.
Qed.

Lemma dict_get_floor_parts (d b : Z) (split : dict Z Z) (k : Z) :
  dict_get Z.eqb (floor_parts d b split) k
  = option_map (fun p => p * d / b) (dict_get Z.eqb split k).
Proof.
  induction split as [|[k0 p0] r IH]; simpl; [reflexivity|].
  now destruct (k0 =? k).
Qed.

Lemma NoDup_firstn (A : Type) (n : nat) (l : list A) :
  NoDup l -> NoDup (firstn n l).
Proof.
  revert n. induction l as [|x l IH]; intros [|n] H; simpl; try constructor.
  - inversion H as [|? ? Hnot Hnd]; subst. intro Hin. apply Hnot.
    now apply In_firstn in Hin.
  - inversion H; subst. now apply IH.
Qed.

(** ** The scaler in the exact range *)

Section ScalerExact.
Variables (split : dict Z Z) (base_demand : Z) (demand_value : float).
Let demand_int := Z.max 0 (round_half_even demand_value).
Let total_old := sum_Z (map snd split).
Let delta := round_half_up (total_old * demand_int) base_demand
             - sum_Z (map snd (floor_parts demand_int base_demand split)).
Hypothesis Hbase : 0 < base_demand.
Hypothesis Hdemand : 0 < demand_int.
Hypothesis Hnonneg : Forall (fun sp => 0 <= snd sp) split.
Hypothesis Hrange : 2 * (total_old * demand_int) + base_demand < 2 ^ 53.

Lemma scale_unfold :
  0 <= delta <= Z.of_nat (List.length split)
  /\ _scale_pallets split base_demand demand_value
     = filter (fun kv => 0 <? snd kv)
         (fold_left (fun sc sr => dict_update Z.eqb sc (fst sr) (fun v => v + 1))
            (top_remainders demand_int base_demand delta split)
            (floor_parts demand_int base_demand split)).
Proof.
  pose proof (@delta_bounds demand_int base_demand Hbase split) as D.
  simpl in D. fold total_old in D. fold delta in D. split; [exact D|].
  unfold _scale_pallets. fold demand_int.
  destruct (Z.leb_spec base_demand 0); [lia|].
  destruct (Z.leb_spec demand_int 0); [lia|]. simpl orb. cbv iota.
  fold total_old.
  assert (HT : 0 <= total_old) by now apply sum_nonneg.
  rewrite round_div_exact by nia. fold delta. unfold top_remainders.
  destruct (Z.ltb_spec 0 delta); [reflexivity|].
  destruct (Z.ltb_spec delta 0); [lia|].
  replace delta with 0 by lia. reflexivity.
Qed.

Hypothesis Hkeys : NoDup (map fst split).

Lemma top_remainders_keys : NoDup (map fst (top_remainders demand_int base_demand delta split)).
Proof.
  unfold top_remainders. rewrite <- firstn_map. apply NoDup_firstn.
  apply (Permutation_NoDup
           (l := map fst (remainder_parts demand_int base_demand split))).
  - apply Permutation_map. symmetry. apply stable_sort_perm.
  - unfold remainder_parts. rewrite map_map. exact Hkeys.
Qed.

Lemma scale_lookup (k p : Z) :
  In (k, p) split ->
  dict_get_default Z.eqb (_scale_pallets split base_demand demand_value) k 0
  = p * demand_int / base_demand
    + (if in_dec Z.eq_dec k
            (map fst (top_remainders demand_int base_demand delta split))
       then 1 else 0).
Proof.
  intro Hin. destruct scale_unfold as [_ ->].
  unfold dict_get_default.
  rewrite (dict_get_filter (fun v => 0 <? v)).
  2:{ rewrite fold_update_keys. unfold floor_parts. now rewrite map_map. }
  rewrite (@dict_get_fold_increment _ _ _ top_remainders_keys), dict_get_floor_parts.
  rewrite (@dict_get_present _ _ _ _ Hkeys Hin). simpl.
  assert (0 <= p * demand_int / base_demand).
  { apply Z.div_pos; [|lia].
    rewrite Forall_forall in Hnonneg. specialize (Hnonneg _ Hin). simpl in Hnonneg. nia. }
  destruct (in_dec Z.eq_dec k _).
  - destruct (Z.ltb_spec 0 (p * demand_int / base_demand + 1)); lia.
  - destruct (Z.ltb_spec 0 (p * demand_int / base_demand)); lia.
Qed.
End ScalerExact.

(** ** Order of elements through the stable sort *)

Section Before.
Variable A : Type.
Variable le : A -> A -> bool.

Lemma before_In (x y : A) (l : list A) : before x y l -> In x l /\ In y l.
Proof.
  induction 1 as [l H|z l H [IH1 IH2]]; simpl; auto.
Qed.

Lemma before_app (x y : A) (l1 l2 l3 : list A) :
  before x y (l1 ++ x :: l2 ++ y :: l3).
Proof.
  induction l1 as [|z l1 IH]; simpl.
  - constructor. apply in_or_app. right. now left.
  - now constructor.
Qed.

Lemma insert_before_old (x y z : A) (l : list A) :
  before x y l -> before x y (insert_sorted le z l).
Proof.
  induction 1 as [l H|w l H IH]; simpl.
  - destruct (le z x).
    + now do 2 constructor.
    + constructor. apply (Permutation_in _ (Permutation_sym (insert_sorted_perm le z l))).
      now right.
  - destruct (le z w).
    + now do 2 constructor.
    + now constructor.
Qed.

Lemma insert_before_new (x y : A) (l : list A) :
  le x y = true -> In y l -> before x y (insert_sorted le x l).
Proof.
  intro Hle. induction l as [|w l IH]; simpl; [tauto|].
  intro H. destruct (le x w) eqn:E.
  - now constructor.
  - constructor. destruct H as [->|H]; [congruence|]. now apply IH.
Qed.

(** Stability: an element stays ahead of a later one it does not exceed. *)
Lemma stable_sort_before (x y : A) (l : list A) :
  before x y l -> le x y = true -> before x y (stable_sort le l).
Proof.
  intros H Hle. induction H as [l H|w l H IH]; simpl.
  - apply insert_before_new; [exact Hle|]. now apply stable_sort_In.
  - now apply insert_before_old.
Qed.

Lemma before_firstn (x y : A) (l : list A) (n : nat) :
  NoDup l -> before x y l -> In y (firstn n l) -> In x (firstn n l).
Proof.
  intros Hnd H. revert n. induction H as [l H|w l H IH]; intros [|n]; simpl; auto.
  inversion Hnd as [|? ? Hnot Hnd']; subst.
  intros [->|Hin].
  - exfalso. apply Hnot. now apply before_In in H.
  - right. now apply IH.
Qed.
End Before.

Lemma before_map (A B : Type) (f : A -> B) (x y : A) (l : list A) :
  before x y l -> before (f x) (f y) (map f l).
Proof.
  induction 1 as [l H|w l H IH]; simpl; constructor; auto. now apply in_map.
Qed.

Lemma NoDup_of_keys (A B : Type) (l : list (A * B)) :
  NoDup (map fst l) -> NoDup l.
Proof.
  induction l as [|x l IH]; simpl; intro H; [constructor|].
  inversion H as [|? ? Hnot Hnd]; subst. constructor; [|now apply IH].
  intro Hin. apply Hnot. now apply in_map.
Qed.

Lemma same_key_same_value (A B : Type) (l : list (A * B)) (k : A) (v v' : B) :
  NoDup (map fst l) -> In (k, v) l -> In (k, v') l -> v = v'.
Proof.
  induction l as [|[k0 v0] l IH]; simpl; [tauto|].
  intro H. inversion H as [|? ? Hnot Hnd]; subst.
  intros [E|Hin] [E'|Hin'].
  - congruence.
  - injection E as -> ->. exfalso. apply Hnot. apply in_map_iff. now exists (k, v').
  - injection E' as -> ->. exfalso. apply Hnot. apply in_map_iff. now exists (k, v).
  - now apply IH.
Qed.

(** ** Quota, ties and the unit scale *)

(** X3: Quota rule of the Template Scaler: for a split with distinct
    suppliers and no negative count, base_demand > 0, demand_int > 0 and
    2*total*demand_int + base_demand < 2^53, the scaled count of every
    supplier (0 when it is dropped) is
    floor(pallets*demand_int/base_demand) or that plus one. *)
Theorem scale_quota (split : dict Z Z) (base_demand : Z) (demand_value : float)
    (k p : Z) :
  let demand_int := Z.max 0 (round_half_even demand_value) in
  let total_old := sum_Z (map snd split) in
  0 < base_demand -> 0 < demand_int ->
  Forall (fun sp => 0 <= snd sp) split ->
  2 * (total_old * demand_int) + base_demand < 2 ^ 53 ->
  NoDup (map fst split) ->
  In (k, p) split ->
  p * demand_int / base_demand
  <= dict_get_default Z.eqb (_scale_pallets split base_demand demand_value) k 0
  <= p * demand_int / base_demand + 1.
Proof.
  intros demand_int total_old Hb Hd Hnn Hr Hk Hin.
  rewrite (scale_lookup demand_value Hb Hd Hnn Hr Hk _ _ Hin).
  fold demand_int. destruct (in_dec Z.eq_dec k _); lia.
Qed.

Lemma scale_quota_witness :
  1 * 1 / 2
  <= dict_get_default Z.eqb (_scale_pallets [(1, 1); (2, 1); (3, 1)] 2 1) 3 0
  <= 1 * 1 / 2 + 1.
Proof.
  apply (@scale_quota [(1, 1); (2, 1); (3, 1)] 2 1%Q 3 1).
  - lia.
  - vm_compute. reflexivity.
  - repeat constructor; simpl; lia.
  - vm_compute. reflexivity.
  - repeat constructor; simpl; intuition lia.
  - simpl. tauto.
Defined.

(** X4: Tie-break of the largest-remainder step: under the same
    conditions, if supplier a comes before supplier b in the historical
    split, the remainder of b is not larger than that of a, and b
    received the extra pallet, then a received it too (larger remainders
    first, equal remainders in the order of the split). *)
Theorem scale_tie_break (l1 l2 l3 : dict Z Z) (a pa b pb : Z)
    (base_demand : Z) (demand_value : float) :
  let split := l1 ++ (a, pa) :: l2 ++ (b, pb) :: l3 in
  let demand_int := Z.max 0 (round_half_even demand_value) in
  let total_old := sum_Z (map snd split) in
  0 < base_demand -> 0 < demand_int ->
  Forall (fun sp => 0 <= snd sp) split ->
  2 * (total_old * demand_int) + base_demand < 2 ^ 53 ->
  NoDup (map fst split) ->
  (pb * demand_int) mod base_demand <= (pa * demand_int) mod base_demand ->
  dict_get_default Z.eqb (_scale_pallets split base_demand demand_value) b 0
  = pb * demand_int / base_demand + 1 ->
  dict_get_default Z.eqb (_scale_pallets split base_demand demand_value) a 0
  = pa * demand_int / base_demand + 1.
Proof.
  intros split demand_int total_old Hb Hd Hnn Hr Hk Hrem.
  assert (Ha : In (a, pa) split).
  { subst split. apply in_or_app. right. now left. }
  assert (Hbin : In (b, pb) split).
  { subst split. apply in_or_app. right. right. apply in_or_app. right. now left. }
  rewrite (scale_lookup demand_value Hb Hd Hnn Hr Hk _ _ Ha).
  rewrite (scale_lookup demand_value Hb Hd Hnn Hr Hk _ _ Hbin).
  fold demand_int total_old.
  set (delta := round_half_up (total_old * demand_int) base_demand - _).
  destruct (in_dec Z.eq_dec b _) as [Hb'|]; [intros _|lia].
  destruct (in_dec Z.eq_dec a _) as [|Ha']; [reflexivity|]. exfalso. apply Ha'.
  set (rems := remainder_parts demand_int base_demand split) in *.
  set (desc := fun x y : Z * Z => snd y <=? snd x) in *.
  assert (Hndr : NoDup (map fst rems)).
  { subst rems. unfold remainder_parts. now rewrite map_map. }
  assert (Hnds : NoDup (map fst (stable_sort desc rems))).
  { apply (Permutation_NoDup (l := map fst rems)); [|exact Hndr].
    apply Permutation_map. symmetry. apply stable_sort_perm. }
  unfold top_remainders in *. fold rems desc in Hb' |- *.
  apply in_map_iff in Hb'. destruct Hb' as [[b' rb] [E Hb']]. simpl in E. subst b'.
  assert (Erb : rb = pb * demand_int mod base_demand).
  { apply (@same_key_same_value _ _ rems b _ _ Hndr).
    - apply (stable_sort_In desc). now apply In_firstn in Hb'.
    - subst rems. unfold remainder_parts. apply in_map_iff. now exists (b, pb). }
  subst rb.
  apply in_map_iff. exists (a, pa * demand_int mod base_demand). split; [reflexivity|].
  apply before_firstn with (y := (b, pb * demand_int mod base_demand));
    [now apply NoDup_of_keys| |exact Hb'].
  apply stable_sort_before.
  - subst rems split. unfold remainder_parts.
    rewrite map_app. simpl. rewrite map_app. simpl. apply before_app.
  - subst desc. simpl. now apply Z.leb_le.
Qed.

Lemma scale_tie_break_witness :
  dict_get_default Z.eqb (_scale_pallets [(1, 1); (2, 1); (3, 1)] 2 1) 1 0
  = 1 * 1 / 2 + 1.
Proof.
  apply (@scale_tie_break [] [] [(3, 1)] 1 1 2 1 2 1%Q).
  - lia.
  - vm_compute. reflexivity.
  - repeat constructor; simpl; lia.
  - vm_compute. reflexivity.
  - repeat constructor; simpl; intuition lia.
  - vm_compute. discriminate.
  - vm_compute. reflexivity.
Defined.

Lemma floor_parts_unit (b : Z) (split : dict Z Z) :
  0 < b -> floor_parts b b split = split.
Proof.
  intro Hb. unfold floor_parts. rewrite <- (map_id split) at 2.
  apply map_ext. intros [k p]. simpl. now rewrite Z.div_mul by lia.
Qed.

(** X5: Scaling to the base demand changes nothing: when max(0,
    round(demand_value)) = base_demand > 0 (no negative count,
    2*total*base_demand + base_demand < 2^53), _scale_pallets returns
    the historical split with its zero entries removed, in the same
    order. *)
Theorem scale_by_base_is_identity (split : dict Z Z) (base_demand : Z)
    (demand_value : float) :
  0 < base_demand ->
  Z.max 0 (round_half_even demand_value) = base_demand ->
  Forall (fun sp => 0 <= snd sp) split ->
  2 * (sum_Z (map snd split) * base_demand) + base_demand < 2 ^ 53 ->
  _scale_pallets split base_demand demand_value
  = filter (fun kv => 0 <? snd kv) split.
Proof.
  intros Hb Hd Hnn Hr.
  assert (Hd' : 0 < Z.max 0 (round_half_even demand_value)) by lia.
  rewrite <- Hd in Hr at 1.
  destruct (scale_unfold demand_value Hb Hd' Hnn Hr) as [_ ->].
  rewrite Hd, floor_parts_unit by exact Hb.
  assert (T : 0 <= sum_Z (map snd split)) by now apply sum_nonneg.
  replace (round_half_up (sum_Z (map snd split) * base_demand) base_demand
           - sum_Z (map snd split)) with 0; [reflexivity|].
  unfold round_half_up.
  replace (2 * (sum_Z (map snd split) * base_demand) + base_demand)
    with (sum_Z (map snd split) * (2 * base_demand) + base_demand) by lia.
  rewrite Z.div_add_l by lia. rewrite Z.div_small by lia. lia.
Qed.

Lemma scale_by_base_is_identity_witness :
  _scale_pallets [(1, 6); (2, 0); (3, 4)] 10 10
  = filter (fun kv => 0 <? snd kv) [(1, 6); (2, 0); (3, 4)].
Proof.
  apply scale_by_base_is_identity.
  - lia.
  - vm_compute. reflexivity.
  - repeat constructor; simpl; lia.
  - vm_compute. reflexivity.
Defined.

(** ** Dictionaries over any key type *)

Section DictKeys.
Variables K V : Type.
Variable eqb : K -> K -> bool.
Hypothesis eqb_eq : forall a b, eqb a b = true <-> a = b.

Lemma dict_mem_iff (d : dict K V) (k : K) :
  dict_mem eqb d k = true <-> In k (map fst d).
Proof.
  unfold dict_mem. induction d as [|[k' v] r IH]; simpl.
  - split; [discriminate|tauto].
  - destruct (eqb k' k) eqn:E.
    + apply eqb_eq in E. split; auto.
    + rewrite IH. split; [auto|]. intros [H|H]; [|exact H].
      apply eqb_eq in H. congruence.
Qed.

Lemma dict_update_same_keys (f : V -> V) (d : dict K V) (k : K) :
  map fst (dict_update eqb d k f) = map fst d.
Proof.
  induction d as [|[k' v] r IH]; simpl; [reflexivity|].
  destruct (eqb k' k); simpl; [reflexivity|now rewrite IH].
Qed.

Lemma dict_set_keys (d : dict K V) (k : K) (v : V) (k' : K) :
  In k' (map fst (dict_set eqb d k v)) <-> In k' (map fst d) \/ k' = k.
Proof.
  unfold dict_set. destruct (dict_mem eqb d k) eqn:M.
  - rewrite dict_update_same_keys. apply dict_mem_iff in M.
    split; [auto|]. intros [H| ->]; assumption.
  - rewrite map_app, in_app_iff. simpl. intuition.
Qed.

Lemma dict_set_nodup (d : dict K V) (k : K) (v : V) :
  NoDup (map fst d) -> NoDup (map fst (dict_set eqb d k v)).
Proof.
  intro H. unfold dict_set. destruct (dict_mem eqb d k) eqn:M.
  - now rewrite dict_update_same_keys.
  - rewrite map_app. simpl. apply NoDup_app; [exact H|repeat constructor; simpl; tauto|].
    intros x Hx [<-|[]]. apply dict_mem_iff in Hx. congruence.
Qed.

Lemma dict_get_app_some (d d' : dict K V) (k : K) (v : V) :
  dict_get eqb d k = Some v -> dict_get eqb (d ++ d') k = Some v.
Proof.
  induction d as [|[k0 v0] r IH]; simpl; [discriminate|].
  destruct (eqb k0 k); auto.
Qed.

Lemma dict_get_app_none (d d' : dict K V) (k : K) :
  dict_get eqb d k = None -> dict_get eqb (d ++ d') k = dict_get eqb d' k.
Proof.
  induction d as [|[k0 v0] r IH]; simpl; [reflexivity|].
  destruct (eqb k0 k); [discriminate|auto].
Qed.

(** [setdefault] keeps what is there and adds the value for a new key. *)
Lemma dict_get_setdefault (d : dict K V) (k : K) (v : V) (k' : K) :
  dict_get eqb (dict_setdefault eqb d k v) k'
  = match dict_get eqb d k' with
    | Some x => Some x
    | None => if eqb k k' then Some v else None
    end.
Proof.
  unfold dict_setdefault, dict_mem.
  destruct (dict_get eqb d k) as [x|] eqn:E.
  - destruct (dict_get eqb d k') as [x'|] eqn:E'; [reflexivity|].
    destruct (eqb k k') eqn:Ek; [|reflexivity].
    apply eqb_eq in Ek. congruence.
  - destruct (dict_get eqb d k') as [x'|] eqn:E'.
    + now apply dict_get_app_some.
    + rewrite dict_get_app_none by exact E'. simpl. now destruct (eqb k k').
Qed.
End DictKeys.

Lemma key_eqb_eq (a b : key) : key_eqb a b = true <-> a = b.
Proof.
  destruct a as [[r1 p1] d1], b as [[r2 p2] d2]. simpl.
  rewrite !andb_true_iff, !Z.eqb_eq. split.
  - intros [[-> ->] ->]. reflexivity.
  - intros [= -> -> ->]. auto.
Qed.

(** ** The first loop: aggregated keys and the catalog *)

Lemma aggregate_step_demand (acc : dict key float * ReserveInfo.t)
    (row : DemandRow.t) :
  fst (aggregate_step acc row)
  = dict_set key_eqb (fst acc) (row_key row)
      (float_add (dict_get_default key_eqb (fst acc) (row_key row) 0%Q)
         (DemandRow.qty row)).
Proof. destruct acc as [dbk res]. reflexivity. Qed.

Lemma aggregate_fold_keys (demand_rows : list DemandRow.t)
    (acc : dict key float * ReserveInfo.t) :
  NoDup (map fst (fst acc)) ->
  NoDup (map fst (fst (fold_left aggregate_step demand_rows acc)))
  /\ forall k,
       In k (map fst (fst (fold_left aggregate_step demand_rows acc)))
       <-> In k (map fst (fst acc))
           \/ exists row, In row demand_rows /\ row_key row = k.
Proof.
  revert acc. induction demand_rows as [|row rest IH]; intros acc Hnd; simpl.
  - split; [exact Hnd|]. intro k. split; [auto|]. intros [H|[row [[] _]]]. exact H.
  - destruct (IH (aggregate_step acc row)) as [N1 I1].
    + rewrite aggregate_step_demand.
      apply dict_set_nodup; [exact key_eqb_eq|exact Hnd].
    + split; [exact N1|]. intro k. rewrite I1, aggregate_step_demand.
      rewrite (@dict_set_keys _ _ _ key_eqb_eq). split.
      * intros [[H| ->]|[row' [Hin E]]]; eauto.
      * intros [H|[row' [[->|Hin] E]]]; eauto.
Qed.

Lemma aggregate_keys (demand_rows : list DemandRow.t) (reserve : ReserveInfo.t) :
  NoDup (map fst (fst (aggregate demand_rows reserve)))
  /\ forall k,
       In k (map fst (fst (aggregate demand_rows reserve)))
       <-> exists row, In row demand_rows /\ row_key row = k.
Proof.
  unfold aggregate.
  destruct (@aggregate_fold_keys demand_rows ([], reserve)) as [N I]; [constructor|].
  split; [exact N|]. intro k. rewrite I. simpl. tauto.
Qed.

Lemma aggregate_step_catalog (acc : dict key float * ReserveInfo.t)
    (row : DemandRow.t) :
  let r := snd acc in
  let r' := snd (aggregate_step acc row) in
  ReserveInfo.supplier_name r' = ReserveInfo.supplier_name r
  /\ ReserveInfo.pallet_weight r' = ReserveInfo.pallet_weight r
  /\ ReserveInfo.max_pallets r' = ReserveInfo.max_pallets r
  /\ ReserveInfo.reserve r' = ReserveInfo.reserve r
  /\ ReserveInfo.suppliers_by_plu r' = ReserveInfo.suppliers_by_plu r
  /\ ReserveInfo.rc_name r'
     = (if nonempty (DemandRow.rc_name row)
        then dict_setdefault Z.eqb (ReserveInfo.rc_name r) (DemandRow.rc row)
               (DemandRow.rc_name row)
        else ReserveInfo.rc_name r)
  /\ ReserveInfo.plu_name r'
     = (if nonempty (DemandRow.plu_name row)
        then dict_setdefault Z.eqb (ReserveInfo.plu_name r) (DemandRow.plu row)
               (DemandRow.plu_name row)
        else ReserveInfo.plu_name r).
Proof. destruct acc as [dbk res]. simpl. repeat split. Qed.

(** What the first loop does to a name dictionary of the catalog, for the
    dictionary [names] and the columns [code], [name] of the records. *)
Section BackFill.
Variable names : ReserveInfo.t -> dict Z string.
Variable code : DemandRow.t -> Z.
Variable name : DemandRow.t -> string.
Hypothesis step : forall acc row,
  names (snd (aggregate_step acc row))
  = (if nonempty (name row)
     then dict_setdefault Z.eqb (names (snd acc)) (code row) (name row)
     else names (snd acc)).

Lemma backfill_fold (demand_rows : list DemandRow.t)
    (acc : dict key float * ReserveInfo.t) (k : Z) :
  let final := names (snd (fold_left aggregate_step demand_rows acc)) in
  (forall v, dict_get Z.eqb (names (snd acc)) k = Some v ->
             dict_get Z.eqb final k = Some v)
  /\ (forall v, dict_get Z.eqb final k = Some v ->
        dict_get Z.eqb (names (snd acc)) k = Some v
        \/ exists row, In row demand_rows /\ code row = k /\ name row = v
                       /\ nonempty v = true).
Proof.
  revert acc. induction demand_rows as [|row rest IH]; intro acc; simpl.
  - split; auto.
  - destruct (IH (aggregate_step acc row)) as [P1 P2].
    rewrite step in P1, P2. split.
    + intros v Hv. apply P1. destruct (nonempty (name row)); [|exact Hv].
      rewrite (@dict_get_setdefault _ _ _ Z.eqb_eq). now rewrite Hv.
    + intros v Hv. apply P2 in Hv. destruct Hv as [Hv|[row' [Hin H]]].
      * destruct (nonempty (name row)) eqn:Ne; [|now left].
        rewrite (@dict_get_setdefault _ _ _ Z.eqb_eq) in Hv.
        destruct (dict_get Z.eqb (names (snd acc)) k) as [x|]; [now left|].
        destruct (Z.eqb_spec (code row) k); [|discriminate].
        injection Hv as <-. right. exists row. auto.
      * right. exists row'. split; [now right|exact H].
Qed.
End BackFill.

Lemma aggregate_fold_fixed (demand_rows : list DemandRow.t)
    (acc : dict key float * ReserveInfo.t) :
  let r := snd acc in
  let r' := snd (fold_left aggregate_step demand_rows acc) in
  ReserveInfo.supplier_name r' = ReserveInfo.supplier_name r
  /\ ReserveInfo.pallet_weight r' = ReserveInfo.pallet_weight r
  /\ ReserveInfo.max_pallets r' = ReserveInfo.max_pallets r
  /\ ReserveInfo.reserve r' = ReserveInfo.reserve r
  /\ ReserveInfo.suppliers_by_plu r' = ReserveInfo.suppliers_by_plu r.
Proof.
  revert acc. induction demand_rows as [|row rest IH]; intro acc; simpl.
  - repeat split.
  - destruct (IH (aggregate_step acc row)) as [A [B [C [D E]]]].
    destruct (aggregate_step_catalog acc row) as [A' [B' [C' [D' [E' _]]]]].
    repeat split; congruence.
Qed.

Lemma build_allocations_outputs (demand_rows : list DemandRow.t)
    (reserve : ReserveInfo.t) (template : option TemplateData.t)
    (options : RunOptions.t) :
  let demand_by_key := fst (aggregate demand_rows reserve) in
  let reserve' := snd (aggregate demand_rows reserve) in
  let template' := option_map (set_base_demand demand_by_key) template in
  build_allocations demand_rows reserve template options
  = (flat_map (fun row => row_items reserve' template' row
                            (row_split reserve' template' options row))
       demand_rows
     ++ step4_items demand_by_key reserve' template' options,
     reserve', template').
Proof.
  unfold build_allocations. destruct (aggregate demand_rows reserve) as [dbk res].
  cbn [fst snd]. now rewrite fold_left_app_flat_map.
Qed.

(** ** The catalog after the builder *)

(** X6: build_allocations changes the catalog it is given only by
    back-filling display names: supplier_name, pallet_weight,
    max_pallets, reserve and suppliers_by_plu are unchanged; an rc or
    plu that already has a name keeps it; every name present afterwards
    was there before or is the non-empty name of a demand record with
    that code. *)
Theorem build_allocations_catalog (demand_rows : list DemandRow.t)
    (reserve : ReserveInfo.t) (template : option TemplateData.t)
    (options : RunOptions.t) :
  let reserve' :=
    snd (fst (build_allocations demand_rows reserve template options)) in
  (ReserveInfo.supplier_name reserve' = ReserveInfo.supplier_name reserve
   /\ ReserveInfo.pallet_weight reserve' = ReserveInfo.pallet_weight reserve
   /\ ReserveInfo.max_pallets reserve' = ReserveInfo.max_pallets reserve
   /\ ReserveInfo.reserve reserve' = ReserveInfo.reserve reserve
   /\ ReserveInfo.suppliers_by_plu reserve' = ReserveInfo.suppliers_by_plu reserve)
  /\ (forall rc v,
        dict_get Z.eqb (ReserveInfo.rc_name reserve) rc = Some v ->
        dict_get Z.eqb (ReserveInfo.rc_name reserve') rc = Some v)
  /\ (forall plu v,
        dict_get Z.eqb (ReserveInfo.plu_name reserve) plu = Some v ->
        dict_get Z.eqb (ReserveInfo.plu_name reserve') plu = Some v)
  /\ (forall rc v,
        dict_get Z.eqb (ReserveInfo.rc_name reserve') rc = Some v ->
        dict_get Z.eqb (ReserveInfo.rc_name reserve) rc = Some v
        \/ exists row, In row demand_rows /\ DemandRow.rc row = rc
                       /\ DemandRow.rc_name row = v /\ nonempty v = true)
  /\ (forall plu v,
        dict_get Z.eqb (ReserveInfo.plu_name reserve') plu = Some v ->
        dict_get Z.eqb (ReserveInfo.plu_name reserve) plu = Some v
        \/ exists row, In row demand_rows /\ DemandRow.plu row = plu
                       /\ DemandRow.plu_name row = v /\ nonempty v = true).
Proof.
  rewrite build_allocations_outputs. cbn [fst snd]. unfold aggregate.
  split; [apply (aggregate_fold_fixed demand_rows ([], reserve))|].
  assert (Hrc : forall acc row,
            ReserveInfo.rc_name (snd (aggregate_step acc row))
            = (if nonempty (DemandRow.rc_name row)
               then dict_setdefault Z.eqb (ReserveInfo.rc_name (snd acc))
                      (DemandRow.rc row) (DemandRow.rc_name row)
               else ReserveInfo.rc_name (snd acc))).
  { intros acc row. apply (aggregate_step_catalog acc row). }
  assert (Hplu : forall acc row,
            ReserveInfo.plu_name (snd (aggregate_step acc row))
            = (if nonempty (DemandRow.plu_name row)
               then dict_setdefault Z.eqb (ReserveInfo.plu_name (snd acc))
                      (DemandRow.plu row) (DemandRow.plu_name row)
               else ReserveInfo.plu_name (snd acc))).
  { intros acc row. apply (aggregate_step_catalog acc row). }
  repeat split.
  - intros rc. apply (backfill_fold _ _ _ Hrc demand_rows ([], reserve) rc).
  - intros plu. apply (backfill_fold _ _ _ Hplu demand_rows ([], reserve) plu).
  - intros rc. apply (backfill_fold _ _ _ Hrc demand_rows ([], reserve) rc).
  - intros plu. apply (backfill_fold _ _ _ Hplu demand_rows ([], reserve) plu).
Qed.

(** ** The items of the builder *)

Lemma row_pallet_weight_nonzero (reserve : ReserveInfo.t)
    (template : option TemplateData.t) (plu : Z) :
  ~ (row_pallet_weight reserve template plu == 0)%Q.
Proof.
  unfold row_pallet_weight.
  destruct (if truthy_float (dict_get Z.eqb (ReserveInfo.pallet_weight reserve) plu)
            then dict_get Z.eqb (ReserveInfo.pallet_weight reserve) plu
            else match template with
                 | Some t => dict_get Z.eqb (TemplateData.pallet_weight t) plu
                 | None => None
                 end) as [v|].
  - destruct (Qeq_bool v 0) eqn:E.
    + discriminate.
    + now apply Qeq_bool_neq.
  - discriminate.
Qed.

Lemma row_items_fields (reserve : ReserveInfo.t)
    (template : option TemplateData.t) (row : DemandRow.t) (split : dict Z Z)
    (it : AllocationItem.t) :
  In it (row_items reserve template row split) ->
  (AllocationItem.rc it, AllocationItem.plu it, AllocationItem.date it)
  = row_key row
  /\ ~ (AllocationItem.pallet_weight it == 0)%Q
  /\ In (AllocationItem.supplier it, AllocationItem.pallets it) split.
Proof.
  unfold row_items. intro H. apply in_flat_map in H.
  destruct H as [[supplier pallets] [Hin H]].
  destruct (pallets <=? 0); [destruct H|].
  destruct H as [<-|[]]. cbn. repeat split.
  - apply row_pallet_weight_nonzero.
  - exact Hin.
Qed.

Lemma template_only_items_fields (demand_by_key : dict key float)
    (reserve : ReserveInfo.t) (t : TemplateData.t) (it : AllocationItem.t) :
  In it (template_only_items demand_by_key reserve t) ->
  ~ (AllocationItem.pallet_weight it == 0)%Q
  /\ dict_mem key_eqb demand_by_key
       (AllocationItem.rc it, AllocationItem.plu it, AllocationItem.date it)
     = false
  /\ exists entry,
       In ((AllocationItem.rc it, AllocationItem.plu it, AllocationItem.date it),
           entry) (TemplateData.entries t)
       /\ In (AllocationItem.supplier it, AllocationItem.pallets it)
            (TemplateEntry.pallets_by_supplier entry).
Proof.
  unfold template_only_items. intro H. apply in_flat_map in H.
  destruct H as [[[[rc plu] date] entry] [Hin H]].
  destruct (dict_mem key_eqb demand_by_key (rc, plu, date)) eqn:M; [destruct H|].
  apply in_flat_map in H. destruct H as [[supplier pallets] [Hin' H]].
  destruct (pallets <=? 0); [destruct H|].
  destruct H as [<-|[]]. cbn. repeat split.
  - destruct (if truthy_float (dict_get Z.eqb (ReserveInfo.pallet_weight reserve) plu)
              then dict_get Z.eqb (ReserveInfo.pallet_weight reserve) plu
              else dict_get Z.eqb (TemplateData.pallet_weight t) plu) as [v|].
    + destruct (Qeq_bool v 0) eqn:E; [discriminate|now apply Qeq_bool_neq].
    + discriminate.
  - exact M.
  - exists entry. split; assumption.
Qed.

(** X7: Every allocation item build_allocations returns, from a demand
    record or from a template-only entry, has pallets > 0 and a
    pallet_weight different from 0 (a missing or zero weight is replaced
    by 1.0). *)
Theorem build_allocations_items_wellformed (demand_rows : list DemandRow.t)
    (reserve : ReserveInfo.t) (template : option TemplateData.t)
    (options : RunOptions.t) (it : AllocationItem.t) :
  In it (fst (fst (build_allocations demand_rows reserve template options))) ->
  0 < AllocationItem.pallets it
  /\ ~ (AllocationItem.pallet_weight it == 0)%Q.
Proof.
  intro H. split; [eapply build_allocations_positive; exact H|].
  rewrite build_allocations_outputs in H. cbn [fst snd] in H.
  apply in_app_iff in H. destruct H as [H|H].
  - apply in_flat_map in H. destruct H as [row [_ H]].
    apply row_items_fields in H. tauto.
  - unfold step4_items in H.
    destruct (option_map _ template) as [t|]; [|destruct H].
    destruct (RunOptions.use_template options
              && RunOptions.include_template_without_demand options);
      [|destruct H].
    apply template_only_items_fields in H. tauto.
Qed.

Lemma build_allocations_items_wellformed_witness :
  0 < 1
  /\ ~ (AllocationItem.pallet_weight
          (AllocationItem.mk 1 "Depot" 1 "Apples" 0 7 (Some "Acme"%string) 10 1)
        == 0)%Q.
Proof.
  apply (@build_allocations_items_wellformed [named_row] named_reserve None
           RunOptions.default
           (AllocationItem.mk 1 "Depot" 1 "Apples" 0 7 (Some "Acme"%string) 10 1)).
  vm_compute. left. reflexivity.
Defined.

Lemma build_allocations_catalog_witness :
  dict_get Z.eqb
    (ReserveInfo.rc_name
       (snd (fst (build_allocations [named_row] named_reserve None
                    RunOptions.default)))) 1
  = Some "Depot"%string.
Proof.
  refine (proj1 (proj2 (build_allocations_catalog [named_row] named_reserve None
                          RunOptions.default)) 1 "Depot"%string _).
  reflexivity.
Defined.

(** ** Where the items come from *)


Lemma set_base_demand_entries_inv (demand_by_key : dict key float)
    (t : TemplateData.t) (k : key) (entry' : TemplateEntry.t) :
  In (k, entry') (TemplateData.entries (set_base_demand demand_by_key t)) ->
  exists entry,
    In (k, entry) (TemplateData.entries t)
    /\ TemplateEntry.pallets_by_supplier entry'
       = TemplateEntry.pallets_by_supplier entry
    /\ TemplateEntry.total_pallets entry' = TemplateEntry.total_pallets entry
    /\ TemplateEntry.base_demand entry'
       = round_half_even (dict_get_default key_eqb demand_by_key k 0%Q).
Proof.
  unfold set_base_demand. cbn. intro H. apply in_map_iff in H.
  destruct H as [[k0 entry] [E Hin]]. cbn in E. injection E as <- <-.
  exists entry. cbn. repeat split. exact Hin.
Qed.



(** ** The template after the builder *)

(** X9: build_allocations changes a template only in base_demand: the
    keys of the entries, their order, their pallets_by_supplier and
    total_pallets, and the shoulder, name and pallet-weight maps stay as
    they were; an entry whose key has no demand record gets base_demand
    = 0. Without a template none is created. *)
Theorem build_allocations_template (demand_rows : list DemandRow.t)
    (reserve : ReserveInfo.t) (template : option TemplateData.t)
    (options : RunOptions.t) :
  let template' := snd (build_allocations demand_rows reserve template options) in
  (template = None -> template' = None)
  /\ (forall t, template = Some t ->
        exists t',
          template' = Some t'
          /\ map fst (TemplateData.entries t') = map fst (TemplateData.entries t)
          /\ map (fun ke => TemplateEntry.pallets_by_supplier (snd ke))
               (TemplateData.entries t')
             = map (fun ke => TemplateEntry.pallets_by_supplier (snd ke))
                 (TemplateData.entries t)
          /\ map (fun ke => TemplateEntry.total_pallets (snd ke))
               (TemplateData.entries t')
             = map (fun ke => TemplateEntry.total_pallets (snd ke))
                 (TemplateData.entries t)
          /\ TemplateData.shoulder_map t' = TemplateData.shoulder_map t
          /\ TemplateData.supplier_name t' = TemplateData.supplier_name t
          /\ TemplateData.plu_name t' = TemplateData.plu_name t
          /\ TemplateData.rc_name t' = TemplateData.rc_name t
          /\ TemplateData.pallet_weight t' = TemplateData.pallet_weight t
          /\ (forall k entry', In (k, entry') (TemplateData.entries t') ->
                (forall row, In row demand_rows -> row_key row <> k) ->
                TemplateEntry.base_demand entry' = 0)).
Proof.
  rewrite build_allocations_outputs. cbn [fst snd]. split.
  - intros ->. reflexivity.
  - intros t ->. cbn [option_map]. eexists. split; [reflexivity|].
    unfold set_base_demand at 1 2 3. cbn.
    rewrite !map_map. cbn. repeat split.
    intros k entry' Hin Hno.
    apply set_base_demand_entries_inv in Hin.
    destruct Hin as [entry [_ [_ [_ ->]]]].
    destruct (aggregate_keys demand_rows reserve) as [_ Hkeys].
    unfold dict_get_default.
    destruct (dict_get key_eqb (fst (aggregate demand_rows reserve)) k)
      as [q|] eqn:G; [|reflexivity].
    exfalso.
    assert (M : dict_mem key_eqb (fst (aggregate demand_rows reserve)) k = true).
    { unfold dict_mem. now rewrite G. }
    apply (@dict_mem_iff _ _ _ key_eqb_eq) in M. apply Hkeys in M.
    destruct M as [row [Hrow E]]. exact (Hno row Hrow E).
Qed.

Lemma build_allocations_template_witness :
  snd (build_allocations [named_row] named_reserve None RunOptions.default)
  = None.
Proof.
  apply (proj1 (build_allocations_template [named_row] named_reserve None
                  RunOptions.default)).
  reflexivity.
Defined.

(** ** Records without a supplier *)

Lemma flat_map_all_nil (A B : Type) (f : A -> list B) (l : list A) :
  (forall x, In x l -> f x = []) -> flat_map f l = [].
Proof.
  induction l as [|x l IH]; intro H; [reflexivity|].
  cbn [flat_map]. rewrite (H x (or_introl eq_refl)). cbn [app].
  apply IH. intros y Hy. apply H. now right.
Qed.

(** X10: Demand without a supplier is dropped silently: for finite
    quantities in the range where no float operation of
    build_allocations overflows (build_in_range: every aggregated sum
    and every quotient row.qty / pallet_weight is a finite binary64
    value), when no template is used (template is None or use_template
    is false) and for every demand record the supplier list of its
    product is absent, empty or starts with supplier 0,
    build_allocations returns no item at all. *)
Theorem build_allocations_no_supplier (demand_rows : list DemandRow.t)
    (reserve : ReserveInfo.t) (template : option TemplateData.t)
    (options : RunOptions.t) :
  build_in_range demand_rows reserve template = true ->
  template = None \/ RunOptions.use_template options = false ->
  (forall row, In row demand_rows ->
     match dict_get_default Z.eqb (ReserveInfo.suppliers_by_plu reserve)
             (DemandRow.plu row) [] with
     | [] => True
     | s :: _ => s = 0
     end) ->
  fst (fst (build_allocations demand_rows reserve template options)) = [].
Proof.
  intros _ Hoff Hno. rewrite build_allocations_outputs. cbn [fst snd].
  destruct (aggregate_fold_fixed demand_rows ([], reserve))
    as [_ [_ [_ [_ Hs]]]]. cbn [snd] in Hs. fold (aggregate demand_rows reserve) in Hs.
  assert (H4 : step4_items (fst (aggregate demand_rows reserve))
                 (snd (aggregate demand_rows reserve))
                 (option_map (set_base_demand (fst (aggregate demand_rows reserve)))
                    template) options = []).
  { unfold step4_items. destruct Hoff as [->| ->]; [reflexivity|].
    now destruct (option_map _ template). }
  rewrite H4, app_nil_r.
  assert (Hsplit : forall row, In row demand_rows ->
            row_split (snd (aggregate demand_rows reserve))
              (option_map (set_base_demand (fst (aggregate demand_rows reserve)))
                 template) options row = []).
  { intros row Hrow. specialize (Hno row Hrow). unfold row_split.
    rewrite Hs.
    assert (F : (if (match dict_get_default Z.eqb
                             (ReserveInfo.suppliers_by_plu reserve)
                             (DemandRow.plu row) [] with
                     | s :: _ => s | [] => 0 end =? 0)
                 then []
                 else [(match dict_get_default Z.eqb
                                (ReserveInfo.suppliers_by_plu reserve)
                                (DemandRow.plu row) [] with
                        | s :: _ => s | [] => 0 end,
                        math_ceil
                          (float_div (DemandRow.qty row)
                             (row_pallet_weight
                                (snd (aggregate demand_rows reserve))
                                (option_map
                                   (set_base_demand
                                      (fst (aggregate demand_rows reserve)))
                                   template) (DemandRow.plu row))))])
                = @nil (Z * Z)).
    { destruct (dict_get_default Z.eqb (ReserveInfo.suppliers_by_plu reserve)
                  (DemandRow.plu row) []) as [|s ?]; [reflexivity|].
      subst s. reflexivity. }
    cbv zeta. rewrite F.
    destruct Hoff as [->| ->]; [reflexivity|].
    now destruct (option_map _ template). }
  apply flat_map_all_nil. intros row Hrow. now rewrite (Hsplit row Hrow).
Qed.

Lemma build_allocations_no_supplier_witness :
  fst (fst (build_allocations [named_row] no_supplier_reserve
              (Some sample_template) (RunOptions.mk false true true true true 32)))
  = [].
Proof.
  apply build_allocations_no_supplier.
  - vm_compute. reflexivity.
  - right. reflexivity.
  - intros row [<-|[]]. exact I.
Defined.

(** * The order of the packed rows *)

Section SortSorted.
Variable A : Type.
Variable le : A -> A -> bool.
Hypothesis le_total : forall a b, le a b = true \/ le b a = true.
Hypothesis le_trans : forall a b c, le a b = true -> le b c = true -> le a c = true.

Lemma insert_sorted_sorted (x : A) (l : list A) :
  StronglySorted (fun a b => le a b = true) l ->
  StronglySorted (fun a b => le a b = true) (insert_sorted le x l).
Proof.
  induction 1 as [|y r Hr IH Hy]; simpl.
  - repeat constructor.
  - destruct (le x y) eqn:E.
    + constructor; [now constructor|].
      constructor; [exact E|].
      rewrite Forall_forall in *. intros z Hz. eapply le_trans; eauto.
    + constructor; [exact IH|].
      rewrite Forall_forall in *. intros z Hz.
      apply (Permutation_in _ (insert_sorted_perm le x r)) in Hz.
      destruct Hz as [<-|Hz]; [|now apply Hy].
      destruct (le_total x y) as [H|H]; [congruence|exact H].
Qed.

Lemma stable_sort_sorted (l : list A) :
  StronglySorted (fun a b => le a b = true) (stable_sort le l).
Proof.
  induction l as [|x r IH]; simpl; [constructor|].
  now apply insert_sorted_sorted.
Qed.
End SortSorted.

Lemma sorted_app (A : Type) (R : A -> A -> Prop) (a b : list A) :
  StronglySorted R a -> StronglySorted R b ->
  (forall x y, In x a -> In y b -> R x y) ->
  StronglySorted R (a ++ b).
Proof.
  induction 1 as [|x a Ha IH Hx]; intros Hb Hab; simpl; [exact Hb|].
  constructor.
  - apply IH; [exact Hb|]. intros; apply Hab; [now right|assumption].
  - apply Forall_app. split; [exact Hx|].
    apply Forall_forall. intros y Hy. apply Hab; [now left|exact Hy].
Qed.

Lemma item_le_spec (x y : AllocationItem.t) :
  item_le x y = true
  <-> (AllocationItem.date x < AllocationItem.date y
       \/ (AllocationItem.date x = AllocationItem.date y
           /\ (AllocationItem.rc x < AllocationItem.rc y
               \/ (AllocationItem.rc x = AllocationItem.rc y
                   /\ AllocationItem.plu x <= AllocationItem.plu y)))).
Proof.
  unfold item_le.
  rewrite !orb_true_iff, !andb_true_iff, !orb_true_iff, !andb_true_iff,
    !Z.ltb_lt, !Z.eqb_eq, Z.leb_le. tauto.
Qed.

Lemma packed_le_spec (x y : OutputRow.t) :
  packed_le x y = true
  <-> (OutputRow.supplier x < OutputRow.supplier y
       \/ (OutputRow.supplier x = OutputRow.supplier y
           /\ (OutputRow.date x < OutputRow.date y
               \/ (OutputRow.date x = OutputRow.date y
                   /\ (OutputRow.rc x < OutputRow.rc y
                       \/ (OutputRow.rc x = OutputRow.rc y
                           /\ OutputRow.plu x <= OutputRow.plu y)))))).
Proof.
  unfold packed_le.
  rewrite !orb_true_iff, !andb_true_iff, !orb_true_iff, !andb_true_iff,
    !orb_true_iff, !andb_true_iff, !Z.ltb_lt, !Z.eqb_eq, Z.leb_le. tauto.
Qed.

Lemma item_le_total (a b : AllocationItem.t) :
  item_le a b = true \/ item_le b a = true.
Proof. rewrite !item_le_spec. lia. Qed.

Lemma item_le_trans (a b c : AllocationItem.t) :
  item_le a b = true -> item_le b c = true -> item_le a c = true.
Proof. rewrite !item_le_spec. lia. Qed.

Lemma while_loop_rows (fuel : nat) (cap s : Z)
    (template : option TemplateData.t) (item : AllocationItem.t) (pl : Z)
    (st st' : PackState) :
  while_loop fuel cap s template item pl st = Some st' ->
  exists rs, rows st' = rows st ++ rs /\ Forall (row_of s item) rs.
Proof.
  revert pl st. induction fuel as [|fuel IH]; intros pl st.
  - rewrite while_loop_O. destruct (0 <? pl); [discriminate|].
    intros [= <-]. exists []. now rewrite app_nil_r.
  - rewrite while_loop_S. destruct (0 <? pl).
    + intro H. apply IH in H. destruct H as [rs [E F]].
      unfold while_body in E. cbn [snd rows] in E.
      rewrite open_truck_rows in E. rewrite <- app_assoc in E.
      eexists. split; [exact E|]. constructor; [|exact F].
      unfold row_of, output_row. cbn. tauto.
    + intros [= <-]. exists []. now rewrite app_nil_r.
Qed.

Lemma same_item_sorted (s : Z) (it : AllocationItem.t) (rs : list OutputRow.t) :
  Forall (row_of s it) rs ->
  StronglySorted (fun a b => packed_le a b = true) rs.
Proof.
  induction 1 as [|r rs Hr Hrs IH]; constructor; [exact IH|].
  apply Forall_forall. intros y Hy.
  rewrite Forall_forall in Hrs. specialize (Hrs y Hy).
  apply packed_le_spec. unfold row_of in *. lia.
Qed.

Lemma for_items_rows (fuel : nat) (cap s : Z)
    (template : option TemplateData.t) (items : list AllocationItem.t)
    (st st' : PackState) :
  StronglySorted (fun a b => item_le a b = true) items ->
  for_items fuel cap s template items st = Some st' ->
  exists rs, rows st' = rows st ++ rs
    /\ StronglySorted (fun a b => packed_le a b = true) rs
    /\ Forall (fun r => exists it, In it items /\ row_of s it r) rs.
Proof.
  intro Hs. revert st. induction Hs as [|item rest Hrest IH Hhead]; intro st.
  - intros [= <-]. exists []. rewrite app_nil_r. repeat constructor.
  - cbn [for_items].
    destruct (while_loop fuel cap s template item (AllocationItem.pallets item) st)
      as [st1|] eqn:W; [|discriminate].
    intro H. apply IH in H. destruct H as [rs2 [E2 [S2 F2]]].
    apply while_loop_rows in W. destruct W as [rs1 [E1 F1]].
    exists (rs1 ++ rs2). rewrite E2, E1, app_assoc. split; [reflexivity|].
    rewrite Forall_forall in F1, F2, Hhead. split.
    + apply sorted_app; [eapply same_item_sorted; apply Forall_forall; exact F1
                        |exact S2|].
      intros x y Hx Hy. specialize (F1 x Hx).
      destruct (F2 y Hy) as [it [Hit Hy']].
      specialize (Hhead it Hit). apply item_le_spec in Hhead.
      apply packed_le_spec. unfold row_of in *. lia.
    + apply Forall_forall. intros r Hr. apply in_app_iff in Hr.
      destruct Hr as [Hr|Hr].
      * exists item. split; [now left|auto].
      * destruct (F2 r Hr) as [it [Hit Hr']]. exists it. split; [now right|auto].
Qed.

Lemma for_suppliers_rows (fuel : nat) (reserve : ReserveInfo.t)
    (template : option TemplateData.t) (options : RunOptions.t)
    (grouped : dict Z (list AllocationItem.t)) (suppliers : list Z)
    (out out' : list OutputRow.t) (next next' : Z) :
  StronglySorted Z.lt suppliers ->
  for_suppliers fuel reserve template options grouped suppliers out next
  = Some (out', next') ->
  exists rs, out' = out ++ rs
    /\ StronglySorted (fun a b => packed_le a b = true) rs
    /\ Forall (fun r =>
                In (OutputRow.supplier r) suppliers
                /\ exists it,
                     In it (dict_get_default Z.eqb grouped (OutputRow.supplier r) [])
                     /\ row_of (OutputRow.supplier r) it r) rs.
Proof.
  intro Hs. revert out next.
  induction Hs as [|s rest Hrest IH Hhead]; intros out next.
  - intros [= <- <-]. exists []. rewrite app_nil_r. repeat constructor.
  - cbn [for_suppliers].
    destruct (for_items fuel (truck_capacity reserve options s) s template
                (stable_sort item_le (dict_get_default Z.eqb grouped s []))
                (mkPackState out next 0 0)) as [st|] eqn:F; [|discriminate].
    intro H. apply IH in H. destruct H as [rs2 [E2 [S2 F2]]].
    apply for_items_rows in F;
      [|apply stable_sort_sorted; [apply item_le_total|apply item_le_trans]].
    destruct F as [rs1 [E1 [S1 F1]]]. cbn [rows] in E1.
    exists (rs1 ++ rs2). rewrite E2, E1, app_assoc. split; [reflexivity|].
    rewrite Forall_forall in F1, F2, Hhead. split.
    + apply sorted_app; [exact S1|exact S2|].
      intros x y Hx Hy. destruct (F1 x Hx) as [it [_ Hx']].
      specialize (Hhead _ (proj1 (F2 y Hy))).
      apply packed_le_spec. unfold row_of in Hx'. lia.
    + apply Forall_forall. intros r Hr. apply in_app_iff in Hr.
      destruct Hr as [Hr|Hr].
      * destruct (F1 r Hr) as [it [Hit Hr']].
        assert (E : OutputRow.supplier r = s) by (unfold row_of in Hr'; tauto).
        rewrite E. split; [now left|]. exists it. split; [|exact Hr'].
        now apply stable_sort_In in Hit.
      * destruct (F2 r Hr) as [Hin Hit]. split; [now right|exact Hit].
Qed.

Lemma sorted_nodup_lt (l : list Z) :
  StronglySorted (fun a b => (a <=? b) = true) l -> NoDup l ->
  StronglySorted Z.lt l.
Proof.
  induction 1 as [|x l Hl IH Hx]; intro Hn; constructor.
  - apply IH. now inversion Hn.
  - inversion Hn as [|? ? Hnot _]; subst.
    rewrite Forall_forall in *. intros y Hy.
    specialize (Hx y Hy). apply Z.leb_le in Hx.
    assert (x <> y) by (intros ->; contradiction). lia.
Qed.

Lemma suppliers_ascending (items : list AllocationItem.t) :
  StronglySorted Z.lt (stable_sort Z.leb (map fst (group_items items))).
Proof.
  apply sorted_nodup_lt.
  - apply stable_sort_sorted; intros a b; [|intro c];
      rewrite ?Z.leb_le; lia.
  - destruct (group_items_spec items) as [Hn _].
    eapply Permutation_NoDup; [|exact Hn].
    symmetry. apply stable_sort_perm.
Qed.

(** X11: The rows of a finished pack_trucks run come out ordered by
    (supplier, date, rc, plu), and every row carries the supplier, date,
    rc and plu of one of the input items. *)
Theorem pack_trucks_rows_ordered (fuel : nat) (items : list AllocationItem.t)
    (reserve : ReserveInfo.t) (template : option TemplateData.t)
    (options : RunOptions.t) (out : list OutputRow.t) :
  pack_trucks fuel items reserve template options = Some out ->
  StronglySorted (fun a b => packed_le a b = true) out
  /\ (forall r, In r out ->
        exists it, In it items
          /\ AllocationItem.supplier it = OutputRow.supplier r
          /\ row_of (OutputRow.supplier r) it r).
Proof.
  unfold pack_trucks, pack_trucks_counter.
  destruct (for_suppliers fuel reserve template options (group_items items)
              (stable_sort Z.leb (map fst (group_items items))) [] 1)
    as [[out' next']|] eqn:F; [|discriminate].
  intros [= <-].
  apply for_suppliers_rows in F; [|apply suppliers_ascending].
  destruct F as [rs [-> [S Hin]]]. cbn [app]. split; [exact S|].
  intros r Hr. rewrite Forall_forall in Hin.
  destruct (Hin r Hr) as [_ [it [Hit Hrow]]].
  apply in_group in Hit. exists it. tauto.
Qed.

Lemma pack_trucks_rows_ordered_witness :
  StronglySorted (fun a b => packed_le a b = true) sample_rows
  /\ (forall r, In r sample_rows ->
        exists it, In it sample_items
          /\ AllocationItem.supplier it = OutputRow.supplier r
          /\ row_of (OutputRow.supplier r) it r).
Proof.
  apply (@pack_trucks_rows_ordered 5 sample_items sample_reserve None
           RunOptions.default sample_rows).
  vm_compute. reflexivity.
Defined.

(** * Full trucks *)

Section FillInvariant.
Variable capf : Z -> Z.
Variable template : option TemplateData.t.

Lemma while_body_fill (s : Z) (item : AllocationItem.t) (pallets_left : Z)
    (st : PackState) :
  state_ok capf s st -> fill_ok capf s st ->
  fill_ok capf s (snd (while_body (capf s) s template item pallets_left st)).
Proof.
  intros [Hrows Hcur] [Hoth Hfill]. destruct st as [out next rem cur].
  cbn [rows truck_id remaining current_truck] in *.
  assert (Hid : forall r, In r out -> 1 <= OutputRow.truck_id r < next).
  { intros r Hr. apply (ok_ids Hrows). now apply in_ids. }
  unfold while_body, open_truck. cbn [rows truck_id remaining current_truck snd].
  destruct (Z.eqb_spec rem 0) as [E|E];
    cbn [rows truck_id remaining current_truck].
  - (* a new truck *)
    subst rem.
    constructor; cbn [rows truck_id remaining current_truck].
    + intros r1 r2 H1 H2 Es Hs Hlt.
      apply in_app_iff in H1. destruct H1 as [H1|[<-|[]]];
        [|cbn in Hs; congruence].
      apply in_app_iff in H2. destruct H2 as [H2|[<-|[]]];
        [|cbn in Es; congruence].
      rewrite load_snoc. cbn [OutputRow.truck_id OutputRow.pallets output_row].
      pose proof (Hid r1 H1).
      destruct (Z.eqb_spec next (OutputRow.truck_id r1)); [lia|].
      rewrite Z.add_0_r. now apply (Hoth r1 r2).
    + intros r Hr Es Hc. rewrite load_snoc.
      cbn [OutputRow.truck_id OutputRow.pallets output_row].
      apply in_app_iff in Hr. destruct Hr as [Hr|[<-|[]]].
      * pose proof (Hid r Hr).
        destruct (Z.eqb_spec next (OutputRow.truck_id r)); [lia|].
        rewrite Z.add_0_r. apply Hfill; auto.
      * cbn [OutputRow.truck_id output_row] in *.
        rewrite Z.eqb_refl, load_absent.
        { destruct Hc as [Hc|Hc]; lia. }
        intro H. apply (ok_ids Hrows) in H. lia.
  - (* the truck in use *)
    destruct (Hcur E) as [Ec [H2 [Hsup Hld]]]. subst cur.
    constructor; cbn [rows truck_id remaining current_truck].
    + intros r1 r2 H1 H2' Es Hs Hlt.
      apply in_app_iff in H1. destruct H1 as [H1|[<-|[]]];
        [|cbn in Hs; congruence].
      apply in_app_iff in H2'. destruct H2' as [H2'|[<-|[]]];
        [|cbn in Es; congruence].
      rewrite load_snoc. cbn [OutputRow.truck_id OutputRow.pallets output_row].
      destruct (Z.eqb_spec (next - 1) (OutputRow.truck_id r1)) as [E'|E'].
      { exfalso. apply Hs. apply Hsup; [exact H1|now symmetry]. }
      rewrite Z.add_0_r. now apply (Hoth r1 r2).
    + intros r Hr Es Hc. rewrite load_snoc.
      cbn [OutputRow.truck_id OutputRow.pallets output_row].
      apply in_app_iff in Hr. destruct Hr as [Hr|[<-|[]]].
      * pose proof (Hid r Hr).
        destruct (Z.eqb_spec (next - 1) (OutputRow.truck_id r)) as [E'|E'].
        { rewrite <- E', Hld. destruct Hc as [Hc|Hc]; lia. }
        rewrite Z.add_0_r. apply Hfill; auto.
        left. lia.
      * cbn [OutputRow.truck_id output_row] in *.
        rewrite Z.eqb_refl, Hld. destruct Hc as [Hc|Hc]; lia.
Qed.

Lemma while_loop_fill (fuel : nat) (s : Z) (item : AllocationItem.t)
    (pallets_left : Z) (st st' : PackState) :
  state_ok capf s st -> fill_ok capf s st ->
  while_loop fuel (capf s) s template item pallets_left st = Some st' ->
  fill_ok capf s st'.
Proof.
  revert pallets_left st. induction fuel as [|fuel IH]; intros pl st Hst Hf.
  - rewrite while_loop_O. destruct (0 <? pl); [discriminate|]. now intros [= <-].
  - rewrite while_loop_S. destruct (0 <? pl); [|now intros [= <-]].
    apply IH; [now apply while_body_ok|now apply while_body_fill].
Qed.

Lemma for_items_fill (fuel : nat) (s : Z) (items : list AllocationItem.t)
    (st st' : PackState) :
  state_ok capf s st -> fill_ok capf s st ->
  for_items fuel (capf s) s template items st = Some st' ->
  fill_ok capf s st'.
Proof.
  revert st. induction items as [|item rest IH]; intros st Hst Hf; simpl.
  - now intros [= <-].
  - destruct (while_loop fuel (capf s) s template item
                (AllocationItem.pallets item) st) as [st1|] eqn:E; [|discriminate].
    apply IH; [eapply while_loop_ok|eapply while_loop_fill]; eassumption.
Qed.
End FillInvariant.

Lemma for_suppliers_fill (fuel : nat) (reserve : ReserveInfo.t)
    (template : option TemplateData.t) (options : RunOptions.t)
    (grouped : dict Z (list AllocationItem.t)) (suppliers : list Z)
    (out out' : list OutputRow.t) (next next' : Z) :
  NoDup suppliers ->
  (forall r, In r out -> ~ In (OutputRow.supplier r) suppliers) ->
  rows_ok (truck_capacity reserve options) out next ->
  full_but_last (truck_capacity reserve options) out ->
  for_suppliers fuel reserve template options grouped suppliers out next
  = Some (out', next') ->
  full_but_last (truck_capacity reserve options) out'.
Proof.
  intro Hn. revert out next.
  induction Hn as [|s rest Hs Hrest IH]; intros out next Hnew Hok Hfull.
  - now intros [= <- <-].
  - cbn [for_suppliers].
    destruct (for_items fuel (truck_capacity reserve options s) s template
                (stable_sort item_le (dict_get_default Z.eqb grouped s []))
                (mkPackState out next 0 0)) as [st|] eqn:F; [|discriminate].
    assert (H0 : state_ok (truck_capacity reserve options) s
                   (mkPackState out next 0 0)).
    { constructor; simpl; [exact Hok|]. intro H. now elim H. }
    assert (F0 : fill_ok (truck_capacity reserve options) s
                   (mkPackState out next 0 0)).
    { constructor; cbn [rows truck_id remaining].
      - intros r1 r2 H1 H2 Es _ Hlt. now apply (Hfull r1 r2).
      - intros r Hr Es _. exfalso. apply (Hnew r Hr). left. now symmetry. }
    pose proof (for_items_ok _ _ _ H0 F) as [Hrows Hcur].
    pose proof (@for_items_fill _ _ _ _ _ _ _ H0 F0 F) as [Hoth Hfill].
    apply for_items_rows in F;
      [|apply stable_sort_sorted; [apply item_le_total|apply item_le_trans]].
    destruct F as [rs [E [_ Hrs]]]. cbn [rows] in E.
    apply IH.
    + intros r Hr. rewrite E in Hr. apply in_app_iff in Hr.
      destruct Hr as [Hr|Hr].
      * intro H. apply (Hnew r Hr). now right.
      * rewrite Forall_forall in Hrs. destruct (Hrs r Hr) as [it [_ Hr']].
        unfold row_of in Hr'. destruct Hr' as [-> _]. exact Hs.
    + exact Hrows.
    + intros r1 r2 H1 H2 Es Hlt.
      destruct (Z.eq_dec (OutputRow.supplier r1) s) as [E1|E1].
      * rewrite E1. apply Hfill; [exact H1|exact E1|]. left.
        assert (OutputRow.truck_id r2 < truck_id st).
        { apply (ok_ids Hrows). now apply in_ids. }
        lia.
      * now apply (Hoth r1 r2).
Qed.

(** X12: In a finished pack_trucks run every truck of a supplier except
    the last one of that supplier is filled exactly to the supplier's
    capacity: if two rows have the same supplier and the first has the
    smaller truck id, the rows of the first row's truck carry together
    exactly cap pallets. *)
Theorem trucks_full_except_last (fuel : nat) (items : list AllocationItem.t)
    (reserve : ReserveInfo.t) (template : option TemplateData.t)
    (options : RunOptions.t) (out : list OutputRow.t) :
  pack_trucks fuel items reserve template options = Some out ->
  forall r1 r2, In r1 out -> In r2 out ->
    OutputRow.supplier r1 = OutputRow.supplier r2 ->
    OutputRow.truck_id r1 < OutputRow.truck_id r2 ->
    load out (OutputRow.truck_id r1)
    = truck_capacity reserve options (OutputRow.supplier r1).
Proof.
  unfold pack_trucks, pack_trucks_counter.
  destruct (for_suppliers fuel reserve template options (group_items items)
              (stable_sort Z.leb (map fst (group_items items))) [] 1)
    as [[out' next']|] eqn:F; [|discriminate].
  intros [= <-].
  apply (for_suppliers_fill) in F.
  - exact F.
  - destruct (group_items_spec items) as [Hn _].
    eapply Permutation_NoDup; [|exact Hn].
    symmetry. apply stable_sort_perm.
  - intros r [].
  - apply rows_ok_init.
  - intros r1 r2 [].
Qed.

Lemma trucks_full_except_last_witness :
  load sample_rows
    (OutputRow.truck_id (hd (output_row 0 None (sample_item 0 0) 0 0) sample_rows))
  = truck_capacity sample_reserve RunOptions.default 7.
Proof.
  apply (@trucks_full_except_last 5 sample_items sample_reserve None
           RunOptions.default sample_rows (eq_refl _)
           (hd (output_row 0 None (sample_item 0 0) 0 0) sample_rows)
           (nth 3 sample_rows (output_row 0 None (sample_item 0 0) 0 0))).
  - left. reflexivity.
  - vm_compute. tauto.
  - vm_compute. reflexivity.
  - vm_compute. reflexivity.
Defined.

(** * When the packing loop ends *)

Lemma while_loop_skip (fuel : nat) (cap s : Z)
    (template : option TemplateData.t) (item : AllocationItem.t) (pl : Z)
    (st : PackState) :
  pl <= 0 -> while_loop fuel cap s template item pl st = Some st.
Proof.
  intro H. destruct fuel; [rewrite while_loop_O|rewrite while_loop_S];
    destruct (Z.ltb_spec 0 pl); try lia; reflexivity.
Qed.

Lemma for_items_halts (fuel : nat) (cap s : Z)
    (template : option TemplateData.t) (items : list AllocationItem.t)
    (st : PackState) :
  0 <= remaining st ->
  (forall it, In it items ->
     AllocationItem.supplier it = s
     /\ AllocationItem.pallets it <= Z.of_nat fuel
     /\ (0 < AllocationItem.pallets it -> 1 <= cap)) ->
  exists st', for_items fuel cap s template items st = Some st'
              /\ 0 <= remaining st'.
Proof.
  revert st. induction items as [|item rest IH]; intros st Hrem Hit.
  - exists st. split; [reflexivity|exact Hrem].
  - cbn [for_items].
    destruct (Hit item (or_introl eq_refl)) as [Hs [Hf Hc]].
    destruct (Z_le_gt_dec (AllocationItem.pallets item) 0) as [Hle|Hgt].
    + rewrite while_loop_skip by exact Hle.
      apply IH; [exact Hrem|]. intros it Hin. apply Hit. now right.
    + assert (Hcap : 1 <= cap) by (apply Hc; lia).
      destruct (@while_loop_terminates cap s template Hcap fuel item
                  (AllocationItem.pallets item) st Hrem Hf) as [st1 W].
      rewrite W.
      destruct (@while_loop_slice cap s template Hcap fuel item
                  (AllocationItem.pallets item) st st1 Hs Hrem W)
        as [rs [_ [_ [_ Hrem1]]]].
      apply IH; [exact Hrem1|]. intros it Hin. apply Hit. now right.
Qed.

Lemma for_suppliers_halts (fuel : nat) (reserve : ReserveInfo.t)
    (template : option TemplateData.t) (options : RunOptions.t)
    (grouped : dict Z (list AllocationItem.t)) (suppliers : list Z)
    (out : list OutputRow.t) (next : Z) :
  (forall s it, In s suppliers ->
     In it (dict_get_default Z.eqb grouped s []) ->
     AllocationItem.supplier it = s
     /\ AllocationItem.pallets it <= Z.of_nat fuel
     /\ (0 < AllocationItem.pallets it -> 1 <= truck_capacity reserve options s)) ->
  exists res,
    for_suppliers fuel reserve template options grouped suppliers out next
    = Some res.
Proof.
  revert out next. induction suppliers as [|s rest IH]; intros out next H.
  - eexists. reflexivity.
  - cbn [for_suppliers].
    destruct (@for_items_halts fuel (truck_capacity reserve options s) s template
                (stable_sort item_le (dict_get_default Z.eqb grouped s []))
                (mkPackState out next 0 0)) as [st [F _]].
    + cbn. lia.
    + intros it Hin. apply stable_sort_In in Hin.
      apply (H s it); [now left|exact Hin].
    + rewrite F. apply IH. intros s' it Hs' Hin. apply H; [now right|exact Hin].
Qed.

Lemma max0_sum_bound (items : list AllocationItem.t) (it : AllocationItem.t) :
  In it items ->
  AllocationItem.pallets it
  <= Z.of_nat (Z.to_nat (sum_Z (map (fun x => Z.max 0 (AllocationItem.pallets x))
                                   items))).
Proof.
  intro Hin.
  assert (F : Forall (fun y => 0 <= y)
                (map (fun x => Z.max 0 (AllocationItem.pallets x)) items)).
  { apply Forall_forall. intros y Hy. apply in_map_iff in Hy.
    destruct Hy as [x [<- _]]. lia. }
  assert (0 <= sum_Z (map (fun x => Z.max 0 (AllocationItem.pallets x)) items)).
  { clear -F. induction F; simpl; lia. }
  rewrite Z2Nat.id by assumption.
  assert (Z.max 0 (AllocationItem.pallets it)
          <= sum_Z (map (fun x => Z.max 0 (AllocationItem.pallets x)) items)).
  { apply le_sum_Z; [exact F|].
    apply (in_map (fun x => Z.max 0 (AllocationItem.pallets x))). exact Hin. }
  lia.
Qed.

(** In the model the packing ends exactly when every item that has pallets
    to pack has a capacity of at least 1. *)
Lemma pack_trucks_halts (items : list AllocationItem.t)
    (reserve : ReserveInfo.t) (template : option TemplateData.t)
    (options : RunOptions.t) :
  (exists fuel out,
     pack_trucks fuel items reserve template options = Some out)
  <-> (forall it, In it items -> 0 < AllocationItem.pallets it ->
         1 <= truck_capacity reserve options (AllocationItem.supplier it)).
Proof.
  split.
  - intros [fuel [out E]] it Hin Hpos.
    destruct (Z_le_gt_dec 1 (truck_capacity reserve options
                               (AllocationItem.supplier it))) as [H|H];
      [exact H|].
    rewrite (@pack_trucks_diverges fuel items reserve template options it)
      in E; [discriminate|exact Hin|exact Hpos|lia].
  - intro H.
    exists (Z.to_nat (sum_Z (map (fun x => Z.max 0 (AllocationItem.pallets x))
                               items))).
    unfold pack_trucks, pack_trucks_counter.
    destruct (@for_suppliers_halts
                (Z.to_nat (sum_Z (map (fun x => Z.max 0 (AllocationItem.pallets x))
                                    items)))
                reserve template options (group_items items)
                (stable_sort Z.leb (map fst (group_items items))) [] 1)
      as [res E].
    + intros s it _ Hin. apply in_group in Hin. destruct Hin as [Hs Hin].
      split; [exact Hs|]. split; [now apply max0_sum_bound|].
      intro Hpos. rewrite <- Hs. now apply H.
    + rewrite E. exists (fst res). reflexivity.
Qed.

(** X13: For items in the finite range (item_in_range: pallets < 2^1023
    and |pallets * pallet_weight| < 2^1023, so that no int-to-float
    conversion or volume overflows), pack_trucks returns if and only if
    every item with pallets > 0 has a supplier whose truck capacity
    (catalog entry, else default_truck_pallets) is at least 1; otherwise
    it does not return: the loop `while pallets_left > 0` of such an
    item never ends (with a capacity of magnitude 2^1024 or more the
    volume take * pallet_weight raises OverflowError instead). *)
Theorem pack_trucks_halts_iff (items : list AllocationItem.t)
    (reserve : ReserveInfo.t) (template : option TemplateData.t)
    (options : RunOptions.t) :
  forallb item_in_range items = true ->
  ((exists fuel out,
      pack_trucks fuel items reserve template options = Some out)
   <-> (forall it, In it items -> 0 < AllocationItem.pallets it ->
          1 <= truck_capacity reserve options (AllocationItem.supplier it))).
Proof. intros _. apply pack_trucks_halts. Qed.

Lemma pack_trucks_halts_iff_witness :
  exists fuel out,
    pack_trucks fuel sample_items sample_reserve None RunOptions.default
    = Some out.
Proof.
  apply (proj2 (@pack_trucks_halts_iff sample_items sample_reserve None
                  RunOptions.default eq_refl)).
  intros it [<-|[<-|[<-|[]]]] _; vm_compute; discriminate.
Defined.

(** X14: In the finite range (build_in_range for the demand, catalog and
    template; item_in_range for the allocation items), build_allocations
    followed by pack_trucks (the core of run_plan) returns if and only
    if the supplier of every allocation item has a truck capacity of at
    least 1 in the catalog given to build_allocations (its name
    back-fill does not touch max_pallets). *)
Theorem run_core_halts_iff (demand_rows : list DemandRow.t)
    (reserve : ReserveInfo.t) (template : option TemplateData.t)
    (options : RunOptions.t) :
  build_in_range demand_rows reserve template = true ->
  forallb item_in_range
    (fst (fst (build_allocations demand_rows reserve template options)))
  = true ->
  ((exists fuel out,
      run_core fuel demand_rows reserve template options = Some out)
   <-> (forall it,
          In it (fst (fst (build_allocations demand_rows reserve template
                             options))) ->
          1 <= truck_capacity reserve options (AllocationItem.supplier it))).
Proof.
  intros _ _. unfold run_core.
  pose proof (build_allocations_positive demand_rows reserve template options)
    as Hpos.
  pose proof (aggregate_max_pallets demand_rows reserve) as Hmax.
  rewrite build_allocations_outputs in *. cbn [fst snd] in *.
  rewrite pack_trucks_halts. unfold truck_capacity. rewrite Hmax.
  split.
  - intros H it Hin. apply H; [exact Hin|now apply Hpos].
  - intros H it Hin _. now apply H.
Qed.

Lemma run_core_halts_iff_witness :
  exists fuel out,
    run_core fuel [named_row] named_reserve (Some sample_template)
      RunOptions.default = Some out.
Proof.
  apply (proj2 (@run_core_halts_iff [named_row] named_reserve
                  (Some sample_template) RunOptions.default eq_refl eq_refl)).
  intros it Hin. vm_compute in Hin.
  destruct Hin as [<-|[<-|[]]]; vm_compute; discriminate.
Defined.

(** * The number of trucks of a supplier *)

Section Count.
Variable capf : Z -> Z.
Variable template : option TemplateData.t.
Variable s : Z.

Lemma while_body_count (item : AllocationItem.t) (pl : Z) (st : PackState) :
  1 <= capf s -> 0 < pl -> 0 <= remaining st < capf s ->
  0 <= fst (while_body (capf s) s template item pl st) < pl
  /\ 0 <= remaining (snd (while_body (capf s) s template item pl st)) < capf s
  /\ truck_id (snd (while_body (capf s) s template item pl st)) * capf s
     - remaining (snd (while_body (capf s) s template item pl st))
     = truck_id st * capf s - remaining st
       + (pl - fst (while_body (capf s) s template item pl st)).
Proof.
  intros Hcap Hpl Hrem. unfold while_body, open_truck.
  destruct (Z.eqb_spec (remaining st) 0) as [E|E];
    cbn [fst snd rows truck_id remaining current_truck]; lia.
Qed.

Lemma while_loop_count (fuel : nat) (item : AllocationItem.t) (pl : Z)
    (st st' : PackState) :
  1 <= capf s -> 0 <= remaining st < capf s ->
  while_loop fuel (capf s) s template item pl st = Some st' ->
  0 <= remaining st' < capf s
  /\ truck_id st' * capf s - remaining st'
     = truck_id st * capf s - remaining st + Z.max 0 pl.
Proof.
  intro Hcap. revert pl st. induction fuel as [|fuel IH]; intros pl st Hrem.
  - rewrite while_loop_O. destruct (Z.ltb_spec 0 pl); [discriminate|].
    intros [= <-]. lia.
  - rewrite while_loop_S. destruct (Z.ltb_spec 0 pl).
    + intro W.
      destruct (@while_body_count item pl st Hcap H Hrem) as [Hp [Hr Hq]].
      apply IH in W; [|exact Hr]. lia.
    + intros [= <-]. lia.
Qed.

Lemma for_items_count (fuel : nat) (items : list AllocationItem.t)
    (st st' : PackState) :
  1 <= capf s -> 0 <= remaining st < capf s ->
  for_items fuel (capf s) s template items st = Some st' ->
  0 <= remaining st' < capf s
  /\ truck_id st' * capf s - remaining st'
     = truck_id st * capf s - remaining st
       + sum_Z (map (fun it => Z.max 0 (AllocationItem.pallets it)) items).
Proof.
  intro Hcap. revert st. induction items as [|item rest IH]; intros st Hrem.
  - intros [= <-]. cbn. lia.
  - cbn [for_items].
    destruct (while_loop fuel (capf s) s template item
                (AllocationItem.pallets item) st) as [st1|] eqn:W; [|discriminate].
    intro F. apply while_loop_count in W; [|exact Hcap|exact Hrem].
    apply IH in F; [|tauto]. cbn [map sum_Z fold_right].
    unfold sum_Z in *. lia.
Qed.

(** The rows a supplier adds carry truck ids from [lo] up to the counter. *)
Lemma while_body_ids (lo : Z) (item : AllocationItem.t) (pl : Z)
    (st : PackState) :
  state_ok capf s st ->
  lo <= truck_id st -> (remaining st <> 0 -> lo < truck_id st) ->
  exists r,
    rows (snd (while_body (capf s) s template item pl st)) = rows st ++ [r]
    /\ OutputRow.supplier r = s
    /\ lo <= OutputRow.truck_id r
       < truck_id (snd (while_body (capf s) s template item pl st))
    /\ truck_id st <= truck_id (snd (while_body (capf s) s template item pl st)).
Proof.
  intros [_ Hcur] Hlo Hin. unfold while_body, open_truck.
  destruct (Z.eqb_spec (remaining st) 0) as [E|E];
    cbn [fst snd rows truck_id remaining current_truck];
    eexists; (split; [reflexivity|]);
    cbn [OutputRow.supplier OutputRow.truck_id output_row].
  - lia.
  - destruct (Hcur E) as [Ec _]. specialize (Hin E). lia.
Qed.

Lemma while_loop_ids (fuel : nat) (lo : Z) (item : AllocationItem.t) (pl : Z)
    (st st' : PackState) :
  state_ok capf s st ->
  lo <= truck_id st -> (remaining st <> 0 -> lo < truck_id st) ->
  while_loop fuel (capf s) s template item pl st = Some st' ->
  truck_id st <= truck_id st'
  /\ (remaining st' <> 0 -> lo < truck_id st')
  /\ exists rs, rows st' = rows st ++ rs
       /\ Forall (fun r => OutputRow.supplier r = s
                           /\ lo <= OutputRow.truck_id r < truck_id st') rs.
Proof.
  revert pl st. induction fuel as [|fuel IH]; intros pl st Hok Hlo Hin.
  - rewrite while_loop_O. destruct (0 <? pl); [discriminate|].
    intros [= <-]. split; [lia|]. split; [exact Hin|].
    exists []. now rewrite app_nil_r.
  - rewrite while_loop_S. destruct (0 <? pl).
    + intro W.
      destruct (@while_body_ids lo item pl st Hok Hlo Hin)
        as [r [Er [Hs [Hr Hmono]]]].
      apply IH in W; [|now apply while_body_ok|lia|lia].
      destruct W as [Hm [Hin' [rs [E F]]]].
      split; [lia|]. split; [exact Hin'|].
      exists (r :: rs). rewrite E, Er, <- app_assoc. split; [reflexivity|].
      constructor; [|exact F]. split; [exact Hs|lia].
    + intros [= <-]. split; [lia|]. split; [exact Hin|].
      exists []. now rewrite app_nil_r.
Qed.

Lemma for_items_ids (fuel : nat) (lo : Z) (items : list AllocationItem.t)
    (st st' : PackState) :
  state_ok capf s st ->
  lo <= truck_id st -> (remaining st <> 0 -> lo < truck_id st) ->
  for_items fuel (capf s) s template items st = Some st' ->
  truck_id st <= truck_id st'
  /\ exists rs, rows st' = rows st ++ rs
       /\ Forall (fun r => OutputRow.supplier r = s
                           /\ lo <= OutputRow.truck_id r < truck_id st') rs.
Proof.
  revert st. induction items as [|item rest IH]; intros st Hok Hlo Hin.
  - intros [= <-]. split; [lia|]. exists []. now rewrite app_nil_r.
  - cbn [for_items].
    destruct (while_loop fuel (capf s) s template item
                (AllocationItem.pallets item) st) as [st1|] eqn:W; [|discriminate].
    intro F. pose proof (@while_loop_ok _ _ _ _ _ _ _ _ Hok W) as Hok1.
    apply while_loop_ids with (lo := lo) in W; [|assumption..].
    destruct W as [Hm [Hin1 [rs1 [E1 F1]]]].
    apply IH in F; [|exact Hok1|lia|exact Hin1].
    destruct F as [Hm2 [rs2 [E2 F2]]].
    split; [lia|]. exists (rs1 ++ rs2). rewrite E2, E1, app_assoc.
    split; [reflexivity|]. apply Forall_app. split; [|exact F2].
    eapply Forall_impl; [|exact F1]. cbn. intros r [? ?]. split; [assumption|lia].
Qed.
End Count.

Lemma group_step_get (g : dict Z (list AllocationItem.t))
    (x : AllocationItem.t) (s : Z) :
  dict_get_default Z.eqb (group_step g x) s []
  = dict_get_default Z.eqb g s []
    ++ (if AllocationItem.supplier x =? s then [x] else []).
Proof.
  unfold group_step, dict_get_default.
  rewrite dict_get_update, (@dict_get_setdefault _ _ _ Z.eqb_eq).
  destruct (Z.eqb_spec (AllocationItem.supplier x) s) as [E|E].
  - destruct (dict_get Z.eqb g s); reflexivity.
  - destruct (dict_get Z.eqb g s); cbn; rewrite ?app_nil_r; reflexivity.
Qed.

Lemma group_fold_get (items : list AllocationItem.t)
    (g : dict Z (list AllocationItem.t)) (s : Z) :
  dict_get_default Z.eqb (fold_left group_step items g) s []
  = dict_get_default Z.eqb g s []
    ++ filter (fun it => AllocationItem.supplier it =? s) items.
Proof.
  revert g. induction items as [|x rest IH]; intro g; cbn [fold_left filter].
  - now rewrite app_nil_r.
  - rewrite IH, group_step_get, <- app_assoc.
    now destruct (AllocationItem.supplier x =? s).
Qed.

(** The group of a supplier holds its items in the order of the input. *)
Lemma group_items_get (items : list AllocationItem.t) (s : Z) :
  dict_get_default Z.eqb (group_items items) s []
  = filter (fun it => AllocationItem.supplier it =? s) items.
Proof. unfold group_items. now rewrite group_fold_get. Qed.

Lemma trucks_needed_unique (cap p n rem : Z) :
  1 <= cap -> 0 <= rem < cap -> n * cap - rem = p -> trucks_needed p cap = n.
Proof.
  intros Hcap Hrem E. unfold trucks_needed. symmetry.
  apply Z.div_unique with (r := cap - 1 - rem); [lia|nia].
Qed.

Lemma for_suppliers_count (fuel : nat) (reserve : ReserveInfo.t)
    (template : option TemplateData.t) (options : RunOptions.t)
    (grouped : dict Z (list AllocationItem.t)) (suppliers : list Z)
    (out out' : list OutputRow.t) (next next' : Z) :
  NoDup suppliers ->
  rows_ok (truck_capacity reserve options) out next ->
  for_suppliers fuel reserve template options grouped suppliers out next
  = Some (out', next') ->
  next <= next'
  /\ exists rs, out' = out ++ rs
       /\ Forall (fun r => In (OutputRow.supplier r) suppliers
                           /\ next <= OutputRow.truck_id r < next') rs
       /\ forall s, In s suppliers -> 1 <= truck_capacity reserve options s ->
            exists first,
              next <= first
              /\ first
                 + trucks_needed
                     (sum_Z (map (fun it => Z.max 0 (AllocationItem.pallets it))
                               (dict_get_default Z.eqb grouped s [])))
                     (truck_capacity reserve options s) <= next'
              /\ forall r, In r rs ->
                   (OutputRow.supplier r = s
                    <-> first <= OutputRow.truck_id r
                        < first
                          + trucks_needed
                              (sum_Z (map (fun it =>
                                             Z.max 0 (AllocationItem.pallets it))
                                        (dict_get_default Z.eqb grouped s [])))
                              (truck_capacity reserve options s)).
Proof.
  intro Hn. revert out next.
  induction Hn as [|s rest Hs Hrest IH]; intros out next Hok.
  - intros [= <- <-]. split; [lia|]. exists []. rewrite app_nil_r.
    split; [reflexivity|]. split; [constructor|]. intros s [].
  - cbn [for_suppliers].
    destruct (for_items fuel (truck_capacity reserve options s) s template
                (stable_sort item_le (dict_get_default Z.eqb grouped s []))
                (mkPackState out next 0 0)) as [st|] eqn:F; [|discriminate].
    assert (H0 : state_ok (truck_capacity reserve options) s
                   (mkPackState out next 0 0)).
    { constructor; simpl; [exact Hok|]. intro H. now elim H. }
    pose proof (@for_items_ok _ _ _ _ _ _ _ H0 F) as [Hrows _].
    pose proof F as Fids.
    apply for_items_ids with (lo := next) in Fids;
      [|exact H0|cbn; lia|cbn; lia].
    cbn [rows truck_id] in Fids. destruct Fids as [Hm [rs1 [E1 F1]]].
    intro H. apply IH in H; [|exact Hrows].
    destruct H as [Hm2 [rs2 [E2 [F2 Hcount]]]].
    split; [lia|]. exists (rs1 ++ rs2). rewrite E2, E1, app_assoc.
    split; [reflexivity|].
    rewrite Forall_forall in F1, F2. split.
    + apply Forall_forall. intros r Hr. apply in_app_iff in Hr.
      destruct Hr as [Hr|Hr].
      * destruct (F1 r Hr) as [Es Hid]. split; [left; now symmetry|lia].
      * destruct (F2 r Hr) as [Es Hid]. split; [now right|lia].
    + intros s' [<-|Hs'] Hcap.
      * (* the supplier just packed *)
        apply for_items_count in F; [|exact Hcap|cbn; lia].
        cbn [truck_id remaining] in F. destruct F as [Hrem Hq].
        assert (Hsum : sum_Z (map (fun it => Z.max 0 (AllocationItem.pallets it))
                                (stable_sort item_le
                                   (dict_get_default Z.eqb grouped s [])))
                       = sum_Z (map (fun it => Z.max 0 (AllocationItem.pallets it))
                                  (dict_get_default Z.eqb grouped s []))).
        { apply sum_Z_perm, Permutation_map, stable_sort_perm. }
        rewrite Hsum in Hq.
        assert (Hn : trucks_needed
                       (sum_Z (map (fun it => Z.max 0 (AllocationItem.pallets it))
                                 (dict_get_default Z.eqb grouped s [])))
                       (truck_capacity reserve options s)
                     = truck_id st - next).
        { apply trucks_needed_unique with (rem := remaining st);
            [exact Hcap|exact Hrem|lia]. }
        rewrite Hn. exists next. split; [lia|]. split; [lia|].
        intros r Hr. apply in_app_iff in Hr. destruct Hr as [Hr|Hr].
        { destruct (F1 r Hr) as [Es Hid]. split; [lia|tauto]. }
        { destruct (F2 r Hr) as [Es Hid]. split.
          - intro E. exfalso. apply Hs. now rewrite <- E.
          - lia. }
      * (* a later supplier *)
        destruct (Hcount s' Hs' Hcap) as [first [Hf1 [Hf2 Hiff]]].
        exists first. split; [lia|]. split; [exact Hf2|].
        intros r Hr. apply in_app_iff in Hr. destruct Hr as [Hr|Hr].
        { destruct (F1 r Hr) as [Es Hid]. split.
          - intro E. exfalso. apply Hs. congruence.
          - lia. }
        { now apply Hiff. }
Qed.

Lemma max0_sum (l : list AllocationItem.t) :
  (forall it, In it l -> 0 <= AllocationItem.pallets it) ->
  sum_Z (map (fun it => Z.max 0 (AllocationItem.pallets it)) l)
  = sum_Z (map AllocationItem.pallets l).
Proof.
  induction l as [|x l IH]; intro H; [reflexivity|].
  cbn [map]. unfold sum_Z in *. cbn [fold_right].
  rewrite IH by (intros; apply H; now right).
  specialize (H x (or_introl eq_refl)). lia.
Qed.

(** X15: Number of trucks: in a finished pack_trucks run (items with
    pallets >= 0) a supplier s with capacity cap >= 1 gets exactly
    ceil(P / cap) trucks, P being the pallets of all items of s; their
    ids are consecutive (first .. first + ceil(P/cap) - 1), each of them
    is used by a row, and exactly the rows of s carry them. *)
Theorem trucks_per_supplier (fuel : nat) (items : list AllocationItem.t)
    (reserve : ReserveInfo.t) (template : option TemplateData.t)
    (options : RunOptions.t) (out : list OutputRow.t) (next s : Z) :
  pack_trucks_counter fuel items reserve template options = Some (out, next) ->
  (forall it, In it items -> 0 <= AllocationItem.pallets it) ->
  1 <= truck_capacity reserve options s ->
  exists first,
    1 <= first
    /\ first + trucks_needed (supplier_pallets items s)
                 (truck_capacity reserve options s) <= next
    /\ (forall r, In r out ->
          (OutputRow.supplier r = s
           <-> first <= OutputRow.truck_id r
               < first + trucks_needed (supplier_pallets items s)
                           (truck_capacity reserve options s)))
    /\ (forall t,
          first <= t < first + trucks_needed (supplier_pallets items s)
                                 (truck_capacity reserve options s) ->
          exists r, In r out /\ OutputRow.truck_id r = t).
Proof.
  intros E Hnn Hcap.
  pose proof (pack_trucks_counter_ok _ _ _ _ _ E) as Hok.
  assert (Hused : forall first n, 1 <= first -> first + n <= next ->
            forall t, first <= t < first + n ->
              exists r, In r out /\ OutputRow.truck_id r = t).
  { intros first n H1 H2 t Ht.
    assert (Hin : In t (ids out)) by (apply (ok_ids Hok); lia).
    unfold ids in Hin. apply in_map_iff in Hin.
    destruct Hin as [r [Er Hr]]. exists r. tauto. }
  unfold pack_trucks_counter in E.
  apply for_suppliers_count in E; [|destruct (group_items_spec items) as [Hn _];
       eapply Permutation_NoDup; [symmetry; apply stable_sort_perm|exact Hn]
      |apply rows_ok_init].
  destruct E as [Hnext [rs [-> [Hrs Hcount]]]]. cbn [app] in *.
  unfold supplier_pallets. rewrite <- group_items_get.
  rewrite <- max0_sum
    by (intros it Hit; apply in_group in Hit; apply Hnn; tauto).
  destruct (in_dec Z.eq_dec s (stable_sort Z.leb (map fst (group_items items))))
    as [Hin|Hout].
  - destruct (Hcount s Hin Hcap) as [first [H1 [H2 Hiff]]].
    exists first. split; [lia|]. split; [exact H2|]. split; [exact Hiff|].
    apply Hused; [lia|exact H2].
  - assert (Hempty : dict_get_default Z.eqb (group_items items) s [] = []).
    { rewrite group_items_get.
      destruct (filter (fun it => AllocationItem.supplier it =? s) items)
        as [|x l] eqn:Ef; [reflexivity|].
      exfalso. apply Hout. apply stable_sort_In.
      assert (Hx : In x (filter (fun it => AllocationItem.supplier it =? s) items))
        by (rewrite Ef; now left).
      apply filter_In in Hx. destruct Hx as [Hx Es]. apply Z.eqb_eq in Es.
      rewrite <- Es. now apply group_of_item. }
    rewrite Hempty. cbn [map]. unfold sum_Z, trucks_needed. cbn [fold_right].
    replace ((0 + truck_capacity reserve options s - 1)
             / truck_capacity reserve options s) with 0
      by (symmetry; apply Z.div_small; lia).
    exists 1. split; [lia|]. split; [lia|]. split.
    + intros r Hr. rewrite Forall_forall in Hrs. destruct (Hrs r Hr) as [Hk _].
      split; [|lia]. intro Es. exfalso. apply Hout. now rewrite <- Es.
    + intros t Ht. lia.
Qed.

Lemma trucks_per_supplier_witness :
  exists first,
    1 <= first
    /\ first + trucks_needed (supplier_pallets sample_items 7)
                 (truck_capacity sample_reserve RunOptions.default 7) <= 5
    /\ (forall r, In r sample_rows ->
          (OutputRow.supplier r = 7
           <-> first <= OutputRow.truck_id r
               < first + trucks_needed (supplier_pallets sample_items 7)
                           (truck_capacity sample_reserve RunOptions.default 7)))
    /\ (forall t,
          first <= t < first + trucks_needed (supplier_pallets sample_items 7)
                                 (truck_capacity sample_reserve
                                    RunOptions.default 7) ->
          exists r, In r sample_rows /\ OutputRow.truck_id r = t).
Proof.
  apply (@trucks_per_supplier 5 sample_items sample_reserve None
           RunOptions.default sample_rows 5 7).
  - vm_compute. reflexivity.
  - intros it [<-|[<-|[<-|[]]]]; vm_compute; discriminate.
  - vm_compute. discriminate.
Defined.

(** * The written sheet *)

Lemma output_le_spec (x y : OutputRow.t) :
  output_le x y = true
  <-> (OutputRow.date x < OutputRow.date y
       \/ (OutputRow.date x = OutputRow.date y
           /\ (OutputRow.supplier x < OutputRow.supplier y
               \/ (OutputRow.supplier x = OutputRow.supplier y
                   /\ (OutputRow.truck_id x < OutputRow.truck_id y
                       \/ (OutputRow.truck_id x = OutputRow.truck_id y
                           /\ (OutputRow.rc x < OutputRow.rc y
                               \/ (OutputRow.rc x = OutputRow.rc y
                                   /\ OutputRow.plu x <= OutputRow.plu y)))))))).
Proof.
  unfold output_le.
  rewrite !orb_true_iff, !andb_true_iff, !orb_true_iff, !andb_true_iff,
    !orb_true_iff, !andb_true_iff, !orb_true_iff, !andb_true_iff,
    !Z.ltb_lt, !Z.eqb_eq, Z.leb_le. tauto.
Qed.

(** X16: write_output appends the 13 header cells and then one line per
    output row: the lines are a permutation of the rows (none lost, none
    duplicated), ordered by (date, supplier, truck_id, rc, plu) with
    rows of equal key in their input order; every line has 13 cells, the
    last one empty. *)
Theorem write_output_sheet (rows : list OutputRow.t) :
  exists body,
    write_output rows = map CStr headers :: map row_cells body
    /\ Permutation body rows
    /\ StronglySorted (fun a b => output_le a b = true) body
    /\ (forall a b, before a b rows -> output_le a b = true -> before a b body)
    /\ Forall (fun line => List.length line = 13%nat /\ last line (CInt 0) = CNone
                           \/ line = map CStr headers)
         (write_output rows).
Proof.
  exists (stable_sort output_le rows). split; [reflexivity|].
  split; [apply stable_sort_perm|]. split.
  - apply stable_sort_sorted.
    + intros a b. rewrite !output_le_spec. lia.
    + intros a b c. rewrite !output_le_spec. lia.
  - split.
    + intros a b. apply stable_sort_before.
    + unfold write_output. constructor; [now right|].
      apply Forall_forall. intros line Hl. apply in_map_iff in Hl.
      destruct Hl as [r [<- _]]. left. split; reflexivity.
Qed.

(** * The stock quantities *)

Lemma aggregate_step_with_reserve (q : dict (Z * Z) float)
    (acc : dict key float * ReserveInfo.t) (row : DemandRow.t) :
  aggregate_step (fst acc, with_reserve q (snd acc)) row
  = (fst (aggregate_step acc row),
     with_reserve q (snd (aggregate_step acc row))).
Proof. destruct acc as [d r]. reflexivity. Qed.

Lemma aggregate_fold_with_reserve (q : dict (Z * Z) float)
    (demand_rows : list DemandRow.t) (acc : dict key float * ReserveInfo.t) :
  fold_left aggregate_step demand_rows (fst acc, with_reserve q (snd acc))
  = (fst (fold_left aggregate_step demand_rows acc),
     with_reserve q (snd (fold_left aggregate_step demand_rows acc))).
Proof.
  revert acc. induction demand_rows as [|row rest IH]; intro acc; cbn [fold_left].
  - reflexivity.
  - rewrite aggregate_step_with_reserve.
    apply (IH (aggregate_step acc row)).
Qed.

Lemma aggregate_with_reserve (q : dict (Z * Z) float)
    (demand_rows : list DemandRow.t) (reserve : ReserveInfo.t) :
  aggregate demand_rows (with_reserve q reserve)
  = (fst (aggregate demand_rows reserve),
     with_reserve q (snd (aggregate demand_rows reserve))).
Proof. apply (aggregate_fold_with_reserve q demand_rows ([], reserve)). Qed.

Lemma build_allocations_with_reserve (q : dict (Z * Z) float)
    (demand_rows : list DemandRow.t) (reserve : ReserveInfo.t)
    (template : option TemplateData.t) (options : RunOptions.t) :
  build_allocations demand_rows (with_reserve q reserve) template options
  = (fst (fst (build_allocations demand_rows reserve template options)),
     with_reserve q
       (snd (fst (build_allocations demand_rows reserve template options))),
     snd (build_allocations demand_rows reserve template options)).
Proof.
  rewrite !build_allocations_outputs. cbn [fst snd].
  rewrite aggregate_with_reserve. cbn [fst snd]. reflexivity.
Qed.

Lemma for_suppliers_with_reserve (q : dict (Z * Z) float) (fuel : nat)
    (reserve : ReserveInfo.t) (template : option TemplateData.t)
    (options : RunOptions.t) (grouped : dict Z (list AllocationItem.t))
    (suppliers : list Z) (out : list OutputRow.t) (next : Z) :
  for_suppliers fuel (with_reserve q reserve) template options grouped
    suppliers out next
  = for_suppliers fuel reserve template options grouped suppliers out next.
Proof.
  revert out next.
  induction suppliers as [|s rest IH]; intros out next; cbn [for_suppliers];
    [reflexivity|].
  change (truck_capacity (with_reserve q reserve) options s)
    with (truck_capacity reserve options s).
  destruct (for_items _ _ _ _ _ _); [apply IH|reflexivity].
Qed.

(** X17: The stock quantities reserve.reserve[(supplier, plu)] are never
    read: replacing them by any other mapping changes neither the items
    of build_allocations nor the rows (or the non-termination) of
    pack_trucks after it. *)
Theorem stock_quantities_unused (q : dict (Z * Z) float) (fuel : nat)
    (demand_rows : list DemandRow.t) (reserve : ReserveInfo.t)
    (template : option TemplateData.t) (options : RunOptions.t) :
  fst (fst (build_allocations demand_rows (with_reserve q reserve) template
              options))
  = fst (fst (build_allocations demand_rows reserve template options))
  /\ run_core fuel demand_rows (with_reserve q reserve) template options
     = run_core fuel demand_rows reserve template options.
Proof.
  unfold run_core. rewrite build_allocations_with_reserve.
  split; [reflexivity|].
  destruct (build_allocations demand_rows reserve template options)
    as [[items reserve'] template']. cbn [fst snd].
  unfold pack_trucks, pack_trucks_counter.
  now rewrite for_suppliers_with_reserve.
Qed.

(** * The loaders *)

Lemma bind_Ok (A B : Type) (m : outcome A) (k : A -> outcome B) (b : B) :
  bind m k = Ok b -> exists a, m = Ok a /\ k a = Ok b.
Proof. destruct m as [a| |]; cbn; [eauto|discriminate..]. Qed.

Lemma for_each_inv (A S : Type) (P : S -> Prop) (body : S -> A -> outcome S)
    (l : list A) (s s' : S) :
  (forall s x s', P s -> In x l -> body s x = Ok s' -> P s') ->
  P s -> for_each body l s = Ok s' -> P s'.
Proof.
  revert s. induction l as [|x r IH]; intros s Hstep Hs; cbn [for_each].
  - now intros [= <-].
  - intro H. apply bind_Ok in H. destruct H as [s1 [H1 H2]].
    apply (IH s1); [| |exact H2].
    + intros t y t' Ht Hy. apply Hstep; [exact Ht|now right].
    + apply (Hstep s x); [exact Hs|now left|exact H1].
Qed.

Section DictValues.
Variables K V : Type.
Variable eqb : K -> K -> bool.
Hypothesis eqb_eq : forall a b, eqb a b = true <-> a = b.

Lemma eqb_refl_true (k : K) : eqb k k = true.
Proof. now apply eqb_eq. Qed.

Lemma eqb_false (a b : K) : a <> b -> eqb a b = false.
Proof.
  intro H. destruct (eqb a b) eqn:E; [|reflexivity].
  apply eqb_eq in E. contradiction.
Qed.

Lemma dict_get_update_any (f : V -> V) (d : dict K V) (k k' : K) :
  dict_get eqb (dict_update eqb d k f) k'
  = if eqb k k' then option_map f (dict_get eqb d k') else dict_get eqb d k'.
Proof.
  induction d as [|[k0 v0] r IH]; cbn [dict_update dict_get].
  - now destruct (eqb k k').
  - destruct (eqb k0 k) eqn:E; cbn [dict_get].
    + apply eqb_eq in E. subst k0. destruct (eqb k k'); reflexivity.
    + rewrite IH. destruct (eqb k0 k') eqn:E'; [|reflexivity].
      apply eqb_eq in E'. subst k0. destruct (eqb k k') eqn:E2; [|reflexivity].
      apply eqb_eq in E2. subst k'. rewrite eqb_refl_true in E. discriminate.
Qed.

Lemma dict_get_app (d d' : dict K V) (k : K) :
  dict_get eqb (d ++ d') k
  = match dict_get eqb d k with
    | Some v => Some v
    | None => dict_get eqb d' k
    end.
Proof.
  induction d as [|[k0 v0] r IH]; cbn [app dict_get]; [reflexivity|].
  now destruct (eqb k0 k).
Qed.

Lemma dict_get_set (d : dict K V) (k : K) (v : V) (k' : K) :
  dict_get eqb (dict_set eqb d k v) k'
  = if eqb k k' then Some v else dict_get eqb d k'.
Proof.
  unfold dict_set, dict_mem.
  destruct (dict_get eqb d k) as [v0|] eqn:G.
  - rewrite dict_get_update_any. destruct (eqb k k') eqn:E; [|reflexivity].
    apply eqb_eq in E. subst k'. now rewrite G.
  - rewrite dict_get_app. cbn [dict_get].
    destruct (eqb k k') eqn:E.
    + apply eqb_eq in E. subst k'. now rewrite G.
    + now destruct (dict_get eqb d k').
Qed.

Lemma dict_get_Some_In (d : dict K V) (k : K) (v : V) :
  dict_get eqb d k = Some v -> In (k, v) d.
Proof.
  induction d as [|[k0 v0] r IH]; cbn [dict_get]; [discriminate|].
  destruct (eqb k0 k) eqn:E.
  - apply eqb_eq in E. subst k0. intros [= ->]. now left.
  - intro H. right. now apply IH.
Qed.

Lemma dict_get_None_keys (d : dict K V) (k : K) :
  dict_get eqb d k = None <-> ~ In k (map fst d).
Proof.
  induction d as [|[k0 v0] r IH]; cbn [dict_get map fst In]; [tauto|].
  destruct (eqb k0 k) eqn:E.
  - apply eqb_eq in E. split; [discriminate|]. intro H. exfalso. auto.
  - rewrite IH. split; [|tauto]. intros H [H'|H']; [|auto].
    apply eqb_eq in H'. congruence.
Qed.
End DictValues.

Lemma pair_eqb_eq (a b : Z * Z) : pair_eqb a b = true <-> a = b.
Proof.
  destruct a as [a1 a2], b as [b1 b2]. unfold pair_eqb. cbn [fst snd].
  rewrite andb_true_iff, !Z.eqb_eq. split; [intros [-> ->]|intros [= -> ->]]; auto.
Qed.

Ltac bind_inv H :=
  repeat (apply bind_Ok in H;
          let a := fresh "a" in
          let E := fresh "E" in
          destruct H as [a [E H]]).

Lemma dict_mem_set (K V : Type) (eqb : K -> K -> bool)
    (eqb_eq : forall a b, eqb a b = true <-> a = b)
    (d : dict K V) (k : K) (v : V) (k' : K) :
  dict_mem eqb (dict_set eqb d k v) k' = eqb k k' || dict_mem eqb d k'.
Proof.
  unfold dict_mem at 1. rewrite (@dict_get_set _ _ _ eqb_eq).
  destruct (eqb k k'); [reflexivity|]. reflexivity.
Qed.

Lemma suppliers_append_get (sbp : dict Z (list Z)) (p s p' : Z) :
  dict_get Z.eqb
    (dict_update Z.eqb (dict_setdefault Z.eqb sbp p []) p (fun l => l ++ [s])) p'
  = if p =? p'
    then Some (dict_get_default Z.eqb sbp p' [] ++ [s])
    else dict_get Z.eqb sbp p'.
Proof.
  rewrite (@dict_get_update_any _ _ _ Z.eqb_eq), (@dict_get_setdefault _ _ _ Z.eqb_eq).
  unfold dict_get_default.
  destruct (Z.eqb_spec p p'); destruct (dict_get Z.eqb sbp p'); reflexivity.
Qed.

Lemma reserve_row_ok (ops : StrOps) (cm : dict string nat)
    (info info' : ReserveInfo.t) (row : list cell) :
  catalog_ok info -> reserve_row ops cm info row = Ok info' -> catalog_ok info'.
Proof.
  intros [Hcap Hw Hres Hsup Hsn Hpn Hrc] H. unfold reserve_row in H.
  bind_inv H. injection H as <-.
  set (supplier := _to_int ops a0 0) in *.
  set (plu := _to_int ops a3 0) in *.
  constructor; cbn [ReserveInfo.max_pallets ReserveInfo.pallet_weight
                    ReserveInfo.reserve ReserveInfo.suppliers_by_plu
                    ReserveInfo.supplier_name ReserveInfo.plu_name
                    ReserveInfo.rc_name].
  - intros s c.
    destruct (Z.eqb_spec supplier 0); cbn [negb andb]; [apply Hcap|].
    destruct (Z.eqb_spec a7 0); cbn [negb]; [apply Hcap|].
    rewrite (@dict_get_set _ _ _ Z.eqb_eq).
    destruct (Z.eqb_spec supplier s); [|apply Hcap].
    intros [= <-]. subst s. split; assumption.
  - intros p w.
    destruct (Z.eqb_spec plu 0); cbn [negb andb]; [apply Hw|].
    destruct (Qeq_bool a8 0) eqn:Eq; cbn [negb]; [apply Hw|].
    rewrite (@dict_get_set _ _ _ Z.eqb_eq).
    destruct (Z.eqb_spec plu p); [|apply Hw].
    intros [= <-]. subst p. split; [assumption|now apply Qeq_bool_neq].
  - intros s p q.
    destruct (Z.eqb_spec supplier 0) as [Es|Es]; cbn [negb andb];
      [apply Hres|].
    destruct (Z.eqb_spec plu 0) as [Ep|Ep]; cbn [negb andb]; [apply Hres|].
    destruct (Qeq_bool a5 0) eqn:Eq; cbn [negb]; [apply Hres|].
    rewrite (@dict_get_set _ _ _ pair_eqb_eq).
    destruct (pair_eqb (supplier, plu) (s, p)) eqn:Ek.
    + apply pair_eqb_eq in Ek. injection Ek as <- <-. intros [= <-].
      split; [exact Es|]. split; [exact Ep|].
      split; [now apply Qeq_bool_neq|].
      rewrite suppliers_append_get, Z.eqb_refl. eexists. split; [reflexivity|].
      apply in_or_app. right. now left.
    + intro G. destruct (Hres s p q G) as [Hs [Hp [Hq [l [Gl Hin]]]]].
      split; [exact Hs|]. split; [exact Hp|]. split; [exact Hq|].
      rewrite suppliers_append_get. destruct (Z.eqb_spec plu p) as [->|Hne].
      * eexists. split; [reflexivity|]. unfold dict_get_default. rewrite Gl.
        apply in_or_app. now left.
      * exists l. split; assumption.
  - intros p l.
    destruct (Z.eqb_spec supplier 0) as [Es|Es]; cbn [negb andb];
      [apply Hsup|].
    destruct (Z.eqb_spec plu 0) as [Ep|Ep]; cbn [negb andb]; [apply Hsup|].
    destruct (Qeq_bool a5 0) eqn:Eq; cbn [negb]; [apply Hsup|].
    rewrite suppliers_append_get. destruct (Z.eqb_spec plu p) as [<-|Hne].
    + intros [= <-]. split; [exact Ep|]. split.
      { intro H. now apply app_eq_nil in H as [_ H]. }
      intros s Hs. apply in_app_iff in Hs. rewrite (@dict_mem_set _ _ _ pair_eqb_eq).
      destruct Hs as [Hs|[<-|[]]].
      * unfold dict_get_default in Hs.
        destruct (dict_get Z.eqb (ReserveInfo.suppliers_by_plu info) plu)
          as [l0|] eqn:G; [|destruct Hs].
        destruct (Hsup plu l0 G) as [_ [_ H]]. destruct (H s Hs) as [H1 H2].
        split; [exact H1|]. rewrite H2. apply orb_true_r.
      * split; [exact Es|].
        replace (pair_eqb (supplier, plu) (supplier, plu)) with true
          by (symmetry; now apply pair_eqb_eq).
        reflexivity.
    + intro G. destruct (Hsup p l G) as [Hp [Hl H]].
      split; [exact Hp|]. split; [exact Hl|]. intros s Hs.
      destruct (H s Hs) as [H1 H2]. split; [exact H1|].
      rewrite (@dict_mem_set _ _ _ pair_eqb_eq), H2. apply orb_true_r.
  - intros s n.
    destruct (Z.eqb_spec supplier 0); cbn [negb andb]; [apply Hsn|].
    destruct (nonempty a1) eqn:En; [|apply Hsn].
    rewrite (@dict_get_set _ _ _ Z.eqb_eq).
    destruct (Z.eqb_spec supplier s); [|apply Hsn].
    intros [= <-]. subst s. split; assumption.
  - intros p n.
    destruct (Z.eqb_spec plu 0); cbn [negb andb]; [apply Hpn|].
    destruct (nonempty a4) eqn:En; [|apply Hpn].
    rewrite (@dict_get_set _ _ _ Z.eqb_eq).
    destruct (Z.eqb_spec plu p); [|apply Hpn].
    intros [= <-]. subst p. split; assumption.
  - exact Hrc.
Qed.

Lemma for_each_load (A S : Type) (P : S -> Prop) (body : S -> A -> outcome S)
    (l : list A) (s s' : S) :
  (forall s x s', P s -> body s x = Ok s' -> P s') ->
  P s -> for_each body l s = Ok s' -> P s'.
Proof. intro H. apply for_each_inv. intros t x t' Ht _. now apply H. Qed.

Lemma catalog_ok_empty : catalog_ok (ReserveInfo.mk [] [] [] [] [] [] []).
Proof. constructor; cbn; try discriminate. reflexivity. Qed.

Lemma load_reserve_ok (ops : StrOps) (ws : list (list cell))
    (info : ReserveInfo.t) :
  load_reserve ops ws = Ok info -> catalog_ok info.
Proof.
  unfold load_reserve. destruct ws as [|header data]; [discriminate|].
  destruct (negb _ || negb _); [discriminate|].
  apply for_each_load with (P := catalog_ok); [|apply catalog_ok_empty].
  intros s x s'. apply reserve_row_ok.
Qed.

(** ** The template loader *)

Lemma dict_update_const_sum (d : dict Z Z) (k w : Z) :
  In k (map fst d) ->
  sum_Z (map snd (dict_update Z.eqb d k (fun _ => w)))
  = sum_Z (map snd d) - dict_get_default Z.eqb d k 0 + w.
Proof.
  unfold dict_get_default.
  induction d as [|[k0 v0] r IH]; cbn [map fst In]; [tauto|].
  intro H. cbn [dict_update dict_get]. destruct (Z.eqb_spec k0 k) as [E|E].
  - cbn [map snd]. unfold sum_Z. cbn [fold_right]. lia.
  - destruct H as [H|H]; [contradiction|].
    cbn [map snd]. unfold sum_Z in *. cbn [fold_right]. rewrite (IH H). lia.
Qed.

Lemma dict_set_add_sum (d : dict Z Z) (k c : Z) :
  sum_Z (map snd (dict_set Z.eqb d k (dict_get_default Z.eqb d k 0 + c)))
  = sum_Z (map snd d) + c.
Proof.
  unfold dict_set. destruct (dict_mem Z.eqb d k) eqn:M.
  - rewrite dict_update_const_sum by now apply dict_mem_In. lia.
  - unfold dict_mem in M. unfold dict_get_default.
    destruct (dict_get Z.eqb d k); [discriminate|].
    rewrite map_app, sum_Z_app. cbn. lia.
Qed.

Lemma dict_set_nonempty (K V : Type) (eqb : K -> K -> bool) (d : dict K V)
    (k : K) (v : V) :
  dict_set eqb d k v <> [].
Proof.
  unfold dict_set, dict_mem. destruct d as [|[k0 v0] r]; cbn.
  - discriminate.
  - destruct (eqb k0 k); cbn; [discriminate|].
    destruct (dict_get eqb r k); cbn; [|discriminate].
    destruct (eqb k0 k); discriminate.
Qed.

Lemma dict_setdefault_nodup (K V : Type) (eqb : K -> K -> bool)
    (eqb_eq : forall a b, eqb a b = true <-> a = b)
    (d : dict K V) (k : K) (v : V) :
  NoDup (map fst d) -> NoDup (map fst (dict_setdefault eqb d k v)).
Proof.
  intro H. unfold dict_setdefault. destruct (dict_mem eqb d k) eqn:M; [exact H|].
  rewrite map_app. cbn.
  apply NoDup_app; [exact H|repeat constructor; cbn; tauto|].
  intros x Hx [<-|[]]. apply (@dict_mem_iff _ _ _ eqb_eq) in Hx. congruence.
Qed.

Lemma template_ok_empty : template_ok (TemplateData.mk [] [] [] [] [] []).
Proof. constructor; cbn; try discriminate. constructor. Qed.

Lemma add_pallets_ok (supplier pallets : Z) (entry : TemplateEntry.t) :
  TemplateEntry.total_pallets entry
  = sum_Z (map snd (TemplateEntry.pallets_by_supplier entry)) ->
  NoDup (map fst (TemplateEntry.pallets_by_supplier entry)) ->
  TemplateEntry.base_demand entry = 0 ->
  let entry' := add_pallets supplier pallets entry in
  TemplateEntry.total_pallets entry'
  = sum_Z (map snd (TemplateEntry.pallets_by_supplier entry'))
  /\ NoDup (map fst (TemplateEntry.pallets_by_supplier entry'))
  /\ TemplateEntry.pallets_by_supplier entry' <> []
  /\ TemplateEntry.base_demand entry' = 0.
Proof.
  intros Ht Hn Hb. unfold add_pallets. cbn.
  rewrite dict_set_add_sum, Ht. split; [reflexivity|].
  split; [now apply (@dict_set_nodup _ _ _ Z.eqb_eq)|].
  split; [apply dict_set_nonempty|exact Hb].
Qed.

Lemma template_row_ok (ops : StrOps) (cm : dict string nat)
    (data data' : TemplateData.t) (row : list cell) :
  template_ok data -> template_row ops cm data row = Ok data' ->
  template_ok data'.
Proof.
  intros [Hkeys Hentry Hsh Hw Hsn Hpn Hrn] H. unfold template_row in H.
  apply bind_Ok in H. destruct H as [i0 [_ H]].
  apply bind_Ok in H. destruct H as [c0 [_ H]].
  destruct (_to_date ops c0) as [date|].
  2:{ injection H as <-. now constructor. }
  bind_inv H. injection H as <-.
  set (supplier := _to_int ops a0 0) in *.
  set (plu := _to_int ops a5 0) in *.
  set (rc := _to_int ops a10 0) in *.
  set (shoulder := _to_int ops a18 0) in *.
  constructor; cbn [TemplateData.entries TemplateData.shoulder_map
                    TemplateData.pallet_weight TemplateData.supplier_name
                    TemplateData.plu_name TemplateData.rc_name].
  - rewrite (@dict_update_same_keys _ _ key_eqb).
    now apply (@dict_setdefault_nodup _ _ _ key_eqb_eq).
  - intros k entry.
    rewrite (@dict_get_update_any _ _ _ key_eqb_eq),
      (@dict_get_setdefault _ _ _ key_eqb_eq).
    destruct (key_eqb (rc, plu, date) k) eqn:Ek.
    + destruct (dict_get key_eqb (TemplateData.entries data) k) as [e0|] eqn:G;
        cbn [option_map]; intros [= <-].
      * destruct (Hentry k e0 G) as [H1 [H2 [_ H4]]].
        now apply add_pallets_ok.
      * apply add_pallets_ok; [reflexivity|constructor|reflexivity].
    + destruct (dict_get key_eqb (TemplateData.entries data) k) as [e0|] eqn:G;
        [|discriminate].
      intros [= <-]. exact (Hentry k e0 G).
  - intros s r v.
    destruct (Z.eqb_spec supplier 0) as [Es|Es]; cbn [negb andb]; [apply Hsh|].
    destruct (Z.eqb_spec rc 0) as [Er|Er]; cbn [negb andb]; [apply Hsh|].
    destruct (Z.eqb_spec shoulder 0) as [Eh|Eh]; cbn [negb]; [apply Hsh|].
    rewrite (@dict_get_setdefault _ _ _ pair_eqb_eq).
    destruct (dict_get pair_eqb (TemplateData.shoulder_map data) (s, r))
      as [v0|] eqn:G.
    + intros [= <-]. now apply Hsh.
    + destruct (pair_eqb (supplier, rc) (s, r)) eqn:Ek; [|discriminate].
      apply pair_eqb_eq in Ek. injection Ek as <- <-. intros [= <-]. tauto.
  - intros p w. destruct (Qeq_bool _ 0) eqn:Eq; cbn [negb]; [apply Hw|].
    rewrite (@dict_get_set _ _ _ Z.eqb_eq).
    destruct (Z.eqb_spec plu p); [|apply Hw].
    intros [= <-]. now apply Qeq_bool_neq.
  - intros s n. destruct (nonempty a3) eqn:En; [|apply Hsn].
    rewrite (@dict_get_set _ _ _ Z.eqb_eq).
    destruct (Z.eqb_spec supplier s); [|apply Hsn]. now intros [= <-].
  - intros p n. destruct (nonempty a8) eqn:En; [|apply Hpn].
    rewrite (@dict_get_set _ _ _ Z.eqb_eq).
    destruct (Z.eqb_spec plu p); [|apply Hpn]. now intros [= <-].
  - intros r n. destruct (nonempty a13) eqn:En; [|apply Hrn].
    rewrite (@dict_get_set _ _ _ Z.eqb_eq).
    destruct (Z.eqb_spec rc r); [|apply Hrn]. now intros [= <-].
Qed.

Lemma load_template_ok (ops : StrOps) (ws : list (list cell))
    (data : TemplateData.t) :
  load_template ops ws = Ok data -> template_ok data.
Proof.
  unfold load_template. destruct ws as [|header rows]; [discriminate|].
  intro H. apply bind_Ok in H. destruct H as [_ [_ H]]. revert H.
  apply for_each_load with (P := template_ok); [|apply template_ok_empty].
  intros s x s'. apply template_row_ok.
Qed.

(** ** The demand loader *)

Lemma getitem_In (row : list cell) (idx : nat) (c : cell) :
  getitem row idx = Ok c -> In c row.
Proof.
  unfold getitem. destruct (nth_error row idx) as [c'|] eqn:E; [|discriminate].
  intros [= <-]. eapply nth_error_In; eassumption.
Qed.

Lemma demand_cell_ok (ops : StrOps) (header row : list cell) (rc : Z)
    (rc_name : string) (plu : Z) (plu_name : string)
    (rows rows' : list DemandRow.t) (idx : nat) :
  Forall (fun r => (0 < DemandRow.qty r)%Q
                   /\ exists h, In h header
                        /\ _to_date ops h = Some (DemandRow.date r)) rows ->
  demand_cell ops header row rc rc_name plu plu_name rows idx = Ok rows' ->
  Forall (fun r => (0 < DemandRow.qty r)%Q
                   /\ exists h, In h header
                        /\ _to_date ops h = Some (DemandRow.date r)) rows'.
Proof.
  intros Hrows H. unfold demand_cell in H.
  apply bind_Ok in H. destruct H as [c [_ H]].
  apply bind_Ok in H. destruct H as [qty [_ H]].
  destruct (Qle_bool qty 0) eqn:Eq.
  - now injection H as <-.
  - apply bind_Ok in H. destruct H as [h [Eh H]].
    destruct (_to_date ops h) as [date|] eqn:Ed.
    + injection H as <-. apply Forall_app. split; [exact Hrows|].
      constructor; [|constructor]. cbn. split.
      * apply Qnot_le_lt. intro Hle. apply Qle_bool_iff in Hle. congruence.
      * exists h. split; [eapply getitem_In; eassumption|exact Ed].
    + now injection H as <-.
Qed.

Lemma load_demand_ok (ops : StrOps) (ws : list (list cell))
    (rows : list DemandRow.t) :
  load_demand ops ws = Ok rows ->
  Forall (fun r => (0 < DemandRow.qty r)%Q
                   /\ exists h, In h (hd [] ws)
                        /\ _to_date ops h = Some (DemandRow.date r)) rows.
Proof.
  unfold load_demand. destruct ws as [|header data]; [discriminate|].
  intro H. apply bind_Ok in H. destruct H as [_ [_ H]].
  apply bind_Ok in H. destruct H as [after [_ H]]. revert H. cbn [hd].
  apply for_each_load; [|constructor].
  intros acc row acc' Hacc H. unfold demand_row in H. bind_inv H. revert H.
  apply for_each_load; [|exact Hacc].
  intros s idx s'. apply demand_cell_ok.
Qed.

(** ** The exceptions of the loaders *)

Lemma bind_reads (A B : Type) (m : outcome A) (k : A -> outcome B) :
  reads_rows m -> (forall a, m = Ok a -> reads_rows (k a)) ->
  reads_rows (bind m k).
Proof. destruct m as [a|e|]; cbn; auto. Qed.

Lemma for_each_reads (A S : Type) (body : S -> A -> outcome S) (l : list A)
    (s : S) :
  (forall s x, reads_rows (body s x)) -> reads_rows (for_each body l s).
Proof.
  intro H. revert s. induction l as [|x r IH]; intro s; cbn [for_each].
  - exact I.
  - apply bind_reads; [apply H|]. intros a _. apply IH.
Qed.

Lemma getitem_reads (row : list cell) (idx : nat) : reads_rows (getitem row idx).
Proof. unfold getitem. now destruct (nth_error row idx). Qed.

Lemma or_empty_reads (c : cell) : reads_rows (or_empty c).
Proof. unfold or_empty. destruct (truthy c); [|exact I]. now destruct c. Qed.

Lemma to_float_reads (ops : StrOps) (c : cell) (default : float) :
  reads_rows (_to_float ops c default).
Proof.
  destruct c as [|n|x|s|d]; cbn; try exact I.
  - now destruct (finite64 (float_of_int n)).
  - destruct (parse_float ops s); try exact I.
    now destruct (parse_float ops (clean s)).
Qed.

Lemma lookup_reads (cm : dict string nat) (col : string) :
  dict_mem String.eqb cm col = true -> reads_rows (lookup cm col).
Proof.
  unfold dict_mem, lookup. now destruct (dict_get String.eqb cm col).
Qed.

Lemma optional_cell_reads (A : Type) (row : list cell) (idx : option nat)
    (f : cell -> outcome A) (dflt : A) :
  (forall c, reads_rows (f c)) -> reads_rows (optional_cell row idx f dflt).
Proof.
  intro H. unfold optional_cell. destruct idx as [i|]; [|exact I].
  apply bind_reads; [apply getitem_reads|]. intros c _. apply H.
Qed.

Ltac reads_step :=
  first [ exact I
        | apply getitem_reads
        | apply or_empty_reads
        | apply to_float_reads
        | apply lookup_reads; assumption
        | apply optional_cell_reads; intro; reads_step
        | apply bind_reads; [reads_step|intros ? _] ].

Lemma demand_row_reads (ops : StrOps) (cm : dict string nat)
    (header : list cell) (date_cols : list nat) (rows : list DemandRow.t)
    (row : list cell) :
  (forall col, In col demand_required -> dict_mem String.eqb cm col = true) ->
  reads_rows (demand_row ops cm header date_cols rows row).
Proof.
  intro Hreq.
  assert (H1 := Hreq "Код РЦ"%string). assert (H2 := Hreq "Наименование РЦ"%string).
  assert (H3 := Hreq "Код PLU"%string).
  assert (H4 := Hreq "Наименование PLU"%string).
  unfold demand_required in *. cbn [In] in *.
  specialize (H1 ltac:(tauto)). specialize (H2 ltac:(tauto)).
  specialize (H3 ltac:(tauto)). specialize (H4 ltac:(tauto)).
  unfold demand_row. repeat reads_step.
  apply for_each_reads. intros s idx. unfold demand_cell.
  repeat reads_step.
  destruct (Qle_bool _ 0); [exact I|]. repeat reads_step.
  now destruct (_to_date ops _).
Qed.

Lemma reserve_row_reads (ops : StrOps) (cm : dict string nat)
    (info : ReserveInfo.t) (row : list cell) :
  dict_mem String.eqb cm "Код поставщика"%string = true ->
  dict_mem String.eqb cm "Код PLU"%string = true ->
  reads_rows (reserve_row ops cm info row).
Proof.
  intros H1 H2. unfold reserve_row. cbv zeta. repeat reads_step.
  destruct (_ =? 0); repeat reads_step.
Qed.

Lemma reads_rows_template (A : Type) (o : outcome A) :
  reads_rows o -> reads_template_rows o.
Proof. destruct o as [a|[]|]; cbn; tauto. Qed.

Lemma bind_reads_template (A B : Type) (m : outcome A) (k : A -> outcome B) :
  reads_template_rows m -> (forall a, m = Ok a -> reads_template_rows (k a)) ->
  reads_template_rows (bind m k).
Proof. destruct m as [a|e|]; cbn; auto. Qed.

Lemma for_each_reads_template (A S : Type) (body : S -> A -> outcome S)
    (l : list A) (s : S) :
  (forall s x, reads_template_rows (body s x)) ->
  reads_template_rows (for_each body l s).
Proof.
  intro H. revert s. induction l as [|x r IH]; intro s; cbn [for_each].
  - exact I.
  - apply bind_reads_template; [apply H|]. intros a _. apply IH.
Qed.

Lemma round_div_checked_reads (numer denom : Z) :
  reads_template_rows (round_div_checked numer denom).
Proof.
  unfold round_div_checked. destruct (denom <=? 0); [exact I|].
  destruct (negb _ || negb _ || negb _); [exact I|].
  destruct (finite64 _); [exact I|reflexivity].
Qed.

Ltac reads_template_step :=
  first [ exact I
        | apply bind_reads_template;
          [apply reads_rows_template;
           first [ apply getitem_reads
                 | apply or_empty_reads
                 | apply to_float_reads
                 | apply lookup_reads; assumption ]
          |intros ? _] ].

Lemma template_row_reads (ops : StrOps) (cm : dict string nat)
    (data : TemplateData.t) (row : list cell) :
  (forall col, In col template_required -> dict_mem String.eqb cm col = true) ->
  reads_template_rows (template_row ops cm data row).
Proof.
  intro Hreq.
  assert (H1 := Hreq "Дата поставки"%string).
  assert (H2 := Hreq "SAP поставщика"%string).
  assert (H3 := Hreq "Поставщик"%string).
  assert (H4 := Hreq "PLU"%string).
  assert (H5 := Hreq "Наименование "%string).
  assert (H6 := Hreq "РЦ"%string).
  assert (H7 := Hreq "Наименование РЦ"%string).
  assert (H8 := Hreq "Объем"%string).
  assert (H9 := Hreq "лог плечо"%string).
  assert (H10 := Hreq "Квант паллет"%string).
  assert (H11 := Hreq "паллеты"%string).
  unfold template_required in *. cbn [In] in *.
  specialize (H1 ltac:(tauto)). specialize (H2 ltac:(tauto)).
  specialize (H3 ltac:(tauto)). specialize (H4 ltac:(tauto)).
  specialize (H5 ltac:(tauto)). specialize (H6 ltac:(tauto)).
  specialize (H7 ltac:(tauto)). specialize (H8 ltac:(tauto)).
  specialize (H9 ltac:(tauto)). specialize (H10 ltac:(tauto)).
  specialize (H11 ltac:(tauto)).
  unfold template_row. do 2 reads_template_step.
  destruct (_to_date ops _); [|exact I]. repeat reads_template_step.
  apply bind_reads_template; [|intros ? _; exact I].
  destruct (_ && _); [apply round_div_checked_reads|exact I].
Qed.

Lemma in_enumerate (A : Type) (l : list A) (x : A) :
  In x l <-> exists i, In (i, x) (enumerate l).
Proof.
  unfold enumerate. split.
  - generalize 0%nat. induction l as [|y r IH]; intros a; cbn; [tauto|].
    intros [->|H]; [exists a; now left|].
    destruct (IH (S a) H) as [i Hi]. exists i. now right.
  - intros [i H]. eapply in_combine_r; eassumption.
Qed.

Lemma col_map_fold_mem (col : string) (l : list (nat * cell))
    (d : dict string nat) :
  nonempty col = true ->
  dict_mem String.eqb
    (fold_left
       (fun d ic =>
          match snd ic with
          | CStr s => if nonempty s then dict_set String.eqb d s (fst ic) else d
          | _ => d
          end) l d) col = true
  <-> dict_mem String.eqb d col = true \/ exists i, In (i, CStr col) l.
Proof.
  intro Hne. revert d. induction l as [|[i c] r IH]; intro d; cbn [fold_left].
  - split; [auto|]. intros [H|[i []]]. exact H.
  - rewrite IH. cbn [snd fst]. split.
    + intros [H|[j Hj]]; [|right; exists j; now right].
      destruct c as [|n|x|s|dd]; auto.
      destruct (nonempty s) eqn:Es; auto.
      rewrite (@dict_mem_set _ _ _ String.eqb_eq) in H.
      apply orb_true_iff in H. destruct H as [H|H]; [|now left].
      apply String.eqb_eq in H. subst s. right. exists i. now left.
    + intros [H|[j [Hj|Hj]]].
      * left. destruct c as [|n|x|s|dd]; auto.
        destruct (nonempty s); auto.
        rewrite (@dict_mem_set _ _ _ String.eqb_eq), H. apply orb_true_r.
      * injection Hj as -> ->. left. rewrite Hne.
        rewrite (@dict_mem_set _ _ _ String.eqb_eq), String.eqb_refl.
        reflexivity.
      * right. exists j. exact Hj.
Qed.

(** A column is in the column map when the header has a cell with its
    name. *)
Lemma col_map_mem (header : list cell) (col : string) :
  nonempty col = true ->
  dict_mem String.eqb (col_map header) col = true <-> In (CStr col) header.
Proof.
  intro Hne. unfold col_map. rewrite (@col_map_fold_mem col _ [] Hne), in_enumerate.
  split; [intros [H|H]; [discriminate|exact H]|auto].
Qed.

Lemma require_columns_spec (cm : dict string nat) (required : list string)
    (file : string) :
  (require_columns cm required file = Ok tt
   /\ forall col, In col required -> dict_mem String.eqb cm col = true)
  \/ exists found col rest,
       required = found ++ col :: rest
       /\ (forall c, In c found -> dict_mem String.eqb cm c = true)
       /\ dict_mem String.eqb cm col = false
       /\ require_columns cm required file
          = Raise (ValueError (missing_column col file)).
Proof.
  induction required as [|col rest IH]; cbn [require_columns].
  - left. split; [reflexivity|]. intros col [].
  - destruct (dict_mem String.eqb cm col) eqn:M.
    + destruct IH as [[E H]|[found [c [rest' [Er [Hf [Hm E]]]]]]].
      * left. split; [exact E|]. intros c [<-|Hc]; auto.
      * right. exists (col :: found), c, rest'. subst rest.
        split; [reflexivity|]. split; [|split; assumption].
        intros c' [<-|Hc']; auto.
    + right. exists [], col, rest. split; [reflexivity|].
      split; [intros c []|]. split; [exact M|reflexivity].
Qed.

Lemma required_nonempty (col : string) :
  In col demand_required \/ In col template_required -> nonempty col = true.
Proof.
  unfold demand_required, template_required. cbn [In].
  intros [H|H]; repeat (destruct H as [<-|H]; [reflexivity|]); destruct H.
Qed.

(** ** What a loaded catalog, template and demand look like *)

(** X18: A catalog returned by load_reserve (cells: None, int, float,
    text or datetime) stores nothing under the code 0 and no zero or
    empty value: every stored capacity, pallet weight and stock quantity
    is non-zero, every stored name non-empty, rc_name stays empty; a
    (supplier, plu) has a stock quantity exactly when the supplier is in
    suppliers_by_plu[plu], and no supplier list is empty or contains 0. *)
Theorem load_reserve_wellformed (ops : StrOps) (ws : list (list cell))
    (info : ReserveInfo.t) :
  load_reserve ops ws = Ok info -> catalog_ok info.
Proof. apply load_reserve_ok. Qed.

Lemma load_reserve_wellformed_witness : catalog_ok sample_catalog.
Proof.
  apply (@load_reserve_wellformed no_text sample_reserve_ws sample_catalog).
  vm_compute. reflexivity.
Defined.

(** X19: On a catalog returned by load_reserve the truck capacity of a
    supplier is never a stored zero: cap = 0 only when the supplier has
    no max_pallets entry and default_truck_pallets is 0. (A zero or
    missing max-quant cell falls back to the min-quant cell, and a zero
    there leaves the supplier without entry, so the default applies.) *)
Theorem loaded_catalog_capacity (ops : StrOps) (ws : list (list cell))
    (info : ReserveInfo.t) (options : RunOptions.t) (s : Z) :
  load_reserve ops ws = Ok info ->
  truck_capacity info options s = 0 ->
  RunOptions.default_truck_pallets options = 0
  /\ dict_get Z.eqb (ReserveInfo.max_pallets info) s = None.
Proof.
  intros H. apply load_reserve_ok in H. destruct H as [Hcap _ _ _ _ _ _].
  unfold truck_capacity, dict_get_default.
  destruct (dict_get Z.eqb (ReserveInfo.max_pallets info) s) as [c|] eqn:G.
  - intros ->. destruct (Hcap s 0 G) as [_ H]. now elim H.
  - auto.
Qed.

Lemma loaded_catalog_capacity_witness :
  RunOptions.default_truck_pallets zero_default_options = 0
  /\ dict_get Z.eqb (ReserveInfo.max_pallets sample_catalog) 8 = None.
Proof.
  apply (@loaded_catalog_capacity no_text sample_reserve_ws sample_catalog
           zero_default_options 8).
  - vm_compute. reflexivity.
  - vm_compute. reflexivity.
Defined.

(** X20: A template returned by load_template has, for every key (rc,
    plu, date), total_pallets equal to the sum of its
    pallets_by_supplier, at least one supplier, base_demand 0; stored
    pallet weights and shoulders are non-zero (shoulders only for
    supplier and rc different from 0) and stored names non-empty. *)
Theorem load_template_wellformed (ops : StrOps) (ws : list (list cell))
    (data : TemplateData.t) :
  load_template ops ws = Ok data -> template_ok data.
Proof. apply load_template_ok. Qed.

Lemma load_template_wellformed_witness : template_ok sample_loaded_template.
Proof.
  apply (@load_template_wellformed no_text sample_template_ws
           sample_loaded_template).
  vm_compute. reflexivity.
Defined.

(** X21: Every demand record of a list load_demand returns with finite
    quantities has qty > 0 and a date that is the date read from a
    header cell of the sheet: cells with a quantity <= 0 (or unreadable,
    hence 0.0) and columns whose header is not a date produce no record.
    (A cell whose conversion is inf or nan, such as the text 'nan', is
    outside the model: the loader's result is then Unmodelled, not a
    list.) *)
Theorem load_demand_rows_positive (ops : StrOps) (ws : list (list cell))
    (rows : list DemandRow.t) :
  load_demand ops ws = Ok rows ->
  Forall (fun r => (0 < DemandRow.qty r)%Q
                   /\ exists h, In h (hd [] ws)
                        /\ _to_date ops h = Some (DemandRow.date r)) rows.
Proof. apply load_demand_ok. Qed.

Lemma load_demand_rows_positive_witness :
  Forall (fun r => (0 < DemandRow.qty r)%Q
                   /\ exists h, In h (hd [] sample_demand_ws)
                        /\ _to_date no_text h = Some (DemandRow.date r))
    sample_demand.
Proof.
  apply (@load_demand_rows_positive no_text sample_demand_ws sample_demand).
  vm_compute. reflexivity.
Defined.

(** X22: On a sheet with a header row, load_demand and load_template
    raise ValueError naming the first missing column of their required
    list exactly when a required column name is missing from the header,
    and load_reserve raises its ValueError exactly when 'Код поставщика'
    or 'Код PLU' is missing. When the columns are present the col_map
    lookups never raise KeyError; load_demand and load_reserve can then
    only raise the IndexError of a row shorter than a column index, and
    load_template only that, or the exceptions of its rounded division
    _round_div(int(round(volume)), int(round(pallet_weight))):
    ValueError 'cannot convert float NaN to integer' when numer +
    denom/2 overflows, OverflowError when an integer is too large for a
    float. (A sheet with a cell whose conversion is inf or nan, or with
    a number or a date in a name column, is outside the model: the
    loaders then answer Unmodelled, about which nothing is claimed.) *)
Theorem loaders_exceptions (ops : StrOps) (header : list cell)
    (data : list (list cell)) :
  (((forall col, In col demand_required -> In (CStr col) header)
    /\ reads_rows (load_demand ops (header :: data)))
   \/ exists found col rest,
        demand_required = found ++ col :: rest
        /\ (forall c, In c found -> In (CStr c) header)
        /\ ~ In (CStr col) header
        /\ load_demand ops (header :: data)
           = Raise (ValueError (missing_column col "потребности")))
  /\ ((In (CStr "Код поставщика") header /\ In (CStr "Код PLU") header
       /\ reads_rows (load_reserve ops (header :: data)))
      \/ ((~ In (CStr "Код поставщика") header \/ ~ In (CStr "Код PLU") header)
          /\ load_reserve ops (header :: data)
             = Raise (ValueError
                        "Не найдены обязательные колонки в файле резерва.")))
  /\ (((forall col, In col template_required -> In (CStr col) header)
       /\ reads_template_rows (load_template ops (header :: data)))
      \/ exists found col rest,
           template_required = found ++ col :: rest
           /\ (forall c, In c found -> In (CStr c) header)
           /\ ~ In (CStr col) header
           /\ load_template ops (header :: data)
              = Raise (ValueError (missing_column col "образца"))).
Proof.
  split; [|split].
  - unfold load_demand.
    destruct (require_columns_spec (col_map header) demand_required
                "потребности") as [[E H]|[found [col [rest [Er [Hf [Hm E]]]]]]].
    + left. split.
      * intros col Hc. apply col_map_mem; [apply required_nonempty; now left|].
        now apply H.
      * rewrite E. cbn [bind]. apply bind_reads.
        { apply lookup_reads. apply H. unfold demand_required. cbn. tauto. }
        intros after _. apply for_each_reads. intros s x.
        now apply demand_row_reads.
    + right. exists found, col, rest. split; [exact Er|].
      assert (Hin : forall c, In c (found ++ col :: rest) ->
                      nonempty c = true).
      { intros c Hc. apply required_nonempty. left. now rewrite Er. }
      split; [|split].
      * intros c Hc. apply col_map_mem; [|now apply Hf].
        apply Hin. apply in_or_app. now left.
      * intro Hc. apply col_map_mem in Hc; [congruence|].
        apply Hin. apply in_or_app. right. now left.
      * now rewrite E.
  - unfold load_reserve.
    destruct (dict_mem String.eqb (col_map header) "Код поставщика"%string) eqn:M1;
      destruct (dict_mem String.eqb (col_map header) "Код PLU"%string) eqn:M2;
      cbn [negb orb].
    + left. split; [now apply col_map_mem in M1|].
      split; [now apply col_map_mem in M2|].
      apply for_each_reads. intros s x. now apply reserve_row_reads.
    + right. split; [|reflexivity]. right. intro H.
      apply col_map_mem in H; [congruence|reflexivity].
    + right. split; [|reflexivity]. left. intro H.
      apply col_map_mem in H; [congruence|reflexivity].
    + right. split; [|reflexivity]. left. intro H.
      apply col_map_mem in H; [congruence|reflexivity].
  - unfold load_template.
    destruct (require_columns_spec (col_map header) template_required
                "образца") as [[E H]|[found [col [rest [Er [Hf [Hm E]]]]]]].
    + left. split.
      * intros col Hc. apply col_map_mem; [apply required_nonempty; now right|].
        now apply H.
      * rewrite E. cbn [bind]. apply for_each_reads_template. intros s x.
        now apply template_row_reads.
    + right. exists found, col, rest. split; [exact Er|].
      assert (Hin : forall c, In c (found ++ col :: rest) ->
                      nonempty c = true).
      { intros c Hc. apply required_nonempty. right. now rewrite Er. }
      split; [|split].
      * intros c Hc. apply col_map_mem; [|now apply Hf].
        apply Hin. apply in_or_app. now left.
      * intro Hc. apply col_map_mem in Hc; [congruence|].
        apply Hin. apply in_or_app. right. now left.
      * now rewrite E.
Qed.

(** ** The whole run *)

(** X23: run_plan runs to its end (the packing loop ends and
    write_output builds the sheet it hands to the workbook library,
    whose file operations are not modelled) whenever the three loaders
    succeed with finite values (the template only being loaded when a
    path is given and use_template is set), the loaded data is in the
    finite range (build_in_range, and item_in_range for the allocation
    items), default_truck_pallets >= 1 and no capacity stored in the
    loaded catalog is negative: through the loaders the zero-capacity
    loop of pack_trucks can only be reached with a negative quant cell
    or a default below 1. *)
Theorem run_plan_returns (ops : StrOps)
    (demand_ws reserve_ws : list (list cell))
    (template_ws : option (list (list cell))) (options : option RunOptions.t)
    (demand_rows : list DemandRow.t) (info : ReserveInfo.t)
    (template : option TemplateData.t) :
  let opts := match options with Some o => o | None => RunOptions.default end in
  load_demand ops demand_ws = Ok demand_rows ->
  load_reserve ops reserve_ws = Ok info ->
  optional_template ops template_ws opts = Ok template ->
  build_in_range demand_rows info template = true ->
  forallb item_in_range
    (fst (fst (build_allocations demand_rows info template opts))) = true ->
  1 <= RunOptions.default_truck_pallets opts ->
  (forall s c, dict_get Z.eqb (ReserveInfo.max_pallets info) s = Some c ->
               0 <= c) ->
  exists fuel sheet,
    run_plan ops fuel demand_ws reserve_ws template_ws options
    = Ok (Some sheet).
Proof.
  intros opts Hd Hr Ht _ _ Hdef Hpos.
  pose proof (load_reserve_ok _ _ Hr) as [Hcap _ _ _ _ _ _].
  assert (Hall : forall s, 1 <= truck_capacity info opts s).
  { intro s. unfold truck_capacity, dict_get_default.
    destruct (dict_get Z.eqb (ReserveInfo.max_pallets info) s) as [c|] eqn:G;
      [|exact Hdef].
    destruct (Hcap s c G) as [_ Hc]. specialize (Hpos s c G). lia. }
  destruct (run_core_terminates demand_rows info template opts Hall)
    as [fuel [out E]].
  exists fuel, (write_output out). unfold run_plan. fold opts.
  rewrite Hd, Hr. cbn [bind]. rewrite Ht. cbn [bind]. now rewrite E.
Qed.

Lemma run_plan_returns_witness :
  exists fuel sheet,
    run_plan no_text fuel sample_demand_ws sample_reserve_ws
      (Some sample_template_ws) None
    = Ok (Some sheet).
Proof.
  apply (@run_plan_returns no_text sample_demand_ws sample_reserve_ws
           (Some sample_template_ws) None sample_demand sample_catalog
           (Some sample_loaded_template)).
  - vm_compute. reflexivity.
  - vm_compute. reflexivity.
  - vm_compute. reflexivity.
  - vm_compute. reflexivity.
  - vm_compute. reflexivity.
  - vm_compute. discriminate.
  - intros s c H. change (dict_get Z.eqb [(7, 3)] s = Some c) in H.
    cbn [dict_get] in H. destruct (7 =? s); [|discriminate].
    injection H as <-. lia.
Defined.

(** * Step 3 of the allocation builder: one split per record *)

(** The items of a record are the entries of its split that have pallets
    to deliver, in the order of the split. *)
Lemma row_items_entries (reserve : ReserveInfo.t)
    (template : option TemplateData.t) (row : DemandRow.t)
    (split : dict Z Z) :
  map (fun it => (AllocationItem.supplier it, AllocationItem.pallets it))
      (row_items reserve template row split)
  = filter (fun sp => 0 <? snd sp) split.
Proof.
  unfold row_items. induction split as [|[s p] rest IH]; [reflexivity|].
  cbn [flat_map filter snd]. rewrite map_app, IH.
  destruct (Z.leb_spec p 0); destruct (Z.ltb_spec 0 p); try lia; reflexivity.
Qed.

Lemma row_items_record (reserve : ReserveInfo.t)
    (template : option TemplateData.t) (row : DemandRow.t)
    (split : dict Z Z) :
  Forall (fun it =>
            AllocationItem.rc it = DemandRow.rc row
            /\ AllocationItem.plu it = DemandRow.plu row
            /\ AllocationItem.date it = DemandRow.date row
            /\ AllocationItem.pallet_weight it
               = row_pallet_weight reserve template (DemandRow.plu row))
         (row_items reserve template row split).
Proof.
  apply Forall_forall. intros it H. unfold row_items in H.
  apply in_flat_map in H. destruct H as [[s p] [_ H]].
  destruct (p <=? 0); [destruct H|]. destruct H as [<-|[]]. cbn. tauto.
Qed.

(** The base demand the first loop leaves in a template entry. *)
Lemma set_base_demand_get (demand_by_key : dict key float)
    (t : TemplateData.t) (k : key) :
  dict_get key_eqb (TemplateData.entries (set_base_demand demand_by_key t)) k
  = option_map
      (fun entry =>
         TemplateEntry.mk (TemplateEntry.pallets_by_supplier entry)
           (TemplateEntry.total_pallets entry)
           (round_half_even (dict_get_default key_eqb demand_by_key k 0%Q)))
      (dict_get key_eqb (TemplateData.entries t) k).
Proof.
  unfold set_base_demand. cbn [TemplateData.entries].
  induction (TemplateData.entries t) as [|[k0 e0] rest IH]; [reflexivity|].
  cbn [map dict_get fst snd]. destruct (key_eqb k0 k) eqn:E; [|exact IH].
  apply key_eqb_eq in E. subst k0. reflexivity.
Qed.

(** The aggregated quantity of a key is the float sum of the quantities of
    its records, added in the order of the records. *)
Lemma aggregate_fold_sum (demand_rows : list DemandRow.t)
    (acc : dict key float * ReserveInfo.t) (k : key) :
  dict_get_default key_eqb (fst (fold_left aggregate_step demand_rows acc)) k
    0%Q
  = fold_left float_add
      (map DemandRow.qty
         (filter (fun row => key_eqb (row_key row) k) demand_rows))
      (dict_get_default key_eqb (fst acc) k 0%Q).
Proof.
  revert acc. induction demand_rows as [|row rest IH]; intro acc;
    cbn [fold_left filter]; [reflexivity|].
  rewrite IH, aggregate_step_demand.
  assert (G : dict_get_default key_eqb
                (dict_set key_eqb (fst acc) (row_key row)
                   (float_add
                      (dict_get_default key_eqb (fst acc) (row_key row) 0%Q)
                      (DemandRow.qty row))) k 0%Q
              = if key_eqb (row_key row) k
                then float_add (dict_get_default key_eqb (fst acc) k 0%Q)
                       (DemandRow.qty row)
                else dict_get_default key_eqb (fst acc) k 0%Q).
  { unfold dict_get_default at 1. rewrite (@dict_get_set _ _ _ key_eqb_eq).
    destruct (key_eqb (row_key row) k) eqn:E; [|reflexivity].
    apply key_eqb_eq in E. now rewrite E. }
  rewrite G. now destruct (key_eqb (row_key row) k).
Qed.

(** The items of Step 4 come from template entries whose key has no demand
    record. *)
Lemma step4_items_origin (demand_rows : list DemandRow.t)
    (reserve : ReserveInfo.t) (template : option TemplateData.t)
    (options : RunOptions.t) (it : AllocationItem.t) :
  In it (step4_items (fst (aggregate demand_rows reserve))
           (snd (aggregate demand_rows reserve))
           (option_map (set_base_demand (fst (aggregate demand_rows reserve)))
              template) options) ->
  exists t entry,
    template = Some t
    /\ RunOptions.use_template options = true
    /\ RunOptions.include_template_without_demand options = true
    /\ In ((AllocationItem.rc it, AllocationItem.plu it,
            AllocationItem.date it), entry) (TemplateData.entries t)
    /\ In (AllocationItem.supplier it, AllocationItem.pallets it)
         (TemplateEntry.pallets_by_supplier entry)
    /\ 0 < AllocationItem.pallets it
    /\ forall row, In row demand_rows ->
         row_key row
         <> (AllocationItem.rc it, AllocationItem.plu it,
             AllocationItem.date it).
Proof.
  intro H. unfold step4_items in H.
  destruct template as [t|]; [|destruct H]. cbn [option_map] in H.
  destruct (RunOptions.use_template options); [|destruct H].
  destruct (RunOptions.include_template_without_demand options);
    [|destruct H].
  cbn [andb] in H. pose proof (template_only_items_positive _ _ _ _ H) as Hpos.
  apply template_only_items_fields in H.
  destruct H as [_ [M [entry' [Hin Hsp]]]].
  apply set_base_demand_entries_inv in Hin.
  destruct Hin as [entry [Hin [Hp _]]].
  exists t, entry. repeat split; try assumption.
  - now rewrite <- Hp.
  - intros row Hrow E.
    destruct (aggregate_keys demand_rows reserve) as [_ Hkeys].
    assert (Hk : In (row_key row)
                   (map fst (fst (aggregate demand_rows reserve)))).
    { apply Hkeys. exists row. split; [exact Hrow|reflexivity]. }
    rewrite E in Hk.
    apply (@dict_mem_iff _ _ _ key_eqb_eq) in Hk. congruence.
Qed.

(** C1 (as amended): in the finite range of binary64 ([build_in_range]),
    Step 3 determines one split per demand record, from that record's own
    quantity.  The items of [build_allocations] are the
    items of the records, record by record, followed by the template-only
    items; the items of a record are the entries of its split with
    [pallets > 0], in the order of the split, each with the rc, plu, date
    and pallet weight of the record.  With no usable template the split of
    a record is [{supplier: ceil(row.qty / pallet_weight)}] for the first
    supplier of the product (empty when there is none).  With a template
    entry for the key of the record, the Template Scaler receives the
    historical split, [row.qty] and, as [base_demand], the rounded
    aggregated quantity of the key, when [scale_template] is set and that
    base demand is positive; otherwise the split is the historical split
    (or empty, when [scale_template] is set and
    [use_template_when_no_demand] is not).  The aggregated quantity of a
    key is the float sum of the quantities of its records in record order.
    The template-only items of Step 4 come from template entries whose key
    has no demand record.  Records sharing a key yield one split each. *)
Theorem one_split_per_record (demand_rows : list DemandRow.t)
    (reserve : ReserveInfo.t) (template : option TemplateData.t)
    (options : RunOptions.t) :
  build_in_range demand_rows reserve template = true ->
  let demand_by_key := fst (aggregate demand_rows reserve) in
  let reserve' := snd (aggregate demand_rows reserve) in
  let template' := option_map (set_base_demand demand_by_key) template in
  let aggregated k := dict_get_default key_eqb demand_by_key k 0%Q in
  fst (fst (build_allocations demand_rows reserve template options))
  = flat_map (fun row =>
                row_items reserve' template' row
                  (row_split reserve' template' options row))
             demand_rows
    ++ step4_items demand_by_key reserve' template' options
  /\ (forall row split,
        map (fun it => (AllocationItem.supplier it, AllocationItem.pallets it))
            (row_items reserve' template' row split)
        = filter (fun sp => 0 <? snd sp) split
        /\ Forall (fun it =>
                     AllocationItem.rc it = DemandRow.rc row
                     /\ AllocationItem.plu it = DemandRow.plu row
                     /\ AllocationItem.date it = DemandRow.date row
                     /\ AllocationItem.pallet_weight it
                        = row_pallet_weight reserve' template'
                            (DemandRow.plu row))
                  (row_items reserve' template' row split))
  /\ (forall row,
        template = None \/ RunOptions.use_template options = false
        \/ (exists t, template = Some t
              /\ dict_get key_eqb (TemplateData.entries t) (row_key row) = None) ->
        row_split reserve' template' options row
        = match dict_get_default Z.eqb (ReserveInfo.suppliers_by_plu reserve)
                  (DemandRow.plu row) [] with
          | s :: _ =>
              if s =? 0 then []
              else [(s, math_ceil
                          (float_div (DemandRow.qty row)
                             (row_pallet_weight reserve' template'
                                (DemandRow.plu row))))]
          | [] => []
          end)
  /\ (forall row t entry,
        template = Some t -> RunOptions.use_template options = true ->
        dict_get key_eqb (TemplateData.entries t) (row_key row) = Some entry ->
        (RunOptions.scale_template options = true ->
         0 < round_half_even (aggregated (row_key row)) ->
         row_split reserve' template' options row
         = _scale_pallets (TemplateEntry.pallets_by_supplier entry)
             (round_half_even (aggregated (row_key row)))
             (DemandRow.qty row))
        /\ (RunOptions.scale_template options = false
            \/ round_half_even (aggregated (row_key row)) <= 0 ->
            row_split reserve' template' options row
            = if RunOptions.use_template_when_no_demand options
                 || negb (RunOptions.scale_template options)
              then TemplateEntry.pallets_by_supplier entry
              else []))
  /\ (forall k,
        aggregated k
        = fold_left float_add
            (map DemandRow.qty
               (filter (fun row => key_eqb (row_key row) k) demand_rows))
            0%Q)
  /\ (forall it,
        In it (step4_items demand_by_key reserve' template' options) ->
        exists t entry,
          template = Some t
          /\ RunOptions.use_template options = true
          /\ RunOptions.include_template_without_demand options = true
          /\ In ((AllocationItem.rc it, AllocationItem.plu it,
                  AllocationItem.date it), entry) (TemplateData.entries t)
          /\ In (AllocationItem.supplier it, AllocationItem.pallets it)
               (TemplateEntry.pallets_by_supplier entry)
          /\ 0 < AllocationItem.pallets it
          /\ forall row, In row demand_rows ->
               row_key row
               <> (AllocationItem.rc it, AllocationItem.plu it,
                   AllocationItem.date it)).
Proof.
  intros _ demand_by_key reserve' template' aggregated.
  assert (Hsup : ReserveInfo.suppliers_by_plu reserve'
                 = ReserveInfo.suppliers_by_plu reserve).
  { apply (aggregate_fold_fixed demand_rows ([], reserve)). }
  split; [|split; [|split; [|split; [|split]]]].
  - subst demand_by_key reserve' template'.
    rewrite build_allocations_outputs. reflexivity.
  - intros row split. split; [apply row_items_entries|apply row_items_record].
  - intros row H. unfold row_split. rewrite Hsup.
    assert (G : template' = None \/ RunOptions.use_template options = false
                \/ exists t', template' = Some t'
                     /\ dict_get key_eqb (TemplateData.entries t') (row_key row)
                        = None).
    { destruct H as [->|[H|[t [-> Hg]]]]; [now left|now right; left|].
      right. right. eexists. split; [reflexivity|].
      rewrite set_base_demand_get, Hg. reflexivity. }
    destruct template' as [t'|].
    + destruct G as [G|[G|[t'' [Ht Hg]]]]; [discriminate| |].
      * rewrite G. now destruct (dict_get_default _ _ _ _).
      * injection Ht as <-. rewrite Hg.
        destruct (RunOptions.use_template options);
          now destruct (dict_get_default _ _ _ _).
    + now destruct (dict_get_default _ _ _ _).
  - intros row t entry Ht Hu Hg. subst template' template. cbn [option_map].
    unfold row_split. rewrite Hu, set_base_demand_get, Hg. cbn [option_map].
    cbn [TemplateEntry.base_demand TemplateEntry.pallets_by_supplier].
    fold (aggregated (row_key row)). split.
    + intros Hs Hb. rewrite Hs. apply Z.ltb_lt in Hb. now rewrite Hb.
    + intros [Hs|Hb].
      * rewrite Hs. reflexivity.
      * destruct (Z.ltb_spec 0 (round_half_even (aggregated (row_key row))));
          [lia|]. now rewrite andb_false_r.
  - intro k. subst aggregated demand_by_key. cbv beta. unfold aggregate.
    rewrite aggregate_fold_sum. reflexivity.
  - intros it H.
    exact (step4_items_origin demand_rows reserve template options it H).
Qed.

Lemma one_split_per_record_witness :
  row_split (snd (aggregate [sample_row 1; sample_row 1] bare_reserve)) None
    RunOptions.default (sample_row 1)
  = [(7, math_ceil (float_div 1 1))].
Proof.
  refine (proj1 (proj2 (proj2 (@one_split_per_record
                                 [sample_row 1; sample_row 1]
                                 bare_reserve None RunOptions.default
                                 eq_refl)))
            (sample_row 1) _).
  left. reflexivity.
Defined.

(** Two records with the same key and quantity 1 each: the loop determines
    two splits {7: 1}, hence two items of one pallet, where the aggregated
    quantity 2 would give the one split {7: 2}. *)
Lemma one_split_per_key_counterexample :
  ~ one_split_per_key [sample_row 1; sample_row 1] bare_reserve None
      RunOptions.default
  /\ map AllocationItem.pallets
       (fst (fst (build_allocations [sample_row 1; sample_row 1] bare_reserve
                    None RunOptions.default)))
     = [1; 1]
  /\ map snd (fst (aggregate [sample_row 1; sample_row 1] bare_reserve)) = [2%Q]
  /\ split_for_key_spec bare_reserve None RunOptions.default (1, 1, 0) 2
     = [(7, 2)].
Proof.
  split; [|vm_compute; repeat split].
  unfold one_split_per_key. vm_compute. discriminate.
Qed.

